(** * Football analytics platform: correlation analyzer, event-proximity
      profile, matchup projection and defense ranking

    Shallow embedding of
      - [src/app/main.py]: [calculate_matchup_prediction],
        [player_analytics], [add_team_defense], [import_team_defense],
        [view_team_defense], the import loop of [api_fetch_stats], the
        dashboard [analytics], and the accounts ([User], the role
        decorators, [register], [login], [change_user_role]);
      - [src/analytics_service.py]: [calculate_correlation] and
        [run_analysis_cycle];
      - [src/app/data_collector.py]: [get_team_defense_stats],
        [calculate_fantasy_points] and [_estimate_game_date].

    Conventions.
      - A Python [float] is an exact rational ([Q]); decimal literals such
        as [0.12] denote their decimal value, so binary64 rounding noise
        is not part of the model.  Numeric results are compared with
        [==] ([Qeq]).  Where the label of a recommendation, a displayed
        mean or a score turns on a threshold or on a rounding, the
        statement is given for operands of moderate magnitude and clear
        of the threshold, or up to half a unit of the rounded decimal,
        so that the binary64 computation meets it as well.
      - A Python [int] is a [Z]; [len] is a [nat].
      - A [datetime.date] is a (year, month, day) record; a difference
        [(a - b).days] is the difference of the proleptic ordinals.
      - The SQLAlchemy session is an explicit [database] value: a query
        [Model.query.filter_by(...)] is a [List.filter] over the table, in
        table order; [.first()] is the head of that list.
      - A raised exception is the [Raise] branch of [result]. *)

From Stdlib Require Import ZArith QArith Qround Qabs Reals Lra Lia Psatz List Bool.
From stdpp Require Import gmap strings list fin_maps sorting.

Import ListNotations.
Local Open Scope Z_scope.

(* ===================================================================== *)
(** * Part I: definitions                                                 *)
(* ===================================================================== *)

(** ** Python numbers *)

Module PyNum.

(** [a / b] on two [int]s: true division. *)
Definition truediv (a : Z) (b : nat) : Q :=
  (inject_Z a / inject_Z (Z.of_nat b))%Q.

(** Nearest integer, ties to the even one: the rounding of [round]. *)
Definition round_half_even (q : Q) : Z :=
  let f := Qfloor q in
  match ((q - inject_Z f) ?= (1 # 2))%Q with
  | Lt => f
  | Gt => f + 1
  | Eq => if Z.even f then f else f + 1
  end.

(** [round(q, ndigits)] for a float [q] and [ndigits >= 0]. *)
Definition round (q : Q) (ndigits : nat) : Q :=
  let scale := inject_Z (10 ^ Z.of_nat ndigits) in
  (inject_Z (round_half_even (q * scale)) / scale)%Q.

(** [int(q)]: truncation towards zero. *)
Definition int (q : Q) : Z :=
  if Qle_bool 0 q then Qfloor q else Qceiling q.

(** [sum(...)] over floats and over ints. *)
Definition sumQ (l : list Q) : Q := fold_left Qplus l 0%Q.
Definition sumZ (l : list Z) : Z := fold_left Z.add l 0.

(** Truth value of an optional float ([None] and [0.0] are falsy). *)
Definition truthy (x : option Q) : bool :=
  match x with
  | None => false
  | Some q => negb (Qeq_bool q 0)
  end.

End PyNum.

(** ** [datetime.date] *)

Module PyDate.

Record date := mkdate { year : Z; month : Z; day : Z }.

Definition is_leap (y : Z) : bool :=
  (y mod 4 =? 0) && (negb (y mod 100 =? 0) || (y mod 400 =? 0)).

Definition days_before_year (y : Z) : Z :=
  let y := y - 1 in y * 365 + y / 4 - y / 100 + y / 400.

Definition days_in_month : list Z :=
  [31; 28; 31; 30; 31; 30; 31; 31; 30; 31; 30; 31].

Definition days_before_month (y m : Z) : Z :=
  PyNum.sumZ (firstn (Z.to_nat (m - 1)) days_in_month)
  + (if (2 <? m) && is_leap y then 1 else 0).

Definition toordinal (d : date) : Z :=
  days_before_year (year d) + days_before_month (year d) (month d) + day d.

(** [(a - b).days] *)
Definition days_between (a b : date) : Z := toordinal a - toordinal b.

Definition ltb (a b : date) : bool := toordinal a <? toordinal b.
Definition leb (a b : date) : bool := toordinal a <=? toordinal b.

End PyDate.

(** ** Exceptions *)

Inductive exn :=
| KeyError (key : string)
| ZeroDivisionError
| IntegrityError.

Inductive result (A : Type) :=
| Ok (a : A)
| Raise (e : exn).
Arguments Ok {A} a.
Arguments Raise {A} e.

#[global] Instance result_ret : MRet result := fun A a => Ok a.
#[global] Instance result_bind : MBind result := fun A B k m =>
  match m with
  | Ok a => k a
  | Raise e => Raise e
  end.

Fixpoint mapM_result {A B} (f : A -> result B) (l : list A) : result (list B) :=
  match l with
  | [] => Ok []
  | a :: l' => b ← f a; bs ← mapM_result f l'; Ok (b :: bs)
  end.

(** ** The tables ([db.Model] classes of [main.py]) *)

Module Player.
Record t := mk { id : Z; name : string; team : string; position : string }.
End Player.

Module PlayerStats.
Record t := mk {
  player_id : Z;
  game_date : PyDate.date;
  rushing_yards : Z;
  rushing_tds : Z;
  receptions : Z;
  receiving_yards : Z;
  receiving_tds : Z;
  targets : Z;
  fantasy_points : Q
}.
End PlayerStats.

Module LifeEvent.
Record t := mk {
  player_id : Z;
  event_type : string;
  event_category : string;
  event_date : PyDate.date
}.
End LifeEvent.

Module TeamDefenseStats.
Record t := mk {
  team_abbr : string;
  season : Z;
  week : Z;
  pass_yards_allowed_per_game : Q;
  rush_yards_allowed_per_game : Q;
  passing_tds_allowed : Z;
  rushing_tds_allowed : Z;
  sacks : Z;
  pass_defense_rank : Z;
  rush_defense_rank : Z
}.
End TeamDefenseStats.

Module UpcomingGame.
Record t := mk {
  game_date : PyDate.date;
  opponent : string;
  week : Z;
  season : Z;
  prop_receiving_yards : option Q;
  prop_receptions : option Q;
  prop_rush_yards : option Q
}.
End UpcomingGame.

Module PlayerVsTeamHistory.
Record t := mk {
  player_id : Z;
  opponent_team : string;
  receiving_yards : Z;
  rushing_yards : Z
}.
End PlayerVsTeamHistory.

(** The state behind [db.session]. *)
Record database := mkdb {
  tbl_player : list Player.t;
  tbl_player_stats : list PlayerStats.t;
  tbl_life_event : list LifeEvent.t;
  tbl_team_defense_stats : list TeamDefenseStats.t;
  tbl_player_vs_team_history : list PlayerVsTeamHistory.t
}.


(** ** Matchup projection: [calculate_matchup_prediction] (main.py) *)

Module Matchup.

Import PyDate.

(** The entries of [prediction['factors']]; each constructor stands for
    one of the f-strings the source appends. *)
Inductive factor :=
| EventFactor (positive : bool) (category : string) (days_ago : Z)
| ToughMatchup (rank : Z) (defense_kind : string)
| FavorableMatchup (rank : Z) (defense_kind : string)
| StrongHistory (opponent : string) (games : nat)
| StrugglesHistory (opponent : string) (games : nat)
| CrossSeasonBaseline.

(** The [prediction] dict. *)
Record prediction := mkpred {
  base_projection : Q;
  event_adjustment : Q;
  opponent_adjustment : Q;
  final_projection : Q;
  confidence : Z;
  recommendation : string;
  factors : list factor
}.

Definition initial_prediction : prediction :=
  mkpred 0 0 0 0 0 "HOLD" [].

(** [player.position in ['WR', 'TE']] *)
Definition in_WR_TE (position : string) : bool :=
  existsb (String.eqb position) ["WR"; "TE"]%string.

Definition Qleb (a b : Q) : bool := Qle_bool a b.
Definition Qltb (a b : Q) : bool := negb (Qle_bool b a).

(** Step 2, the body of [for event in life_events]; the accumulator is
    [(event_impact, recent_events)]. *)
Definition event_step (game_date : date) (acc : Q * list LifeEvent.t)
    (event : LifeEvent.t) : Q * list LifeEvent.t :=
  let '(event_impact, recent_events) := acc in
  let days_until_game := days_between game_date (LifeEvent.event_date event) in
  if (0 <=? days_until_game) && (days_until_game <=? 7) then
    (if String.eqb (LifeEvent.event_type event) "positive"
     then (event_impact + 0.12)%Q
     else (event_impact - 0.08)%Q,
     recent_events ++ [event])
  else acc.

Definition scan_events (game_date : date) (life_events : list LifeEvent.t)
    : Q * list LifeEvent.t :=
  fold_left (event_step game_date) life_events (0%Q, []).

Definition event_factor (game_date : date) (event : LifeEvent.t) : factor :=
  EventFactor (String.eqb (LifeEvent.event_type event) "positive")
              (LifeEvent.event_category event)
              (days_between game_date (LifeEvent.event_date event)).

(** [TeamDefenseStats.query.filter_by(team_abbr=.., season=.., week=..).first()] *)
Definition query_defense (db : database) (game : UpcomingGame.t)
    : option TeamDefenseStats.t :=
  head (List.filter
          (fun d => String.eqb (TeamDefenseStats.team_abbr d) (UpcomingGame.opponent game)
                    && (TeamDefenseStats.season d =? UpcomingGame.season game)
                    && (TeamDefenseStats.week d =? UpcomingGame.week game))
          (tbl_team_defense_stats db)).

(** [PlayerVsTeamHistory.query.filter_by(player_id=.., opponent_team=..).all()] *)
Definition query_vs_team (db : database) (player : Player.t) (game : UpcomingGame.t)
    : list PlayerVsTeamHistory.t :=
  List.filter
    (fun h => (PlayerVsTeamHistory.player_id h =? Player.id player)
              && String.eqb (PlayerVsTeamHistory.opponent_team h) (UpcomingGame.opponent game))
    (tbl_player_vs_team_history db).

(** [PlayerStats.query.filter_by(player_id=player.id).all()] *)
Definition query_player_stats (db : database) (player : Player.t)
    : list PlayerStats.t :=
  List.filter (fun s => PlayerStats.player_id s =? Player.id player)
              (tbl_player_stats db).

(** Step 3: [rank_multiplier = 1 + ((rank - 16) * 0.02)] and the
    adjustment [base * (rank_multiplier - 1)]. *)
Definition rank_multiplier (rank : Z) : Q :=
  (1 + inject_Z (rank - 16) * 0.02)%Q.

Definition rank_adjustment (base : Q) (rank : Z) : Q :=
  (base * (rank_multiplier rank - 1))%Q.

Definition rank_factors (rank : Z) (defense_kind : string) : list factor :=
  if rank <=? 10 then [ToughMatchup rank defense_kind]
  else if 23 <=? rank then [FavorableMatchup rank defense_kind]
  else [].

(** Step 4: the factor appended for the history against the opponent. *)
Definition history_factors (position : string) (base : Q) (opponent : string)
    (vs_team_history : list PlayerVsTeamHistory.t) : list factor :=
  match vs_team_history with
  | [] => []
  | _ :: _ =>
    let avg_vs_team :=
      if in_WR_TE position
      then PyNum.truediv (PyNum.sumZ (map PlayerVsTeamHistory.receiving_yards vs_team_history))
                         (length vs_team_history)
      else PyNum.truediv (PyNum.sumZ (map PlayerVsTeamHistory.rushing_yards vs_team_history))
                         (length vs_team_history) in
    if Qltb (base * 1.15) avg_vs_team
    then [StrongHistory opponent (length vs_team_history)]
    else if Qltb avg_vs_team (base * 0.85)
    then [StrugglesHistory opponent (length vs_team_history)]
    else []
  end.

(** Step 6: [confidence_factors]. *)
Definition confidence_factors (recent_events : list LifeEvent.t)
    (defense : option TeamDefenseStats.t)
    (vs_team_history : list PlayerVsTeamHistory.t)
    (stats : list PlayerStats.t) : Z :=
  let c := 0 in
  let c := match recent_events with [] => c | _ :: _ => c + 25 end in
  let c := match defense with None => c | Some _ => c + 35 end in
  let c := match vs_team_history with [] => c | _ :: _ => c + 20 end in
  let c := if (5 <=? length stats)%nat then c + 20 else c in
  c.

(** Step 7: the recommendation; [current] is the value already in the
    dict, which every untaken branch leaves in place.  [diff] is the
    difference of the two numbers; the binary64 difference of the source
    is within a billionth of it for operands up to a million. *)
Definition recommend (position : string) (game : UpcomingGame.t)
    (final : Q) (conf : Z) (current : string) : string :=
  if PyNum.truthy (UpcomingGame.prop_receiving_yards game)
     || PyNum.truthy (UpcomingGame.prop_rush_yards game)
  then
    let prop_line := if in_WR_TE position
                     then UpcomingGame.prop_receiving_yards game
                     else UpcomingGame.prop_rush_yards game in
    match prop_line with
    | Some line =>
      if PyNum.truthy prop_line then
        let diff := (final - line)%Q in
        if Qleb 8 diff && (60 <=? conf) then "STRONG OVER"
        else if Qleb 4 diff then "LEAN OVER"
        else if Qleb diff (-8) && (60 <=? conf) then "STRONG UNDER"
        else if Qleb diff (-4) then "LEAN UNDER"
        else "HOLD"
      else current
    | None => current
    end
  else current.

(** The block after step 7: the player's stats are read again from the
    session and the confidence is scaled when the season of the game is
    not the year of the first stored row. *)
Definition cross_season (db : database) (player : Player.t)
    (game : UpcomingGame.t) (p : prediction) : prediction :=
  match query_player_stats db player with
  | [] => p
  | s0 :: _ =>
    let stats_year := year (PlayerStats.game_date s0) in
    if negb (UpcomingGame.season game =? stats_year) then
      mkpred (base_projection p) (event_adjustment p) (opponent_adjustment p)
             (final_projection p)
             (PyNum.int (inject_Z (confidence p) * 0.85))
             (recommendation p)
             (factors p ++ [CrossSeasonBaseline])
    else p
  end.

(** Steps 1 to 7 on a non-empty [stats]: the [prediction] dict as it
    stands when step 7 is done. *)
Definition steps_1_to_7 (db : database) (player : Player.t)
    (upcoming_game : UpcomingGame.t) (life_events : list LifeEvent.t)
    (stats : list PlayerStats.t) : prediction :=
  (* 1. base projection *)
  let season_avg_rec_yards :=
    PyNum.truediv (PyNum.sumZ (map PlayerStats.receiving_yards stats)) (length stats) in
  let season_avg_rush_yards :=
    PyNum.truediv (PyNum.sumZ (map PlayerStats.rushing_yards stats)) (length stats) in
  let base :=
    if in_WR_TE (Player.position player)
    then season_avg_rec_yards else season_avg_rush_yards in
  (* 2. recent life events *)
  let '(event_impact, recent_events) :=
    scan_events (UpcomingGame.game_date upcoming_game) life_events in
  let event_adj :=
    match recent_events with
    | [] => 0%Q
    | _ :: _ => (base * event_impact)%Q
    end in
  let factors2 :=
    map (event_factor (UpcomingGame.game_date upcoming_game)) recent_events in
  (* 3. opponent defense *)
  let defense := query_defense db upcoming_game in
  let '(opponent_adj, factors3) :=
    match defense with
    | None => (0%Q, factors2)
    | Some d =>
      if in_WR_TE (Player.position player) then
        let rank := TeamDefenseStats.pass_defense_rank d in
        (rank_adjustment base rank, factors2 ++ rank_factors rank "pass")
      else
        let rank := TeamDefenseStats.rush_defense_rank d in
        (rank_adjustment base rank, factors2 ++ rank_factors rank "run")
    end in
  (* 4. history against this opponent *)
  let vs_team_history := query_vs_team db player upcoming_game in
  let factors4 :=
    factors3 ++ history_factors (Player.position player) base
                  (UpcomingGame.opponent upcoming_game) vs_team_history in
  (* 5. final projection *)
  let final := PyNum.round (base + event_adj + opponent_adj) 1 in
  (* 6. confidence *)
  let conf := confidence_factors recent_events defense vs_team_history stats in
  (* 7. recommendation *)
  let rec := recommend (Player.position player) upcoming_game final conf "HOLD" in
  mkpred base event_adj opponent_adj final conf rec factors4.

(** [calculate_matchup_prediction]: the early return on an empty
    [stats], steps 1 to 7, then the cross-season block. *)
Definition calculate_matchup_prediction (db : database) (player : Player.t)
    (upcoming_game : UpcomingGame.t) (life_events : list LifeEvent.t)
    (stats : list PlayerStats.t) : prediction :=
  match stats with
  | [] => initial_prediction
  | _ :: _ =>
    cross_season db player upcoming_game
      (steps_1_to_7 db player upcoming_game life_events stats)
  end.

(** The recommendation rule as the specification words it, on a
    projection, a confidence and an optional prop line. *)
Definition spec_recommendation (final : Q) (conf : Z) (prop_line : option Q)
    : string :=
  match prop_line with
  | None => "HOLD"
  | Some line =>
    let diff := (final - line)%Q in
    if Qleb 8 diff && (60 <=? conf) then "STRONG OVER"
    else if Qleb 4 diff then "LEAN OVER"
    else if Qleb diff (-8) && (60 <=? conf) then "STRONG UNDER"
    else if Qleb diff (-4) then "LEAN UNDER"
    else "HOLD"
  end.




(** The prop line of the field relevant to the position. *)
Definition relevant_prop_line (player : Player.t) (game : UpcomingGame.t)
    : option Q :=
  if in_WR_TE (Player.position player)
  then UpcomingGame.prop_receiving_yards game
  else UpcomingGame.prop_rush_yards game.

(** The impact of one event as the specification words it. *)
Definition in_window (game_date : date) (event : LifeEvent.t) : bool :=
  let d := days_between game_date (LifeEvent.event_date event) in
  (0 <=? d) && (d <=? 7).

Definition spec_impact (event : LifeEvent.t) : Q :=
  if String.eqb (LifeEvent.event_type event) "positive" then 0.12%Q else (-0.08)%Q.

Definition spec_event_impact (game_date : date) (life_events : list LifeEvent.t) : Q :=
  fold_right (fun e acc => (spec_impact e + acc)%Q) 0%Q
             (List.filter (in_window game_date) life_events).

End Matchup.


(** ** Correlation analyzer: [analytics_service.py] *)

Module Analytics.

Import PyDate.

(** The dict [calculate_correlation] returns; [Coef] is the type of the
    value numpy hands back for the coefficient. *)
Record correlation_result (Coef : Type) := mkres {
  player_id : Z;
  event_type : string;
  correlation_coefficient : Coef;
  sample_size : nat;
  p_value : Q;
  mean_before : Q;
  mean_after : Q;
  is_significant : Z
}.
Arguments mkres {Coef}.
Arguments player_id {Coef}.
Arguments event_type {Coef}.
Arguments correlation_coefficient {Coef}.
Arguments sample_size {Coef}.
Arguments p_value {Coef}.
Arguments mean_before {Coef}.
Arguments mean_after {Coef}.
Arguments is_significant {Coef}.

(** [sum(xs) / len(xs)] and [np.mean(xs)] on a non-empty list of floats. *)
Definition mean (xs : list Q) : Q :=
  (PyNum.sumQ xs / inject_Z (Z.of_nat (length xs)))%Q.

(** [session.query(LifeEvent).filter_by(player_id=.., event_type=..).all()] *)
Definition query_events (db : database) (pid : Z) (etype : string)
    : list LifeEvent.t :=
  List.filter (fun e => (LifeEvent.player_id e =? pid)
                        && String.eqb (LifeEvent.event_type e) etype)
              (tbl_life_event db).

(** Stats in [event_date - days_before, event_date). *)
Definition before_stats (db : database) (pid : Z) (days_before : Z)
    (event : LifeEvent.t) : list PlayerStats.t :=
  let before_start := toordinal (LifeEvent.event_date event) - days_before in
  List.filter (fun s => (PlayerStats.player_id s =? pid)
                        && (before_start <=? toordinal (PlayerStats.game_date s))
                        && ltb (PlayerStats.game_date s) (LifeEvent.event_date event))
              (tbl_player_stats db).

(** Stats in (event_date, event_date + days_after]. *)
Definition after_stats (db : database) (pid : Z) (days_after : Z)
    (event : LifeEvent.t) : list PlayerStats.t :=
  let after_end := toordinal (LifeEvent.event_date event) + days_after in
  List.filter (fun s => (PlayerStats.player_id s =? pid)
                        && ltb (LifeEvent.event_date event) (PlayerStats.game_date s)
                        && (toordinal (PlayerStats.game_date s) <=? after_end))
              (tbl_player_stats db).

(** The body of [for event in events]; the accumulator is
    [(before_scores, after_scores)]. *)
Definition score_step (db : database) (pid : Z) (days_before days_after : Z)
    (acc : list Q * list Q) (event : LifeEvent.t) : list Q * list Q :=
  let '(before_scores, after_scores) := acc in
  let bs := before_stats db pid days_before event in
  let afs := after_stats db pid days_after event in
  let before_scores :=
    match bs with
    | [] => before_scores
    | _ :: _ => before_scores ++ [mean (map PlayerStats.fantasy_points bs)]
    end in
  let after_scores :=
    match afs with
    | [] => after_scores
    | _ :: _ => after_scores ++ [mean (map PlayerStats.fantasy_points afs)]
    end in
  (before_scores, after_scores).

Definition collect_scores (db : database) (pid : Z) (days_before days_after : Z)
    (events : list LifeEvent.t) : list Q * list Q :=
  fold_left (score_step db pid days_before days_after) events ([], []).

Section Analyzer.

(** [scipy.stats.ttest_ind] (statistic and p-value) and
    [np.corrcoef(a, b)[0, 1]] are library functions: the analyzer is
    parametric in them; [zero] is [float(0)]. *)
Context {Coef : Type}.
Variable ttest_ind : list Q -> list Q -> Q * Q.
Variable corrcoef : list Q -> list Q -> Coef.
Variable zero : Coef.

Definition calculate_correlation (db : database) (pid : Z) (etype : string)
    (days_before days_after : Z) : option (correlation_result Coef) :=
  match query_events db pid etype with
  | [] => None
  | (_ :: _) as events =>
    let '(before_scores, after_scores) :=
      collect_scores db pid days_before days_after events in
    if (length before_scores <? 3)%nat || (length after_scores <? 3)%nat
    then None
    else
      let '(t_stat, p) := ttest_ind before_scores after_scores in
      let correlation :=
        if (length before_scores =? length after_scores)%nat
        then corrcoef before_scores after_scores
        else zero in
      let significant := if Matchup.Qltb p 0.05 then 1 else 0 in
      Some (mkres pid etype correlation
                  (length before_scores + length after_scores)
                  p (mean before_scores) (mean after_scores) significant)
  end.

(** [session.query(Player.id).join(LifeEvent).distinct().all()] *)
Definition players_with_events (db : database) : list Z :=
  nodup Z.eq_dec
    (map Player.id
       (List.filter
          (fun p => existsb (fun e => LifeEvent.player_id e =? Player.id p)
                            (tbl_life_event db))
          (tbl_player db))).

Definition event_types : list string :=
  ["birth"; "marriage"; "injury"; "family_issue"; "contract"]%string.

(** One turn of the inner loop of [run_analysis_cycle]: the rows of
    [correlation_analysis] after analysing one (player, event type). *)
Definition analyse_and_save (db : database)
    (rows : list (correlation_result Coef)) (pid : Z) (etype : string)
    : list (correlation_result Coef) :=
  match calculate_correlation db pid etype 30 30 with
  | Some result => rows ++ [result]
  | None => rows
  end.

(** [run_analysis_cycle]: the rows added to [correlation_analysis]. *)
Definition run_analysis_cycle (db : database) : list (correlation_result Coef) :=
  fold_left
    (fun rows pid => fold_left (fun rows etype => analyse_and_save db rows pid etype)
                               event_types rows)
    (players_with_events db) [].

End Analyzer.

(** Ghost view of the loop: every value appended to [before_scores]
    with the position, in [events], of the event it comes from; the same
    for [after_scores]. *)
Definition before_contributions (db : database) (pid : Z) (days_before : Z)
    (start : nat) (events : list LifeEvent.t) : list (nat * Q) :=
  map (fun ie => (fst ie,
                  mean (map PlayerStats.fantasy_points
                            (before_stats db pid days_before (snd ie)))))
      (List.filter
         (fun ie => negb (Nat.eqb (length (before_stats db pid days_before (snd ie))) 0))
         (combine (seq start (length events)) events)).

Definition after_contributions (db : database) (pid : Z) (days_after : Z)
    (start : nat) (events : list LifeEvent.t) : list (nat * Q) :=
  map (fun ie => (fst ie,
                  mean (map PlayerStats.fantasy_points
                            (after_stats db pid days_after (snd ie)))))
      (List.filter
         (fun ie => negb (Nat.eqb (length (after_stats db pid days_after (snd ie))) 0))
         (combine (seq start (length events)) events)).

(** The events behind the entries of the two score lists, by position. *)
Definition before_contributors (db : database) (pid : Z) (days_before : Z)
    (events : list LifeEvent.t) : list nat :=
  map fst (before_contributions db pid days_before 0 events).

Definition after_contributors (db : database) (pid : Z) (days_after : Z)
    (events : list LifeEvent.t) : list nat :=
  map fst (after_contributions db pid days_after 0 events).

(** *** The Pearson coefficient

    Modelled from the documentation of [numpy.corrcoef]: for two
    sequences of equal length, [R_01 = C_01 / sqrt (C_00 * C_11)] with [C]
    the covariance matrix; a zero variance makes the quotient [nan]. *)

Inductive pyfloat :=
| NaN
| Fin (r : R).

Definition sumR (l : list R) : R := fold_right Rplus 0%R l.

Definition meanR (l : list R) : R := (sumR l / INR (length l))%R.

(** Sum of the products of the deviations from the means (the
    normalisation of the covariance cancels in the quotient). *)
Definition codev (x y : list R) : R :=
  sumR (map (fun ab => ((fst ab - meanR x) * (snd ab - meanR y))%R) (combine x y)).

Definition pearson (x y : list Q) : pyfloat :=
  let xr := map Q2R x in
  let yr := map Q2R y in
  let d := (codev xr xr * codev yr yr)%R in
  if Req_dec_T d 0 then NaN else Fin (codev xr yr / sqrt d)%R.

End Analytics.


(** ** Event-proximity profile: per-event comparison and betting
       insights of [player_analytics] (main.py) *)

Module Profile.

Import PyDate.

(** Float division, which raises on a zero divisor. *)
Definition div (a b : Q) : result Q :=
  if Qeq_bool b 0 then Raise ZeroDivisionError else Ok (a / b)%Q.

(** [before_avg] and [after_avg]: dicts in insertion order. *)
Definition avg_dict := list (string * Q).

Definition dict_get (d : avg_dict) (key : string) : result Q :=
  match List.find (fun kv => String.eqb (fst kv) key) d with
  | Some kv => Ok (snd kv)
  | None => Raise (KeyError key)
  end.

(** The four averages over [recent_before] or [recent_after]. *)
Definition averages (recent : list PlayerStats.t) : result avg_dict :=
  let n := inject_Z (Z.of_nat (length recent)) in
  fp ← div (PyNum.sumQ (map PlayerStats.fantasy_points recent)) n;
  yd ← div (inject_Z (PyNum.sumZ (map PlayerStats.receiving_yards recent))) n;
  rc ← div (inject_Z (PyNum.sumZ (map PlayerStats.receptions recent))) n;
  td ← div (inject_Z (PyNum.sumZ (map PlayerStats.receiving_tds recent))) n;
  Ok [("fantasy_points", fp); ("receiving_yards", yd);
      ("receptions", rc); ("receiving_tds", td)]%string.

(** One value of the [changes] dict. *)
Record change_entry := mkchange {
  before : Q;
  after : Q;
  change : Q;
  change_pct : Q
}.

(** One element of [event_analysis]. *)
Record event_entry := mkentry {
  event : LifeEvent.t;
  changes : gmap string change_entry;
  improved : bool;
  sample_size : nat * nat
}.

(** The body of [for key in before_avg.keys()]. *)
Definition change_step (after_avg : avg_dict)
    (acc : result (gmap string change_entry)) (kv : string * Q)
    : result (gmap string change_entry) :=
  changes ← acc;
  let '(key, b) := kv in
  if Matchup.Qltb 0 b then
    a ← dict_get after_avg key;
    q ← div (a - b) b;
    let pct := (q * 100)%Q in
    Ok (<[ key := mkchange (PyNum.round b 1) (PyNum.round a 1)
                           (PyNum.round (a - b) 1) (PyNum.round pct 1) ]> changes)
  else Ok changes.

(** [l[-3:]] *)
Definition last3 {A} (l : list A) : list A := skipn (length l - 3) l.

(** The body of [for event in life_events]: the entry appended to
    [event_analysis], if any. *)
Definition analyze_event (stats : list PlayerStats.t) (ev : LifeEvent.t)
    : result (option event_entry) :=
  let before_stats :=
    List.filter (fun s => ltb (PlayerStats.game_date s) (LifeEvent.event_date ev)) stats in
  let after_stats :=
    List.filter (fun s => ltb (LifeEvent.event_date ev) (PlayerStats.game_date s)) stats in
  before_avg ← (if (3 <=? length before_stats)%nat
                then averages (last3 before_stats) else Ok []);
  after_avg ← (if (3 <=? length after_stats)%nat
               then averages (firstn 3 after_stats) else Ok []);
  match before_avg, after_avg with
  | _ :: _, _ :: _ =>
    changes ← fold_left (change_step after_avg) before_avg (Ok ∅);
    fa ← dict_get after_avg "fantasy_points";
    fb ← dict_get before_avg "fantasy_points";
    Ok (Some (mkentry ev changes (Matchup.Qltb fb fa)
                      (length (last3 before_stats), length (firstn 3 after_stats))))
  | _, _ => Ok None
  end.

Fixpoint analyze_events (stats : list PlayerStats.t) (life_events : list LifeEvent.t)
    : result (list event_entry) :=
  match life_events with
  | [] => Ok []
  | ev :: rest =>
    r ← analyze_event stats ev;
    tl ← analyze_events stats rest;
    Ok (match r with Some entry => entry :: tl | None => tl end)
  end.

(** The [betting_insights] dict. *)
Record betting_insights := mkinsights {
  total_events : nat;
  avg_fp_change : Q;
  avg_yd_change : Q;
  improved_pct : Q;
  positive_events_count : nat;
  negative_events_count : nat;
  positive_avg_change : Q;
  negative_avg_change : Q
}.

(** [e['changes'][key]['change']] *)
Definition change_of (key : string) (e : event_entry) : result Q :=
  match changes e !! key with
  | Some c => Ok (change c)
  | None => Raise (KeyError key)
  end.

(** ['key' in e['changes']] *)
Definition has_change (key : string) (e : event_entry) : bool :=
  bool_decide (is_Some (changes e !! key)).

(** [round(sum(e['changes']['fantasy_points']['change'] for e in es) / len(es), 1) if es else 0] *)
Definition bucket_avg_change (es : list event_entry) : result Q :=
  match es with
  | [] => Ok 0%Q
  | _ :: _ =>
    cs ← mapM_result (change_of "fantasy_points") es;
    q ← div (PyNum.sumQ cs) (inject_Z (Z.of_nat (length es)));
    Ok (PyNum.round q 1)
  end.

Definition is_type (ty : string) (e : event_entry) : bool :=
  String.eqb (LifeEvent.event_type (event e)) ty.

(** An entry that falls in neither bucket of the split. *)
Definition neither (e : event_entry) : bool :=
  negb (is_type "positive" e) && negb (is_type "negative" e).

(** The block under [if event_analysis:]; [None] is the dict left empty. *)
Definition calc_betting_insights (event_analysis : list event_entry)
    : result (option betting_insights) :=
  match event_analysis with
  | [] => Ok None
  | _ :: _ =>
    let n := inject_Z (Z.of_nat (length event_analysis)) in
    fps ← mapM_result (change_of "fantasy_points")
                      (List.filter (has_change "fantasy_points") event_analysis);
    let total_fp_change := PyNum.sumQ fps in
    yds ← mapM_result (change_of "receiving_yards")
                      (List.filter (has_change "receiving_yards") event_analysis);
    let total_yd_change := PyNum.sumQ yds in
    let positive_events := List.filter (is_type "positive") event_analysis in
    let negative_events := List.filter (is_type "negative") event_analysis in
    avg_fp ← div total_fp_change n;
    avg_yd ← div total_yd_change n;
    imp ← div (inject_Z (Z.of_nat (length (List.filter improved event_analysis)))) n;
    pos_avg ← bucket_avg_change positive_events;
    neg_avg ← bucket_avg_change negative_events;
    Ok (Some (mkinsights (length event_analysis)
                         (PyNum.round avg_fp 1) (PyNum.round avg_yd 1)
                         (PyNum.round (imp * 100) 0)
                         (length positive_events) (length negative_events)
                         pos_avg neg_avg))
  end.

(** The two steps together, on the query results [stats] (ordered by
    game date) and [life_events] (ordered by event date); everything
    sits under [if stats:]. *)
Definition player_analytics (stats : list PlayerStats.t)
    (life_events : list LifeEvent.t)
    : result (list event_entry * option betting_insights) :=
  match stats with
  | [] => Ok ([], None)
  | _ :: _ =>
    event_analysis ← analyze_events stats life_events;
    insights ← calc_betting_insights event_analysis;
    Ok (event_analysis, insights)
  end.

End Profile.


(** ** Defense profiles: [add_team_defense] and [view_team_defense]
       (main.py) *)

Module Defense.

(** *** Storing a profile *)

(** The fields of [request.form] the handler reads, already parsed;
    [None] is a field the form does not carry. *)
Record defense_form := mkform {
  form_team_abbr : string;
  form_season : Z;
  form_week : Z;
  form_pass_yards_allowed : option Q;
  form_rush_yards_allowed : option Q;
  form_passing_tds_allowed : option Z;
  form_rushing_tds_allowed : option Z;
  form_sacks : option Z;
  form_pass_defense_rank : option Z;
  form_rush_defense_rank : option Z
}.

Definition same_key (a b : TeamDefenseStats.t) : bool :=
  String.eqb (TeamDefenseStats.team_abbr a) (TeamDefenseStats.team_abbr b)
  && (TeamDefenseStats.season a =? TeamDefenseStats.season b)
  && (TeamDefenseStats.week a =? TeamDefenseStats.week b).

(** The POST branch of [add_team_defense]; the commit fails on the
    unique constraint (team_abbr, season, week). *)
Definition add_team_defense (db : database) (form : defense_form)
    : result database :=
  let defense :=
    TeamDefenseStats.mk
      (form_team_abbr form) (form_season form) (form_week form)
      (default 0%Q (form_pass_yards_allowed form))
      (default 0%Q (form_rush_yards_allowed form))
      (default 0 (form_passing_tds_allowed form))
      (default 0 (form_rushing_tds_allowed form))
      (default 0 (form_sacks form))
      (default 16 (form_pass_defense_rank form))
      (default 16 (form_rush_defense_rank form)) in
  if existsb (same_key defense) (tbl_team_defense_stats db)
  then Raise IntegrityError
  else Ok (mkdb (tbl_player db) (tbl_player_stats db) (tbl_life_event db)
                (tbl_team_defense_stats db ++ [defense])
                (tbl_player_vs_team_history db)).

(** The profiles stored for a season. *)
Definition season_profiles (db : database) (season : Z) : list TeamDefenseStats.t :=
  List.filter (fun d => TeamDefenseStats.season d =? season)
              (tbl_team_defense_stats db).

(** "The ranks form a permutation of 1..N", N the number of ranks. *)
Definition ranks_1_to_N (ranks : list Z) : Prop :=
  ranks ≡ₚ map Z.of_nat (seq 1 (length ranks)).

(** *** Viewing the profiles *)

(** A value of the [team_season_stats] defaultdict. *)
Record totals := mktotals {
  games : Z;
  total_pass_yards : Q;
  total_rush_yards : Q;
  total_sacks : Z;
  total_pass_tds : Z;
  total_rush_tds : Z;
  latest_week : Z
}.

Definition totals0 : totals := mktotals 0 0 0 0 0 0 0.

Definition accumulate (stat : TeamDefenseStats.t) (t : totals) : totals :=
  mktotals (games t + 1)
           (total_pass_yards t + TeamDefenseStats.pass_yards_allowed_per_game stat)
           (total_rush_yards t + TeamDefenseStats.rush_yards_allowed_per_game stat)
           (total_sacks t + TeamDefenseStats.sacks stat)
           (total_pass_tds t + TeamDefenseStats.passing_tds_allowed stat)
           (total_rush_tds t + TeamDefenseStats.rushing_tds_allowed stat)
           (Z.max (latest_week t) (TeamDefenseStats.week stat)).

Definition key_eqb (a b : string * Z) : bool :=
  String.eqb (fst a) (fst b) && (snd a =? snd b).

(** [d[key] = f(d[key])] on a defaultdict kept in insertion order. *)
Fixpoint update_default (key : string * Z) (f : totals -> totals)
    (d : list ((string * Z) * totals)) : list ((string * Z) * totals) :=
  match d with
  | [] => [(key, f totals0)]
  | (k, v) :: d' =>
    if key_eqb k key then (k, f v) :: d'
    else (k, v) :: update_default key f d'
  end.

Definition aggregate (all_stats : list TeamDefenseStats.t)
    : list ((string * Z) * totals) :=
  fold_left
    (fun d stat =>
       update_default (TeamDefenseStats.team_abbr stat, TeamDefenseStats.season stat)
                      (accumulate stat) d)
    all_stats [].

(** An element of [cumulative_stats]: a dict whose two rank keys are
    absent ([None]) until the ranking loop sets them. *)
Record cumulative := mkcum {
  team_abbr : string;
  season : Z;
  games_played : Z;
  pass_yards_allowed_per_game : Q;
  rush_yards_allowed_per_game : Q;
  sacks : Z;
  passing_tds_allowed : Z;
  rushing_tds_allowed : Z;
  cum_latest_week : Z;
  pass_defense_rank : option Z;
  rush_defense_rank : option Z
}.

Definition to_cumulative (item : (string * Z) * totals) : cumulative :=
  let '((team, season), data) := item in
  mkcum team season (games data)
        (PyNum.round (total_pass_yards data / inject_Z (games data)) 1)
        (PyNum.round (total_rush_yards data / inject_Z (games data)) 1)
        (total_sacks data) (total_pass_tds data) (total_rush_tds data)
        (latest_week data) None None.

(** [sorted] and [list.sort]: a stable sort; [before x y] says that [x]
    goes strictly before [y]. *)
Fixpoint insert_sorted {A} (before : A -> A -> bool) (x : A) (l : list A) : list A :=
  match l with
  | [] => [x]
  | y :: l' => if before x y then x :: l else y :: insert_sorted before x l'
  end.

Definition stable_sort {A} (before : A -> A -> bool) (l : list A) : list A :=
  fold_left (fun acc x => insert_sorted before x acc) l [].

(** The dicts of [season_stats] are shared with the sorted list: a
    sorted list holds references, here positions in [season_stats]. *)
Definition refs (season_stats : list cumulative) : list (nat * cumulative) :=
  combine (seq 0 (length season_stats)) season_stats.

Definition set_pass_rank (rank : Z) (c : cumulative) : cumulative :=
  mkcum (team_abbr c) (season c) (games_played c)
        (pass_yards_allowed_per_game c) (rush_yards_allowed_per_game c)
        (sacks c) (passing_tds_allowed c) (rushing_tds_allowed c)
        (cum_latest_week c) (Some rank) (rush_defense_rank c).

Definition set_rush_rank (rank : Z) (c : cumulative) : cumulative :=
  mkcum (team_abbr c) (season c) (games_played c)
        (pass_yards_allowed_per_game c) (rush_yards_allowed_per_game c)
        (sacks c) (passing_tds_allowed c) (rushing_tds_allowed c)
        (cum_latest_week c) (pass_defense_rank c) (Some rank).

(** [for rank, stat in enumerate(sorted_list, rank): stat[field] = rank] *)
Fixpoint assign_ranks (set : Z -> cumulative -> cumulative) (rank : Z)
    (sorted_list : list (nat * cumulative)) (season_stats : list cumulative)
    : list cumulative :=
  match sorted_list with
  | [] => season_stats
  | (i, _) :: rest =>
    assign_ranks set (rank + 1) rest (alter (set rank) i season_stats)
  end.

Definition by_pass_yards (a b : nat * cumulative) : bool :=
  Matchup.Qltb (pass_yards_allowed_per_game (snd a))
               (pass_yards_allowed_per_game (snd b)).

Definition by_rush_yards (a b : nat * cumulative) : bool :=
  Matchup.Qltb (rush_yards_allowed_per_game (snd a))
               (rush_yards_allowed_per_game (snd b)).

(** The two ranking loops on the profiles of one season. *)
Definition rank_season (season_stats : list cumulative) : list cumulative :=
  let ranked := assign_ranks set_pass_rank 1
                  (stable_sort by_pass_yards (refs season_stats)) season_stats in
  assign_ranks set_rush_rank 1 (stable_sort by_rush_yards (refs ranked)) ranked.

(** [StatObject]; its constructor reads both rank keys. *)
Record StatObject := mkobj {
  so_team_abbr : string;
  so_season : Z;
  so_games_played : Z;
  so_pass_yards_allowed_per_game : Q;
  so_rush_yards_allowed_per_game : Q;
  so_sacks : Z;
  so_passing_tds_allowed : Z;
  so_rushing_tds_allowed : Z;
  so_pass_defense_rank : Z;
  so_rush_defense_rank : Z
}.

Definition stat_object (data : cumulative) : result StatObject :=
  match pass_defense_rank data, rush_defense_rank data with
  | Some pr, Some rr =>
    Ok (mkobj (team_abbr data) (season data) (games_played data)
              (pass_yards_allowed_per_game data) (rush_yards_allowed_per_game data)
              (sacks data) (passing_tds_allowed data) (rushing_tds_allowed data)
              pr rr)
  | None, _ => Raise (KeyError "pass_defense_rank")
  | _, None => Raise (KeyError "rush_defense_rank")
  end.

(** [max(s['latest_week'] for s in season_stats)] on a non-empty list. *)
Definition max_latest_week (season_stats : list cumulative) : Z :=
  match map cum_latest_week season_stats with
  | [] => 0
  | w :: ws => fold_left Z.max ws w
  end.

(** One turn of [for season in set(...)]: the key of the group (season
    and latest week, the two numbers of the f-string) and its objects. *)
Definition season_group (cumulative_stats : list cumulative) (s : Z)
    : result ((Z * Z) * list StatObject) :=
  let season_stats := List.filter (fun c => season c =? s) cumulative_stats in
  let ranked := rank_season season_stats in
  objs ← mapM_result stat_object ranked;
  Ok ((s, max_latest_week ranked), objs).

(** [view_team_defense]: the [grouped_stats] handed to the template.  The
    seasons are visited in the order of the sorted list (the iteration
    order of a Python set is not specified; the groups do not depend on
    it). *)
Definition view_team_defense (db : database)
    : result (list ((Z * Z) * list StatObject)) :=
  match tbl_team_defense_stats db with
  | [] => Ok []
  | (_ :: _) as all_stats =>
    let cumulative_stats := map to_cumulative (aggregate all_stats) in
    let cumulative_stats :=
      stable_sort (fun a b => season b <? season a) cumulative_stats in
    mapM_result (season_group cumulative_stats)
                (nodup Z.eq_dec (map season cumulative_stats))
  end.

(** *** What a ranking loop establishes *)


(** The ranks [rank], [rank + 1], ... written into a sorted list, in
    its order. *)
Fixpoint ranked (set : Z -> cumulative -> cumulative) (rank : Z)
    (sorted_list : list (nat * cumulative)) : list cumulative :=
  match sorted_list with
  | [] => []
  | (_, c) :: rest => set rank c :: ranked set (rank + 1) rest
  end.







End Defense.


(** ** Imported defense profiles: [get_team_defense_stats]
       (data_collector.py) and [import_team_defense] (main.py) *)

Module Collector.

Definition nfl_teams : list string :=
  [ "ARI"; "ATL"; "BAL"; "BUF"; "CAR"; "CHI"; "CIN"; "CLE";
    "DAL"; "DEN"; "DET"; "GB"; "HOU"; "IND"; "JAX"; "KC";
    "LAC"; "LAR"; "LV"; "MIA"; "MIN"; "NE"; "NO"; "NYG";
    "NYJ"; "PHI"; "PIT"; "SEA"; "SF"; "TB"; "TEN"; "WAS" ]%string.

(** A value of [defense_data]; the two rank keys are absent ([None])
    until the ranking loops set them. *)
Record team_defense := mkteam {
  pass_yards_allowed_per_game : Q;
  rush_yards_allowed_per_game : Q;
  passing_tds_allowed : Z;
  rushing_tds_allowed : Z;
  sacks : Z;
  pass_defense_rank : option Z;
  rush_defense_rank : option Z
}.

(** The entry of the team at position [i] of [nfl_teams]. *)
Definition initial_entry (i : nat) : team_defense :=
  let rank_factor := (inject_Z (Z.of_nat i + 1) / 32)%Q in
  mkteam (PyNum.round (200 + rank_factor * 80) 1)
         (PyNum.round (90 + rank_factor * 50) 1)
         (PyNum.int (12 + rank_factor * 10))
         (PyNum.int (6 + rank_factor * 8))
         (PyNum.int (35 - rank_factor * 15))
         None None.

(** [defense_data]: a dict in insertion order. *)
Definition initial_data : list (string * team_defense) :=
  imap (fun i team => (team, initial_entry i)) nfl_teams.

Definition set_pass_rank (rank : Z) (t : team_defense) : team_defense :=
  mkteam (pass_yards_allowed_per_game t) (rush_yards_allowed_per_game t)
         (passing_tds_allowed t) (rushing_tds_allowed t) (sacks t)
         (Some rank) (rush_defense_rank t).

Definition set_rush_rank (rank : Z) (t : team_defense) : team_defense :=
  mkteam (pass_yards_allowed_per_game t) (rush_yards_allowed_per_game t)
         (passing_tds_allowed t) (rushing_tds_allowed t) (sacks t)
         (pass_defense_rank t) (Some rank).

(** [defense_data[team_abbr][field] = rank] *)
Fixpoint set_rank (set : Z -> team_defense -> team_defense) (team_abbr : string)
    (rank : Z) (d : list (string * team_defense)) : list (string * team_defense) :=
  match d with
  | [] => []
  | (k, v) :: d' =>
    if String.eqb k team_abbr then (k, set rank v) :: d'
    else (k, v) :: set_rank set team_abbr rank d'
  end.

(** [for rank, (team_abbr, _) in enumerate(sorted_teams, rank): ...] *)
Fixpoint assign_ranks (set : Z -> team_defense -> team_defense) (rank : Z)
    (sorted_teams : list (string * team_defense))
    (d : list (string * team_defense)) : list (string * team_defense) :=
  match sorted_teams with
  | [] => d
  | (team_abbr, _) :: rest =>
    assign_ranks set (rank + 1) rest (set_rank set team_abbr rank d)
  end.

Definition get_team_defense_stats (season : Z) : list (string * team_defense) :=
  let d := initial_data in
  let by_pass a b :=
    Matchup.Qltb (pass_yards_allowed_per_game (snd a))
                 (pass_yards_allowed_per_game (snd b)) in
  let d := assign_ranks set_pass_rank 1 (Defense.stable_sort by_pass d) d in
  let by_rush a b :=
    Matchup.Qltb (rush_yards_allowed_per_game (snd a))
                 (rush_yards_allowed_per_game (snd b)) in
  assign_ranks set_rush_rank 1 (Defense.stable_sort by_rush d) d.

(** The update of the existing row, the first with the key. *)
Fixpoint update_first (row : TeamDefenseStats.t) (tbl : list TeamDefenseStats.t)
    : list TeamDefenseStats.t :=
  match tbl with
  | [] => []
  | r :: tbl' =>
    if Defense.same_key row r then row :: tbl' else r :: update_first row tbl'
  end.

(** One turn of [for team_abbr, stats in defense_stats.items()]. *)
Definition import_team (season week : Z) (acc : result (list TeamDefenseStats.t))
    (item : string * team_defense) : result (list TeamDefenseStats.t) :=
  tbl ← acc;
  let '(team_abbr, stats) := item in
  match pass_defense_rank stats, rush_defense_rank stats with
  | Some pr, Some rr =>
    let row :=
      TeamDefenseStats.mk team_abbr season week
        (pass_yards_allowed_per_game stats) (rush_yards_allowed_per_game stats)
        (passing_tds_allowed stats) (rushing_tds_allowed stats) (sacks stats)
        pr rr in
    if existsb (Defense.same_key row) tbl
    then Ok (update_first row tbl)
    else Ok (tbl ++ [row])
  | None, _ => Raise (KeyError "pass_defense_rank")
  | _, None => Raise (KeyError "rush_defense_rank")
  end.

(** The POST branch of [import_team_defense]. *)
Definition import_team_defense (db : database) (season week : Z) : result database :=
  tbl ← fold_left (import_team season week) (get_team_defense_stats season)
                  (Ok (tbl_team_defense_stats db));
  Ok (mkdb (tbl_player db) (tbl_player_stats db) (tbl_life_event db) tbl
           (tbl_player_vs_team_history db)).

End Collector.


(** ** The rows of an analysis cycle *)

Module AnalysisRows.

Import Analytics.

Section Rows.
Context {Coef : Type}.
Variable ttest_ind : list Q -> list Q -> Q * Q.
Variable corrcoef : list Q -> list Q -> Coef.
Variable zero : Coef.

(** A row that the analysis of its own player and event type returns,
    for one of the players and event types the cycle visits. *)
Definition analysed_row (db : database) (r : correlation_result Coef) : Prop :=
  In (player_id r) (players_with_events db)
  /\ In (event_type r) event_types
  /\ calculate_correlation ttest_ind corrcoef zero db (player_id r) (event_type r) 30 30
     = Some r.

End Rows.

End AnalysisRows.


(** ** The rest of the view [player_analytics] (main.py): season
       averages, recent form, proximity windows and season comparison *)

Module ProfileView.

Import PyDate.

(** [abs((stat.game_date - event.event_date).days)] *)
Definition days_diff (stat : PlayerStats.t) (event : LifeEvent.t) : Z :=
  Z.abs (days_between (PlayerStats.game_date stat) (LifeEvent.event_date event)).

(** The [season_avg] dict. *)
Record season_averages := mkavg {
  sa_fantasy_points : Q;
  sa_receiving_yards : Q;
  sa_receptions : Q;
  sa_receiving_tds : Q;
  sa_targets : Q;
  sa_rushing_yards : Q;
  sa_rushing_tds : Q
}.

Definition season_avg (stats : list PlayerStats.t) : result season_averages :=
  let total_games := inject_Z (Z.of_nat (length stats)) in
  fp ← Profile.div (PyNum.sumQ (map PlayerStats.fantasy_points stats)) total_games;
  ry ← Profile.div (inject_Z (PyNum.sumZ (map PlayerStats.receiving_yards stats))) total_games;
  rc ← Profile.div (inject_Z (PyNum.sumZ (map PlayerStats.receptions stats))) total_games;
  rt ← Profile.div (inject_Z (PyNum.sumZ (map PlayerStats.receiving_tds stats))) total_games;
  tg ← Profile.div (inject_Z (PyNum.sumZ (map PlayerStats.targets stats))) total_games;
  ru ← Profile.div (inject_Z (PyNum.sumZ (map PlayerStats.rushing_yards stats))) total_games;
  rd ← Profile.div (inject_Z (PyNum.sumZ (map PlayerStats.rushing_tds stats))) total_games;
  Ok (mkavg fp ry rc rt tg ru rd).

(** The [near_event] dict of a recent game. *)
Record near_event_info := mknear {
  ne_type : string;
  ne_category : string;
  ne_days_away : Z
}.

(** [for event in life_events: ... if days_diff <= 7: near_event = ...; break] *)
Fixpoint find_near_event (stat : PlayerStats.t) (life_events : list LifeEvent.t)
    : option near_event_info :=
  match life_events with
  | [] => None
  | event :: rest =>
    if days_diff stat event <=? 7
    then Some (mknear (LifeEvent.event_type event) (LifeEvent.event_category event)
                      (days_diff stat event))
    else find_near_event stat rest
  end.

(** An element of [recent_form]; [rf_date] stands for the formatted
    date string. *)
Record form_entry := mkformentry {
  rf_date : date;
  rf_fantasy_points : Q;
  rf_receiving_yards : Z;
  rf_receptions : Z;
  rf_tds : Z;
  rf_near_event : option near_event_info;
  rf_above_avg : bool
}.

(** [stats[-5:] if len(stats) >= 5 else stats] *)
Definition recent_stats (stats : list PlayerStats.t) : list PlayerStats.t :=
  if (5 <=? length stats)%nat then skipn (length stats - 5) stats else stats.

Definition recent_form (stats : list PlayerStats.t) (life_events : list LifeEvent.t)
    (avg : season_averages) : list form_entry :=
  map (fun stat =>
         mkformentry (PlayerStats.game_date stat)
                     (PlayerStats.fantasy_points stat)
                     (PlayerStats.receiving_yards stat)
                     (PlayerStats.receptions stat)
                     (PlayerStats.receiving_tds stat + PlayerStats.rushing_tds stat)
                     (find_near_event stat life_events)
                     (Matchup.Qltb (sa_fantasy_points avg) (PlayerStats.fantasy_points stat)))
      (recent_stats stats).

(** The inner loop of the proximity analysis: whether the game is
    appended, which happens at the first event inside the window. *)
Fixpoint near_some_event (window : Z) (stat : PlayerStats.t)
    (life_events : list LifeEvent.t) : bool :=
  match life_events with
  | [] => false
  | event :: rest =>
    if days_diff stat event <=? window then true
    else near_some_event window stat rest
  end.

Definition games_near_events (window : Z) (stats : list PlayerStats.t)
    (life_events : list LifeEvent.t) : list PlayerStats.t :=
  fold_left (fun games stat =>
               if near_some_event window stat life_events
               then games ++ [stat] else games)
            stats [].

(** A value of the [proximity_analysis] dict. *)
Record proximity_entry := mkprox {
  px_count : nat;
  px_avg_fantasy : Q;
  px_avg_rec_yards : Q;
  px_avg_receptions : Q;
  px_avg_tds : Q
}.

(** One turn of [for window in [7, 14, 30]]; the key [f'{window}_day']
    is represented by the window. *)
Definition proximity_step (stats : list PlayerStats.t) (life_events : list LifeEvent.t)
    (acc : result (gmap Z proximity_entry)) (window : Z)
    : result (gmap Z proximity_entry) :=
  proximity_analysis ← acc;
  let games := games_near_events window stats life_events in
  match games with
  | [] => Ok proximity_analysis
  | _ :: _ =>
    let n := inject_Z (Z.of_nat (length games)) in
    af ← Profile.div (PyNum.sumQ (map PlayerStats.fantasy_points games)) n;
    ay ← Profile.div (inject_Z (PyNum.sumZ (map PlayerStats.receiving_yards games))) n;
    ar ← Profile.div (inject_Z (PyNum.sumZ (map PlayerStats.receptions games))) n;
    at_ ← Profile.div
            (inject_Z (PyNum.sumZ
                         (map (fun s => PlayerStats.receiving_tds s + PlayerStats.rushing_tds s)
                              games))) n;
    Ok (<[ window := mkprox (length games) af ay ar at_ ]> proximity_analysis)
  end.

Definition proximity_analysis (stats : list PlayerStats.t)
    (life_events : list LifeEvent.t) : result (gmap Z proximity_entry) :=
  fold_left (proximity_step stats life_events) [7; 14; 30] (Ok ∅).

(** One value of the [season_comparison] dict. *)
Record comparison := mkcmp {
  cmp_season : Q;
  cmp_near_events : Q;
  cmp_diff : Q;
  cmp_diff_pct : Q
}.

Definition compare (season_value near_value : Q) : result comparison :=
  let season := PyNum.round season_value 1 in
  let near_events := PyNum.round near_value 1 in
  let diff := PyNum.round (near_value - season_value) 1 in
  diff_pct ← (if Matchup.Qltb 0 season_value
              then q ← Profile.div (near_value - season_value) season_value;
                   Ok (PyNum.round (q * 100) 1)
              else Ok 0%Q);
  Ok (mkcmp season near_events diff diff_pct).

Record season_comparison_dict := mkseasoncmp {
  sc_fantasy_points : comparison;
  sc_receiving_yards : comparison;
  sc_receptions : comparison
}.

(** The block under [if proximity_analysis.get('7_day'):]; [None] is the
    dict left empty. *)
Definition season_comparison (avg : season_averages)
    (proximity : gmap Z proximity_entry) : result (option season_comparison_dict) :=
  match proximity !! 7 with
  | None => Ok None
  | Some prox =>
    fp ← compare (sa_fantasy_points avg) (px_avg_fantasy prox);
    ry ← compare (sa_receiving_yards avg) (px_avg_rec_yards prox);
    rc ← compare (sa_receptions avg) (px_avg_receptions prox);
    Ok (Some (mkseasoncmp fp ry rc))
  end.

(** What the view hands to the template, chart data apart. *)
Record analytics := mkanalytics {
  an_event_analysis : list Profile.event_entry;
  an_betting_insights : option Profile.betting_insights;
  an_recent_form : list form_entry;
  an_season_comparison : option season_comparison_dict;
  an_proximity_analysis : gmap Z proximity_entry
}.

(** The body of [player_analytics] on the two query results, in the
    order of the source. *)
Definition player_analytics (stats : list PlayerStats.t)
    (life_events : list LifeEvent.t) : result analytics :=
  match stats with
  | [] => Ok (mkanalytics [] None [] None ∅)
  | _ :: _ =>
    avg ← season_avg stats;
    let form := recent_form stats life_events avg in
    proximity ← proximity_analysis stats life_events;
    event_analysis ← Profile.analyze_events stats life_events;
    insights ← Profile.calc_betting_insights event_analysis;
    cmp ← season_comparison avg proximity;
    Ok (mkanalytics event_analysis insights form cmp proximity)
  end.

End ProfileView.


(** ** What [view_team_defense] aggregates *)

Module DefenseRows.

Import Defense.







End DefenseRows.


(** ** What [add_team_defense] and [import_team_defense] leave in the
       table *)

Module DefenseStore.

Import Defense Collector.

(** The unique key of a row. *)
Definition key_of (row : TeamDefenseStats.t) : string * Z * Z :=
  (TeamDefenseStats.team_abbr row, TeamDefenseStats.season row,
   TeamDefenseStats.week row).

(** [TeamDefenseStats.query.filter_by(team_abbr=.., season=.., week=..).first()]
    on a table. *)
Definition find_row (key : string * Z * Z) (tbl : list TeamDefenseStats.t)
    : option TeamDefenseStats.t :=
  head (List.filter
          (fun d => String.eqb (TeamDefenseStats.team_abbr d) (fst (fst key))
                    && (TeamDefenseStats.season d =? snd (fst key))
                    && (TeamDefenseStats.week d =? snd key))
          tbl).

(** The key of the profile a scheduled game asks for. *)
Definition game_key (game : UpcomingGame.t) : string * Z * Z :=
  (UpcomingGame.opponent game, UpcomingGame.season game, UpcomingGame.week game).

(** The entry of [defense_data] for the team at position [i] once both
    ranking loops have run. *)
Definition ranked_entry (i : nat) : team_defense :=
  set_rush_rank (Z.of_nat i + 1) (set_pass_rank (Z.of_nat i + 1) (initial_entry i)).

(** The row an import writes for the team at position [i]. *)
Definition imported_row (season week : Z) (i : nat) (team : string)
    : TeamDefenseStats.t :=
  TeamDefenseStats.mk team season week
    (pass_yards_allowed_per_game (initial_entry i))
    (rush_yards_allowed_per_game (initial_entry i))
    (passing_tds_allowed (initial_entry i))
    (rushing_tds_allowed (initial_entry i))
    (sacks (initial_entry i))
    (Z.of_nat i + 1) (Z.of_nat i + 1).

(** Update the first row with the key, or append. *)
Definition upsert (tbl : list TeamDefenseStats.t) (row : TeamDefenseStats.t)
    : list TeamDefenseStats.t :=
  if existsb (same_key row) tbl then update_first row tbl else tbl ++ [row].

(** An [Integer] column holds a signed 32-bit number in PostgreSQL, the
    narrower of the two databases the application is configured for; a
    wider number is refused when the session is flushed. *)
Definition fits_integer_column (n : Z) : bool :=
  (-2147483648 <=? n) && (n <=? 2147483647).

(** How a POST of the import form ends: [int] refuses a field and the
    ValueError leaves the view (the two conversions come before the
    [try]); the import is committed; or the [except] branch flashes the
    error. *)
Inductive post_outcome :=
| FormValueError
| ImportCommitted (db' : database)
| ImportError (e : exn).

Section Form.

(** [int] on a string of the form; [None] stands for ValueError. *)
Variable py_int : string -> option Z.

(** [int(request.form.get(name, default))]: the default is an [int]
    already and is used when the form lacks the field. *)
Definition form_int (field : option string) (default : Z) : option Z :=
  match field with
  | None => Some default
  | Some text => py_int text
  end.

(** The POST branch of [import_team_defense], from the form, for a user
    the decorators let through. *)
Definition import_team_defense_post (db : database)
    (season_field week_field : option string) : post_outcome :=
  match form_int season_field 2024 with
  | None => FormValueError
  | Some season =>
    match form_int week_field 1 with
    | None => FormValueError
    | Some week =>
      match import_team_defense db season week with
      | Ok db' => ImportCommitted db'
      | Raise e => ImportError e
      end
    end
  end.

End Form.

End DefenseStore.


(** ** Fantasy points: [calculate_fantasy_points] (data_collector.py) *)

Module Fantasy.

(** [stats.get(key, 0)]; the values are the [int]s of a game-log dict. *)
Definition get (stats : gmap string Z) (key : string) : Z :=
  default 0 (stats !! key).

(** The parameter [scoring] is accepted and never read. *)
Definition calculate_fantasy_points (stats : gmap string Z) (scoring : string) : Q :=
  let points := 0.0%Q in
  (* receiving *)
  let points := (points + inject_Z (get stats "receptions") * 1.0)%Q in
  let points := (points + inject_Z (get stats "receiving_yards") * 0.1)%Q in
  let points := (points + inject_Z (get stats "receiving_tds") * 6.0)%Q in
  (* rushing *)
  let points := (points + inject_Z (get stats "rushing_yards") * 0.1)%Q in
  let points := (points + inject_Z (get stats "rushing_tds") * 6.0)%Q in
  (* passing *)
  let points := (points + inject_Z (get stats "passing_yards") * 0.04)%Q in
  let points := (points + inject_Z (get stats "passing_tds") * 4.0)%Q in
  let points := (points + inject_Z (get stats "interceptions") * -2.0)%Q in
  (* fumbles *)
  let points := (points + inject_Z (get stats "fumbles") * -2.0)%Q in
  PyNum.round points 2.

(** The score in hundredths of a point. *)
Definition hundredths (stats : gmap string Z) : Z :=
  100 * get stats "receptions" + 10 * get stats "receiving_yards"
  + 600 * get stats "receiving_tds" + 10 * get stats "rushing_yards"
  + 600 * get stats "rushing_tds" + 4 * get stats "passing_yards"
  + 400 * get stats "passing_tds" - 200 * get stats "interceptions"
  - 200 * get stats "fumbles".

(** The nine keys the function reads. *)
Definition scoring_keys : list string :=
  [ "receptions"; "receiving_yards"; "receiving_tds"; "rushing_yards";
    "rushing_tds"; "passing_yards"; "passing_tds"; "interceptions";
    "fumbles" ]%string.

(** Stats of magnitude at most a million each.  For them the binary64
    sum stays within a millionth of the decimal one, far less than the
    half hundredth the final rounding takes up. *)
Definition moderate_stats (stats : gmap string Z) : bool :=
  forallb (fun key => Z.abs (get stats key) <=? 1000000) scoring_keys.

End Fantasy.


(** ** Importing game logs: the loop of [api_fetch_stats] (main.py) *)

Module StatsImport.

(** A dict of the list [get_player_game_log] returns. *)
Record game_log := mkgame {
  gl_game_date : PyDate.date;
  gl_week : Z;
  gl_targets : Z;
  gl_receptions : Z;
  gl_receiving_yards : Z;
  gl_receiving_tds : Z;
  gl_carries : Z;
  gl_rushing_yards : Z;
  gl_rushing_tds : Z;
  gl_completions : Z;
  gl_pass_attempts : Z;
  gl_passing_yards : Z;
  gl_passing_tds : Z;
  gl_interceptions : Z;
  gl_fumbles : Z;
  gl_fantasy_points : Q
}.

(** A row of [player_stats] with every column the import writes. *)
Record stats_row := mkrow {
  player_id : Z;
  game_date : PyDate.date;
  targets : Z;
  receptions : Z;
  receiving_yards : Z;
  receiving_tds : Z;
  carries : Z;
  rushing_yards : Z;
  rushing_tds : Z;
  completions : Z;
  pass_attempts : Z;
  passing_yards : Z;
  passing_tds : Z;
  interceptions : Z;
  fumbles : Z;
  fantasy_points : Q
}.

(** Equality of two dates, as the database compares them. *)
Definition date_eqb (a b : PyDate.date) : bool :=
  (PyDate.year a =? PyDate.year b)
  && (PyDate.month a =? PyDate.month b)
  && (PyDate.day a =? PyDate.day b).

(** [PlayerStats.query.filter_by(player_id=.., game_date=..).first()];
    the session flushes the rows added so far before it runs the query. *)
Definition existing (tbl : list stats_row) (pid : Z) (date : PyDate.date)
    : option stats_row :=
  head (List.filter (fun s => (player_id s =? pid) && date_eqb (game_date s) date) tbl).

Definition new_stats (pid : Z) (game : game_log) : stats_row :=
  mkrow pid (gl_game_date game) (gl_targets game) (gl_receptions game)
        (gl_receiving_yards game) (gl_receiving_tds game) (gl_carries game)
        (gl_rushing_yards game) (gl_rushing_tds game) (gl_completions game)
        (gl_pass_attempts game) (gl_passing_yards game) (gl_passing_tds game)
        (gl_interceptions game) (gl_fumbles game) (gl_fantasy_points game).

(** The body of [for game in game_logs]; the accumulator is the table
    and [imported_count]. *)
Definition import_game (pid : Z) (acc : list stats_row * nat) (game : game_log)
    : list stats_row * nat :=
  let '(tbl, imported_count) := acc in
  match existing tbl pid (gl_game_date game) with
  | Some _ => acc
  | None => (tbl ++ [new_stats pid game], S imported_count)
  end.

(** What the handler flashes. *)
Inductive outcome :=
| IdRequired
| NoGameData
| Imported (imported_count : nat)
| AlreadyImported.

(** The handler, for a player that exists and a user the decorators
    let through, on the form field [nfl_player_id] and on the game logs
    the collector returns for it. *)
Definition api_fetch_stats (tbl : list stats_row) (pid : Z)
    (nfl_player_id : option string) (game_logs : list game_log)
    : list stats_row * outcome :=
  match nfl_player_id with
  | None => (tbl, IdRequired)
  | Some id =>
    if String.eqb id "" then (tbl, IdRequired)
    else
      match game_logs with
      | [] => (tbl, NoGameData)
      | _ :: _ =>
        let '(tbl', imported_count) := fold_left (import_game pid) game_logs (tbl, 0%nat) in
        if (0 <? imported_count)%nat then (tbl', Imported imported_count)
        else (tbl', AlreadyImported)
      end
  end.

End StatsImport.


(** ** Accounts: the [User] model, the role decorators, [register],
       [login] and [change_user_role] (main.py) *)

Module Accounts.

Record user := mkuser {
  id : Z;
  username : string;
  email : string;
  password_hash : string;
  role : string
}.

Definition is_admin (u : user) : bool := String.eqb (role u) "admin".

Definition is_analyst (u : user) : bool :=
  existsb (String.eqb (role u)) ["admin"; "analyst"]%string.

Definition is_viewer (u : user) : bool :=
  existsb (String.eqb (role u)) ["admin"; "analyst"; "viewer"]%string.

(** What a view function returns. *)
Inductive response :=
| Redirect (endpoint : string)
| Render (template : string)
| NotFound.

(** [current_user] is [None] for an anonymous visitor.  A decorated
    view runs only for the users the decorator lets through. *)
Definition admin_required {S} (f : S -> S * response)
    (current_user : option user) (s : S) : S * response :=
  match current_user with
  | Some u => if is_admin u then f s else (s, Redirect "index")
  | None => (s, Redirect "index")
  end.

Definition analyst_required {S} (f : S -> S * response)
    (current_user : option user) (s : S) : S * response :=
  match current_user with
  | Some u => if is_analyst u then f s else (s, Redirect "index")
  | None => (s, Redirect "index")
  end.

(** [flask_login.login_required]: an anonymous visitor is sent to the
    login view. *)
Definition login_required {S} (f : S -> S * response)
    (current_user : option user) (s : S) : S * response :=
  match current_user with
  | Some _ => f s
  | None => (s, Redirect "login")
  end.

(** The key the database gives a new row: above every key in use. *)
Definition next_id (users : list user) : Z :=
  1 + fold_right Z.max 0 (map id users).

(** [User.query.filter_by(username=username).first()] *)
Definition by_username (users : list user) (name : string) : option user :=
  head (List.filter (fun u => String.eqb (username u) name) users).

Definition by_email (users : list user) (mail : string) : option user :=
  head (List.filter (fun u => String.eqb (email u) mail) users).

(** [User.query.get(user_id)] *)
Definition by_id (users : list user) (user_id : Z) : option user :=
  head (List.filter (fun u => id u =? user_id) users).

Section Passwords.

(** [werkzeug.security]'s two functions are library code. *)
Variable generate_password_hash : string -> string.
Variable check_password_hash : string -> string -> bool.

(** The four fields of the registration form. *)
Record register_form := mkregister {
  reg_username : string;
  reg_email : string;
  reg_password : string;
  reg_confirm_password : string
}.

(** The POST branch of [register]. *)
Definition register (current_user : option user) (form : register_form)
    (users : list user) : list user * response :=
  match current_user with
  | Some _ => (users, Redirect "index")
  | None =>
    if (String.length (reg_password form) <? 8)%nat then (users, Render "register.html")
    else if negb (String.eqb (reg_password form) (reg_confirm_password form))
    then (users, Render "register.html")
    else
      match by_username users (reg_username form) with
      | Some _ => (users, Render "register.html")
      | None =>
        match by_email users (reg_email form) with
        | Some _ => (users, Render "register.html")
        | None =>
          let new_user :=
            mkuser (next_id users) (reg_username form) (reg_email form)
                   (generate_password_hash (reg_password form)) "viewer" in
          (users ++ [new_user], Redirect "login")
        end
      end
  end.

(** The POST branch of [login]: the user logged in, if any, and the
    response; [next_page] is the query parameter [next]. *)
Definition login (current_user : option user) (name password : string)
    (next_page : option string) (users : list user) : option user * response :=
  match current_user with
  | Some u => (Some u, Redirect "index")
  | None =>
    match by_username users name with
    | Some u =>
      if check_password_hash (password_hash u) password
      then (Some u,
            match next_page with
            | Some url => if String.eqb url "" then Redirect "index" else Redirect url
            | None => Redirect "index"
            end)
      else (None, Render "login.html")
    | None => (None, Render "login.html")
    end
  end.

End Passwords.

Definition set_role (new_role : string) (u : user) : user :=
  mkuser (id u) (username u) (email u) (password_hash u) new_role.

(** [user.role = new_role] on the row that [get_or_404] returned. *)
Fixpoint update_role (user_id : Z) (new_role : string) (users : list user)
    : list user :=
  match users with
  | [] => []
  | u :: rest =>
    if id u =? user_id then set_role new_role u :: rest
    else u :: update_role user_id new_role rest
  end.

(** The body of [change_user_role]; [new_role] is [None] when the form
    has no field [role]. *)
Definition change_role_body (user_id : Z) (new_role : option string)
    (users : list user) : list user * response :=
  match by_id users user_id with
  | None => (users, NotFound)
  | Some _ =>
    match new_role with
    | None => (users, Redirect "admin_users")
    | Some r =>
      if negb (existsb (String.eqb r) ["admin"; "analyst"; "viewer"]%string)
      then (users, Redirect "admin_users")
      else (update_role user_id r users, Redirect "admin_users")
    end
  end.

Definition change_user_role (current_user : option user) (user_id : Z)
    (new_role : option string) (users : list user) : list user * response :=
  login_required
    (admin_required (change_role_body user_id new_role) current_user)
    current_user users.

End Accounts.


(** ** The dashboard: [analytics] (main.py) *)

Module Dashboard.

(** An element of [players_with_data]. *)
Record player_data := mkdata {
  pd_id : Z;
  pd_name : string;
  pd_team : string;
  pd_position : string;
  pd_stats_count : nat;
  pd_events_count : nat
}.

(** [PlayerStats.query.filter_by(player_id=player.id).count()] *)
Definition stats_count (db : database) (pid : Z) : nat :=
  length (List.filter (fun s => PlayerStats.player_id s =? pid) (tbl_player_stats db)).

(** [LifeEvent.query.filter_by(player_id=player.id).count()] *)
Definition events_count (db : database) (pid : Z) : nat :=
  length (List.filter (fun e => LifeEvent.player_id e =? pid) (tbl_life_event db)).

(** The body of [for player in Player.query.all()]. *)
Definition add_player_data (db : database) (players_with_data : list player_data)
    (player : Player.t) : list player_data :=
  let stats_count := stats_count db (Player.id player) in
  let events_count := events_count db (Player.id player) in
  if (0 <? stats_count)%nat && (0 <? events_count)%nat
  then players_with_data
       ++ [mkdata (Player.id player) (Player.name player) (Player.team player)
                  (Player.position player) stats_count events_count]
  else players_with_data.

(** What the view hands to the template. *)
Record dashboard := mkdash {
  total_players : nat;
  total_stats : nat;
  total_events : nat;
  players_with_data : list player_data
}.

Definition analytics (db : database) : dashboard :=
  mkdash (length (tbl_player db)) (length (tbl_player_stats db))
         (length (tbl_life_event db))
         (fold_left (add_player_data db) (tbl_player db) []).

End Dashboard.


(** ** Estimated game dates: [_estimate_game_date] (data_collector.py) *)

Module GameDate.

Import PyDate.

(** The month and the day of the day number [n] (from 0) of a year;
    the last steps of CPython's [_ord2ymd]. *)
Definition month_day (leapyear : bool) (n : Z) : Z * Z :=
  let month := Z.shiftr (n + 50) 5 in
  let preceding :=
    PyNum.sumZ (firstn (Z.to_nat (month - 1)) days_in_month)
    + (if (2 <? month) && leapyear then 1 else 0) in
  if n <? preceding then
    let month := month - 1 in
    let preceding :=
      preceding - (nth (Z.to_nat (month - 1)) days_in_month 0
                   + (if (month =? 2) && leapyear then 1 else 0)) in
    (month, n - preceding + 1)
  else (month, n - preceding + 1).

(** [date.fromordinal(n)], CPython's [_ord2ymd]. *)
Definition fromordinal (n : Z) : date :=
  let n := n - 1 in
  let n400 := n / 146097 in
  let n := n mod 146097 in
  let year := n400 * 400 + 1 in
  let n100 := n / 36524 in
  let n := n mod 36524 in
  let n4 := n / 1461 in
  let n := n mod 1461 in
  let n1 := n / 365 in
  let n := n mod 365 in
  let year := year + n100 * 100 + n4 * 4 + n1 in
  if (n1 =? 4) || (n100 =? 4) then mkdate (year - 1) 12 31
  else
    let leapyear := (n1 =? 3) && (negb (n4 =? 24) || (n100 =? 3)) in
    let '(month, day) := month_day leapyear n in
    mkdate year month day.

(** [d + timedelta(days=days)]; [None] stands for the OverflowError of
    a result outside [date.min .. date.max]. *)
Definition add_days (d : date) (days : Z) : option date :=
  let o := toordinal d + days in
  if (0 <? o) && (o <=? 3652059) then Some (fromordinal o) else None.

(** [datetime(year, month, day).date()] in the three branches; [None]
    stands for the ValueError of a year outside 1..9999. *)
Definition season_start (season : Z) : option date :=
  if season =? 2025 then Some (mkdate 2025 9 4)
  else if season =? 2024 then Some (mkdate 2024 9 5)
  else if (1 <=? season) && (season <=? 9999) then Some (mkdate season 9 5)
  else None.

Definition estimate_game_date (season week : Z) : option date :=
  start ← season_start season;
  add_days start ((week - 1) * 7).

End GameDate.


(** ** Concrete inputs used by the examples below *)

Module Examples.

Definition ymd (y m d : Z) : PyDate.date := PyDate.mkdate y m d.

(** A wide receiver and a running back. *)
Definition wr : Player.t := Player.mk 1 "Receiver" "KC" "WR".
Definition rb : Player.t := Player.mk 2 "Runner" "KC" "RB".

(** A game of player 1 with [yd] receiving yards and [fp] fantasy points. *)
Definition game_row (date : PyDate.date) (yd : Z) (fp : Q) : PlayerStats.t :=
  PlayerStats.mk 1 date 0 0 5 yd 0 7 fp.

(** Ten records of the 2024 season, 600 receiving yards in all. *)
Definition ten_games : list PlayerStats.t :=
  [ game_row (ymd 2024 9 8) 40 9;   game_row (ymd 2024 9 15) 80 13;
    game_row (ymd 2024 9 22) 60 11; game_row (ymd 2024 9 29) 55 10;
    game_row (ymd 2024 10 6) 65 12; game_row (ymd 2024 10 13) 70 12;
    game_row (ymd 2024 10 20) 50 10; game_row (ymd 2024 10 27) 60 11;
    game_row (ymd 2024 11 3) 75 13; game_row (ymd 2024 11 10) 45 9 ].

(** Two records only. *)
Definition two_games : list PlayerStats.t :=
  [ game_row (ymd 2024 9 8) 100 15; game_row (ymd 2024 9 15) 100 15 ].

(** A positive event three days before the game of 2024-11-17. *)
Definition birth : LifeEvent.t :=
  LifeEvent.mk 1 "positive" "birth" (ymd 2024 11 14).

(** The opponent's profile: pass-defense rank 5. *)
Definition buf_week11 : TeamDefenseStats.t :=
  TeamDefenseStats.mk "BUF" 2024 11 (2105 # 10) (1100 # 10) 14 8 30 5 12.

Definition buf_week2_2025 : TeamDefenseStats.t :=
  TeamDefenseStats.mk "BUF" 2025 2 (2105 # 10) (1100 # 10) 14 8 30 5 12.

(** The scheduled matchup, with an optional receiving-yards prop line. *)
Definition matchup (line : option Q) : UpcomingGame.t :=
  UpcomingGame.mk (ymd 2024 11 17) "BUF" 11 2024 line None None.

(** A matchup of the 2025 season, seven days after the event of
    2025-09-07. *)
Definition matchup_2025 (line : option Q) : UpcomingGame.t :=
  UpcomingGame.mk (ymd 2025 9 14) "BUF" 2 2025 line None None.

Definition signing : LifeEvent.t :=
  LifeEvent.mk 1 "positive" "contract" (ymd 2025 9 7).

Definition db_with_defense : database :=
  mkdb [wr] ten_games [birth] [buf_week11] [].

(** The same opponent with pass-defense rank 27. *)
Definition db_soft_defense : database :=
  mkdb [wr] ten_games [birth]
       [TeamDefenseStats.mk "BUF" 2024 11 (2650 # 10) (1100 # 10) 20 8 22 27 12] [].

Definition db_without_defense : database :=
  mkdb [wr] ten_games [birth] [] [].

(** [db_with_defense] with rows of another player and another team. *)
Definition db_with_other_rows : database :=
  mkdb [wr; rb] (ten_games ++ [PlayerStats.mk 2 (ymd 2023 9 10) 80 1 0 0 0 0 14])
       [birth]
       [buf_week11; TeamDefenseStats.mk "MIA" 2024 11 240 120 20 10 25 20 22]
       [PlayerVsTeamHistory.mk 2 "BUF" 0 95].

Definition db_2025 : database :=
  mkdb [wr] two_games [signing] [buf_week2_2025] [].

(** *** Correlation analyzer *)

Definition fp_row (date : PyDate.date) (fp : Q) : PlayerStats.t :=
  PlayerStats.mk 1 date 0 0 0 0 0 0 fp.

Definition injury (date : PyDate.date) : LifeEvent.t :=
  LifeEvent.mk 1 "injury" "injury" date.

(** Four injuries, forty days apart.  The first has games only before
    it and the last only after it, so both score lists have three
    entries. *)
Definition misaligned_events : list LifeEvent.t :=
  [ injury (ymd 2024 1 10); injury (ymd 2024 2 19);
    injury (ymd 2024 3 30); injury (ymd 2024 5 9) ].

Definition misaligned_stats : list PlayerStats.t :=
  [ fp_row (ymd 2024 1 5) 10;
    fp_row (ymd 2024 2 14) 12; fp_row (ymd 2024 2 24) 20;
    fp_row (ymd 2024 3 25) 11; fp_row (ymd 2024 4 4) 22;
    fp_row (ymd 2024 5 14) 21 ].

Definition db_misaligned : database :=
  mkdb [wr] misaligned_stats misaligned_events [] [].

(** Three injuries, each with a game before and a game after. *)
Definition aligned_events : list LifeEvent.t :=
  [ injury (ymd 2024 1 10); injury (ymd 2024 3 10); injury (ymd 2024 5 9) ].

Definition aligned_stats : list PlayerStats.t :=
  [ fp_row (ymd 2024 1 5) 10; fp_row (ymd 2024 1 15) 20;
    fp_row (ymd 2024 3 5) 12; fp_row (ymd 2024 3 15) 23;
    fp_row (ymd 2024 5 4) 11; fp_row (ymd 2024 5 14) 21 ].

Definition db_aligned : database :=
  mkdb [wr] aligned_stats aligned_events [] [].

(** Two injuries only. *)
Definition db_two_events : database :=
  mkdb [wr] aligned_stats (firstn 2 aligned_events) [] [].

(** A t-test stand-in for the examples (the analyzer is parametric in
    it): statistic 0, p-value 1. *)
Definition no_signal_ttest (_ _ : list Q) : Q * Q := (0%Q, 1%Q).

(** *** Event-proximity profile *)

(** Three scoreless games, an event, three games with points. *)
Definition scoreless_then_scoring : list PlayerStats.t :=
  [ game_row (ymd 2024 9 1) 0 0; game_row (ymd 2024 9 8) 0 0;
    game_row (ymd 2024 9 15) 0 0; game_row (ymd 2024 9 22) 50 10;
    game_row (ymd 2024 9 29) 60 11; game_row (ymd 2024 10 6) 70 12 ].

Definition six_games : list PlayerStats.t :=
  [ game_row (ymd 2024 9 1) 10 5; game_row (ymd 2024 9 8) 20 4;
    game_row (ymd 2024 9 15) 30 6; game_row (ymd 2024 9 22) 50 10;
    game_row (ymd 2024 9 29) 60 11; game_row (ymd 2024 10 6) 70 12 ].

Definition event_of_type (ty : string) : LifeEvent.t :=
  LifeEvent.mk 1 ty "family" (ymd 2024 9 18).

(** *** Defense profiles *)

(** A form that carries the required fields and the yards only. *)
Definition form_of (team_abbr : string) (pass_yards : Q) : Defense.defense_form :=
  Defense.mkform team_abbr 2024 1 (Some pass_yards) (Some 100%Q)
                 None None None None None.

Definition empty_db : database := mkdb [] [] [] [] [].

(** Profiles of two seasons; Kansas City has two weeks in 2024. *)
Definition two_seasons : database :=
  mkdb [] [] []
       [ TeamDefenseStats.mk "KC" 2024 1 225 100 0 0 0 16 16;
         TeamDefenseStats.mk "BUF" 2024 1 210 110 0 0 0 16 16;
         TeamDefenseStats.mk "KC" 2024 2 215 90 0 0 0 16 16;
         TeamDefenseStats.mk "MIA" 2023 1 215 90 0 0 0 7 7 ] [].

End Examples.


(** ** More concrete inputs *)

Module MoreExamples.

Import Examples.

(** The event analysis of six games around one neutral event. *)
Definition neutral_analysis : list Profile.event_entry :=
  match Profile.analyze_events six_games [event_of_type "neutral"] with
  | Ok event_analysis => event_analysis
  | Raise _ => []
  end.

(** A game against Kansas City in week 1 of 2024, without prop lines. *)
Definition kc_week1 : UpcomingGame.t :=
  UpcomingGame.mk (ymd 2024 9 8) "KC" 1 2024 None None None.

(** Stand-ins for the two hash functions (the account functions are
    parametric in them): the hash is the password itself. *)
Definition plain_hash (password : string) : string := password.

Definition plain_check (hash password : string) : bool := String.eqb hash password.

Definition alice : Accounts.register_form :=
  Accounts.mkregister "alice" "alice@example.org" "correct horse" "correct horse".

End MoreExamples.


(* ===================================================================== *)
(** * Part II: theorems                                                   *)
(* ===================================================================== *)

(** ** Matchup projection *)

Module MatchupFacts.

Import Matchup Examples.

(** The loop body, with the window test named. *)
Lemma event_step_eq game_date impact recent e :
  event_step game_date (impact, recent) e =
  if in_window game_date e
  then (if String.eqb (LifeEvent.event_type e) "positive"
        then (impact + 0.12)%Q else (impact - 0.08)%Q, recent ++ [e])
  else (impact, recent).
Proof. reflexivity. Qed.

(** The loop keeps the events of the window, in order, and adds up their
    impacts. *)
Lemma scan_events_acc game_date events impact recent :
  snd (fold_left (event_step game_date) events (impact, recent))
  = recent ++ List.filter (in_window game_date) events
  /\ (fst (fold_left (event_step game_date) events (impact, recent))
      == impact + spec_event_impact game_date events)%Q.
Proof.
  revert impact recent.
  induction events as [|e events IH]; intros impact recent.
  - cbn. split; [by rewrite app_nil_r | ring].
  - cbn [fold_left]. rewrite event_step_eq.
    unfold spec_event_impact. cbn [List.filter].
    destruct (in_window game_date e) eqn:W.
    + destruct (IH (if String.eqb (LifeEvent.event_type e) "positive"
                    then (impact + 0.12)%Q else (impact - 0.08)%Q)
                   (recent ++ [e])) as [IHs IHf].
      split.
      * rewrite IHs. by rewrite <- app_assoc.
      * rewrite IHf. cbn [fold_right]. unfold spec_event_impact, spec_impact.
        destruct (String.eqb (LifeEvent.event_type e) "positive"); ring.
    + apply IH.
Qed.

Lemma scan_events_spec game_date events :
  snd (scan_events game_date events) = List.filter (in_window game_date) events
  /\ (fst (scan_events game_date events) == spec_event_impact game_date events)%Q.
Proof.
  unfold scan_events.
  destruct (scan_events_acc game_date events 0%Q []) as [Hs Hf].
  split; [exact Hs | rewrite Hf; ring].
Qed.

(** The cross-season block touches the confidence and the factors only. *)
Lemma cross_season_fields db player game p :
  base_projection (cross_season db player game p) = base_projection p
  /\ event_adjustment (cross_season db player game p) = event_adjustment p
  /\ opponent_adjustment (cross_season db player game p) = opponent_adjustment p
  /\ final_projection (cross_season db player game p) = final_projection p
  /\ recommendation (cross_season db player game p) = recommendation p.
Proof.
  unfold cross_season.
  destruct (query_player_stats db player) as [|s0 rest]; [done|].
  destruct (negb _); done.
Qed.

(** The fields of the dict after step 7. *)
Lemma steps_fields db player game events stats :
  let p := steps_1_to_7 db player game events stats in
  let sc := scan_events (UpcomingGame.game_date game) events in
  let defense := query_defense db game in
  base_projection p =
    (if in_WR_TE (Player.position player)
     then PyNum.truediv (PyNum.sumZ (map PlayerStats.receiving_yards stats)) (length stats)
     else PyNum.truediv (PyNum.sumZ (map PlayerStats.rushing_yards stats)) (length stats))
  /\ event_adjustment p =
       match snd sc with
       | [] => 0%Q
       | _ :: _ => (base_projection p * fst sc)%Q
       end
  /\ opponent_adjustment p =
       match defense with
       | None => 0%Q
       | Some d =>
         rank_adjustment (base_projection p)
           (if in_WR_TE (Player.position player)
            then TeamDefenseStats.pass_defense_rank d
            else TeamDefenseStats.rush_defense_rank d)
       end
  /\ final_projection p =
       PyNum.round (base_projection p + event_adjustment p + opponent_adjustment p) 1
  /\ confidence p =
       confidence_factors (snd sc) defense (query_vs_team db player game) stats
  /\ recommendation p =
       recommend (Player.position player) game (final_projection p) (confidence p) "HOLD".
Proof.
  cbv zeta. unfold steps_1_to_7.
  destruct (scan_events (UpcomingGame.game_date game) events) as [impact recent].
  destruct (query_defense db game) as [d|];
    destruct (in_WR_TE (Player.position player)); cbn; done.
Qed.

Lemma cross_season_confidence db player game p :
  confidence (cross_season db player game p) =
  match query_player_stats db player with
  | [] => confidence p
  | s0 :: _ =>
    if UpcomingGame.season game =? PyDate.year (PlayerStats.game_date s0)
    then confidence p
    else PyNum.int (inject_Z (confidence p) * 0.85)
  end.
Proof.
  unfold cross_season.
  destruct (query_player_stats db player) as [|s0 rest]; [done|].
  destruct (UpcomingGame.season game =? _); done.
Qed.

Lemma calc_nonempty db player game events stats :
  stats <> [] ->
  calculate_matchup_prediction db player game events stats
  = cross_season db player game (steps_1_to_7 db player game events stats).
Proof. destruct stats; [congruence | reflexivity]. Qed.

(** An event outside the window does not change the scan. *)
Lemma scan_events_skip game_date before e after :
  in_window game_date e = false ->
  scan_events game_date (before ++ e :: after)
  = scan_events game_date (before ++ after).
Proof.
  intros W. unfold scan_events.
  rewrite !fold_left_app. cbn [fold_left].
  destruct (fold_left (event_step game_date) before (0%Q, [])) as [impact recent].
  rewrite event_step_eq, W. reflexivity.
Qed.

(** The summed impact splits around any one event. *)
Lemma spec_event_impact_split game_date before e after :
  (spec_event_impact game_date (before ++ e :: after)
   == spec_event_impact game_date (before ++ after)
      + (if in_window game_date e then spec_impact e else 0))%Q.
Proof.
  unfold spec_event_impact.
  induction before as [|b before IH].
  - cbn [app List.filter]. destruct (in_window game_date e); cbn [fold_right]; ring.
  - cbn [app List.filter].
    destruct (in_window game_date b); [cbn [fold_right]; rewrite IH; ring | exact IH].
Qed.

(** The base projection and the event adjustment of a player with
    records, from the arguments alone. *)
Lemma event_adjustment_of_records db player game events stats :
  stats <> [] ->
  let p := calculate_matchup_prediction db player game events stats in
  let average :=
    if in_WR_TE (Player.position player)
    then PyNum.truediv (PyNum.sumZ (map PlayerStats.receiving_yards stats)) (length stats)
    else PyNum.truediv (PyNum.sumZ (map PlayerStats.rushing_yards stats)) (length stats) in
  base_projection p = average
  /\ (event_adjustment p
      == average * spec_event_impact (UpcomingGame.game_date game) events)%Q.
Proof.
  intros Hne. cbv zeta. rewrite calc_nonempty by done.
  destruct (cross_season_fields db player game
              (steps_1_to_7 db player game events stats)) as (Hb & He & _).
  rewrite Hb, He.
  destruct (steps_fields db player game events stats) as (Hbase & Hev & _).
  rewrite Hev, Hbase. split; [reflexivity|].
  destruct (scan_events_spec (UpcomingGame.game_date game) events) as [Hs Hf].
  rewrite Hs.
  destruct (List.filter (in_window (UpcomingGame.game_date game)) events)
    as [|e0 rest] eqn:F.
  - unfold spec_event_impact. rewrite F. cbn [fold_right]. ring.
  - rewrite Hf. reflexivity.
Qed.

(** C2: in the projection of a player with records, the base projection
    is the average of the yards of the player's position over the records
    and the event adjustment is that base times the sum, over the life
    events dated 0 to 7 days before the game (both ends included), of
    +0.12 for an event whose type is the literal "positive" and -0.08 for
    any other type.  So an event inside the window moves the adjustment by
    0.12 or -0.08 times the base, and an event outside it changes nothing
    in the projection.  Without records both numbers are 0. *)
Theorem event_adjustment_sums_window_impacts db player game events stats :
  let p := calculate_matchup_prediction db player game events stats in
  let game_date := UpcomingGame.game_date game in
  let average :=
    if in_WR_TE (Player.position player)
    then PyNum.truediv (PyNum.sumZ (map PlayerStats.receiving_yards stats)) (length stats)
    else PyNum.truediv (PyNum.sumZ (map PlayerStats.rushing_yards stats)) (length stats) in
  (event_adjustment p == base_projection p * spec_event_impact game_date events)%Q
  /\ (stats <> [] ->
      base_projection p = average
      /\ (event_adjustment p == average * spec_event_impact game_date events)%Q)
  /\ (forall before e after,
        events = before ++ e :: after ->
        in_window game_date e = true ->
        (event_adjustment p
         == event_adjustment
              (calculate_matchup_prediction db player game (before ++ after) stats)
            + base_projection p
              * (if String.eqb (LifeEvent.event_type e) "positive"
                 then 0.12 else -0.08))%Q)
  /\ (forall before e after,
        events = before ++ e :: after ->
        in_window game_date e = false ->
        calculate_matchup_prediction db player game (before ++ after) stats = p).
Proof.
  cbv zeta.
  assert (Hall : forall evs,
            (event_adjustment (calculate_matchup_prediction db player game evs stats)
             == base_projection (calculate_matchup_prediction db player game evs stats)
                * spec_event_impact (UpcomingGame.game_date game) evs)%Q).
  { intros evs. destruct stats as [|s stats'].
    - cbn. ring.
    - assert (Hne : s :: stats' <> []) by discriminate.
      destruct (event_adjustment_of_records db player game evs _ Hne) as [Hb He].
      rewrite He, Hb. reflexivity. }
  assert (Hbase : forall evs,
            base_projection (calculate_matchup_prediction db player game evs stats)
            = base_projection (calculate_matchup_prediction db player game events stats)).
  { intros evs. destruct stats as [|s stats']; [reflexivity|].
    assert (Hne : s :: stats' <> []) by discriminate.
    destruct (event_adjustment_of_records db player game evs _ Hne) as [-> _].
    destruct (event_adjustment_of_records db player game events _ Hne) as [-> _].
    reflexivity. }
  split; [apply Hall|].
  split; [intros Hne; exact (event_adjustment_of_records db player game events stats Hne)|].
  split.
  - intros before e after E W.
    rewrite (Hall events), (Hall (before ++ after)), (Hbase (before ++ after)).
    rewrite E at 2. rewrite spec_event_impact_split, W. unfold spec_impact.
    destruct (String.eqb (LifeEvent.event_type e) "positive"); ring.
  - intros before e after -> W.
    destruct stats as [|s stats']; [reflexivity|].
    rewrite !calc_nonempty by done. f_equal.
    unfold steps_1_to_7. rewrite (scan_events_skip _ _ _ _ W). reflexivity.
Qed.

(** Ten records of 600 receiving yards in all and one positive event
    three days before the game: the base is 60.0 and the adjustment
    60.0 * 0.12 = 7.2; without the event the adjustment is 0. *)
Lemma event_adjustment_sums_window_impacts_witness :
  let p := calculate_matchup_prediction db_with_defense wr (matchup None)
             [birth] ten_games in
  let q := calculate_matchup_prediction db_with_defense wr (matchup None)
             [] ten_games in
  (base_projection p == 60)%Q
  /\ (event_adjustment p == 7.2)%Q
  /\ (event_adjustment p == event_adjustment q + 7.2)%Q.
Proof.
  cbv zeta.
  destruct (event_adjustment_sums_window_impacts db_with_defense wr (matchup None)
              [birth] ten_games) as (_ & Hrec & Hin & _).
  assert (Hne : ten_games <> []) by discriminate.
  destruct (Hrec Hne) as [Hb He].
  split; [rewrite Hb; reflexivity|].
  split; [rewrite He; reflexivity|].
  rewrite (Hin [] birth [] eq_refl eq_refl). rewrite Hb. reflexivity.
Defined.

(** C9: for a pass catcher with records and a non-negative base
    projection, the opponent adjustment is
    base * ((1 + (rank - 16) * 0.02) - 1) for the pass-defense rank of the
    opponent's profile, and it does not decrease when that rank grows. *)
Theorem rank_adjustment_monotone db1 db2 player game events stats d1 d2 :
  stats <> [] ->
  in_WR_TE (Player.position player) = true ->
  query_defense db1 game = Some d1 ->
  query_defense db2 game = Some d2 ->
  (0 <= base_projection (calculate_matchup_prediction db1 player game events stats))%Q ->
  TeamDefenseStats.pass_defense_rank d1 <= TeamDefenseStats.pass_defense_rank d2 ->
  let p1 := calculate_matchup_prediction db1 player game events stats in
  let p2 := calculate_matchup_prediction db2 player game events stats in
  (opponent_adjustment p1
   == base_projection p1
      * ((1 + inject_Z (TeamDefenseStats.pass_defense_rank d1 - 16) * 0.02) - 1))%Q
  /\ (opponent_adjustment p2
      == base_projection p1
         * ((1 + inject_Z (TeamDefenseStats.pass_defense_rank d2 - 16) * 0.02) - 1))%Q
  /\ (opponent_adjustment p1 <= opponent_adjustment p2)%Q.
Proof.
  intros Hne Hpos Hd1 Hd2 Hbase Hrank. cbv zeta.
  rewrite !calc_nonempty in * by done.
  destruct (cross_season_fields db1 player game
              (steps_1_to_7 db1 player game events stats)) as (Hb1 & _ & Ho1 & _).
  destruct (cross_season_fields db2 player game
              (steps_1_to_7 db2 player game events stats)) as (Hb2 & _ & Ho2 & _).
  destruct (steps_fields db1 player game events stats) as (Hs1 & _ & Hop1 & _).
  destruct (steps_fields db2 player game events stats) as (Hs2 & _ & Hop2 & _).
  rewrite Hb1 in *. rewrite Ho1, Ho2, Hop1, Hop2, Hd1, Hd2, Hpos.
  assert (Hsame : base_projection (steps_1_to_7 db2 player game events stats)
                  = base_projection (steps_1_to_7 db1 player game events stats))
    by (rewrite Hs1, Hs2; reflexivity).
  rewrite Hsame.
  set (b := base_projection (steps_1_to_7 db1 player game events stats)) in *.
  unfold rank_adjustment, rank_multiplier.
  split; [reflexivity | split; [reflexivity|]].
  assert (Hx : (inject_Z (TeamDefenseStats.pass_defense_rank d1 - 16)
                <= inject_Z (TeamDefenseStats.pass_defense_rank d2 - 16))%Q)
    by (rewrite <- Zle_Qle; lia).
  set (x1 := inject_Z (TeamDefenseStats.pass_defense_rank d1 - 16)) in *.
  set (x2 := inject_Z (TeamDefenseStats.pass_defense_rank d2 - 16)) in *.
  clearbody b x1 x2. nra.
Qed.

Lemma rank_adjustment_monotone_witness :
  (opponent_adjustment
     (calculate_matchup_prediction db_with_defense wr (matchup None) [birth] ten_games)
   == -13.2)%Q
  /\ (opponent_adjustment
        (calculate_matchup_prediction db_soft_defense wr (matchup None) [birth] ten_games)
      == 13.2)%Q
  /\ (opponent_adjustment
        (calculate_matchup_prediction db_with_defense wr (matchup None) [birth] ten_games)
      <= opponent_adjustment
           (calculate_matchup_prediction db_soft_defense wr (matchup None) [birth]
              ten_games))%Q.
Proof.
  assert (Hne : ten_games <> []) by discriminate.
  assert (Hbase : (0 <= base_projection
                          (calculate_matchup_prediction db_with_defense wr
                             (matchup None) [birth] ten_games))%Q)
    by (vm_compute; discriminate).
  assert (Hrank : 5 <= 27) by lia.
  destruct (rank_adjustment_monotone db_with_defense db_soft_defense wr
              (matchup None) [birth] ten_games _ _
              Hne eq_refl eq_refl eq_refl Hbase Hrank) as (H1 & H2 & H3).
  split; [|split; [|exact H3]].
  - rewrite H1. reflexivity.
  - rewrite H2. reflexivity.
Defined.


Lemma positive_event_in_window game_date e :
  PyDate.days_between game_date (LifeEvent.event_date e) = 3 ->
  in_window game_date e = true.
Proof. intros H. unfold in_window. rewrite H. reflexivity. Qed.

(** C1 (amended): for a pass catcher with 10 records totalling 600
    receiving yards, one positive life event 3 days before the game, an
    opponent profile of pass-defense rank 5, no head-to-head history and
    no prop line, the projection has base 60, event adjustment 7.2,
    opponent adjustment -13.2, final projection 54.0 and recommendation
    HOLD; its confidence is 80 (25 for the event, 35 for the profile, 20
    for at least five records), scaled to 68 when the season of the game
    is not the year of the first stored record. *)
Theorem example_projection db player game e stats d :
  in_WR_TE (Player.position player) = true ->
  length stats = 10%nat ->
  PyNum.sumZ (map PlayerStats.receiving_yards stats) = 600 ->
  LifeEvent.event_type e = "positive"%string ->
  PyDate.days_between (UpcomingGame.game_date game) (LifeEvent.event_date e) = 3 ->
  query_defense db game = Some d ->
  TeamDefenseStats.pass_defense_rank d = 5 ->
  query_vs_team db player game = [] ->
  UpcomingGame.prop_receiving_yards game = None ->
  UpcomingGame.prop_rush_yards game = None ->
  let p := calculate_matchup_prediction db player game [e] stats in
  (base_projection p == 60)%Q
  /\ (event_adjustment p == 7.2)%Q
  /\ (opponent_adjustment p == -13.2)%Q
  /\ (final_projection p == 54.0)%Q
  /\ confidence p =
       match query_player_stats db player with
       | [] => 80
       | s0 :: _ =>
         if UpcomingGame.season game =? PyDate.year (PlayerStats.game_date s0)
         then 80 else 68
       end
  /\ recommendation p = "HOLD"%string.
Proof.
  intros Hpos Hlen Hsum Hty Hdays Hdef Hrank Hhist Hp1 Hp2. cbv zeta.
  assert (Hne : stats <> []) by (intros ->; discriminate).
  rewrite calc_nonempty by done.
  destruct (cross_season_fields db player game
              (steps_1_to_7 db player game [e] stats)) as (Hb & He & Ho & Hf & Hr).
  rewrite Hb, He, Ho, Hf, Hr, cross_season_confidence.
  destruct (steps_fields db player game [e] stats) as (Sb & Se & So & Sf & Sc & Sr).
  assert (Hscan : scan_events (UpcomingGame.game_date game) [e]
                  = ((0 + 0.12)%Q, [e])).
  { unfold scan_events. cbn [fold_left].
    rewrite event_step_eq, (positive_event_in_window _ _ Hdays), Hty.
    reflexivity. }
  rewrite Hpos, Hsum, Hlen in Sb.
  rewrite Hscan, Sb in Se. cbn [fst snd] in Se.
  rewrite Hdef, Hpos, Hrank, Sb in So.
  rewrite Sb, Se, So in Sf.
  rewrite Hscan, Hdef, Hhist in Sc. cbn [snd] in Sc.
  unfold confidence_factors in Sc. rewrite Hlen in Sc. cbn in Sc.
  unfold recommend in Sr. rewrite Hp1, Hp2 in Sr.
  rewrite Sb, Se, So, Sf, Sc, Sr.
  repeat split; reflexivity.
Qed.

Lemma example_projection_witness :
  let p := calculate_matchup_prediction db_with_defense wr (matchup None)
             [birth] ten_games in
  (base_projection p == 60)%Q /\ confidence p = 80.
Proof.
  pose proof (example_projection db_with_defense wr (matchup None) birth
                ten_games buf_week11
                eq_refl eq_refl eq_refl eq_refl eq_refl eq_refl eq_refl
                eq_refl eq_refl eq_refl) as H.
  cbv zeta in H. destruct H as (Hb & _ & _ & _ & Hc & _).
  split; [exact Hb | exact Hc].
Defined.

(** C1 as stated fails: on such an input the confidence is 80, not 60. *)
Lemma example_confidence_is_not_60 :
  length ten_games = 10%nat
  /\ PyNum.sumZ (map PlayerStats.receiving_yards ten_games) = 600
  /\ LifeEvent.event_type birth = "positive"%string
  /\ PyDate.days_between (UpcomingGame.game_date (matchup None))
                         (LifeEvent.event_date birth) = 3
  /\ option_map TeamDefenseStats.pass_defense_rank
        (query_defense db_with_defense (matchup None)) = Some 5
  /\ relevant_prop_line wr (matchup None) = None
  /\ confidence (calculate_matchup_prediction db_with_defense wr (matchup None)
                   [birth] ten_games) = 80
  /\ confidence (calculate_matchup_prediction db_with_defense wr (matchup None)
                   [birth] ten_games) <> 60.
Proof. repeat split; try reflexivity. discriminate. Qed.


(** C6 as stated fails: the same four arguments give two different
    projections on two states of the session, one holding the opponent's
    profile and one not. *)
Lemma projection_reads_the_session :
  confidence (calculate_matchup_prediction db_with_defense wr (matchup None)
                [birth] ten_games) = 80
  /\ confidence (calculate_matchup_prediction db_without_defense wr (matchup None)
                   [birth] ten_games) = 45
  /\ calculate_matchup_prediction db_with_defense wr (matchup None) [birth] ten_games
     <> calculate_matchup_prediction db_without_defense wr (matchup None) [birth]
          ten_games.
Proof.
  split; [reflexivity | split; [reflexivity|]].
  intros H. apply (f_equal confidence) in H. vm_compute in H. discriminate.
Qed.

(** C6 (amended): the projection is a function of its four arguments
    and of three reads of the session: the opponent's profile for the
    game's (opponent, season, week), the player's history against the
    opponent, and the player's stored records.  Two states of the session
    that answer these three queries alike give the same projection. *)
Theorem projection_determined_by_arguments_and_queries
    db1 db2 player game events stats :
  query_defense db1 game = query_defense db2 game ->
  query_vs_team db1 player game = query_vs_team db2 player game ->
  query_player_stats db1 player = query_player_stats db2 player ->
  calculate_matchup_prediction db1 player game events stats
  = calculate_matchup_prediction db2 player game events stats.
Proof.
  intros Hd Hh Hs.
  unfold calculate_matchup_prediction, cross_season, steps_1_to_7.
  rewrite Hd, Hh, Hs. reflexivity.
Qed.

Lemma projection_determined_witness :
  db_with_defense <> db_with_other_rows
  /\ calculate_matchup_prediction db_with_defense wr (matchup None) [birth] ten_games
     = calculate_matchup_prediction db_with_other_rows wr (matchup None) [birth] ten_games.
Proof.
  split; [discriminate|].
  apply (projection_determined_by_arguments_and_queries
           db_with_defense db_with_other_rows wr (matchup None) [birth] ten_games);
    reflexivity.
Defined.


(** The rule reads the confidence before the cross-season scaling: here
    the returned confidence is 51 and the recommendation STRONG OVER. *)
Lemma recommendation_uses_unscaled_confidence :
  let p := calculate_matchup_prediction db_2025 wr (matchup_2025 (Some 80%Q))
             [signing] two_games in
  (final_projection p == 90)%Q
  /\ confidence p = 51
  /\ recommendation p = "STRONG OVER"%string
  /\ spec_recommendation (final_projection p) (confidence p)
       (relevant_prop_line wr (matchup_2025 (Some 80%Q))) = "LEAN OVER"%string.
Proof. repeat split; reflexivity. Qed.

(** A prop line of 0.0 is falsy and leaves the recommendation at HOLD. *)
Lemma recommendation_with_zero_line :
  let p := calculate_matchup_prediction db_with_defense wr (matchup (Some 0%Q))
             [birth] ten_games in
  recommendation p = "HOLD"%string
  /\ spec_recommendation (final_projection p) (confidence p)
       (relevant_prop_line wr (matchup (Some 0%Q))) = "STRONG OVER"%string.
Proof. repeat split; reflexivity. Qed.





(** Without records the projection is the initial dict: all-zero
    numbers, confidence 0 and recommendation HOLD. *)
Lemma projection_without_records db player game events :
  calculate_matchup_prediction db player game events [] = initial_prediction
  /\ (final_projection initial_prediction == 0)%Q
  /\ confidence initial_prediction = 0
  /\ recommendation initial_prediction = "HOLD"%string.
Proof. repeat split. Qed.

End MatchupFacts.

(** ** Correlation analyzer *)

Module AnalyticsFacts.

Import Analytics Examples.

(** The loop body of the analyzer. *)
Lemma score_step_eq db pid days_before days_after bs afs e :
  score_step db pid days_before days_after (bs, afs) e =
  (match before_stats db pid days_before e with
   | [] => bs
   | _ :: _ => bs ++ [mean (map PlayerStats.fantasy_points
                               (before_stats db pid days_before e))]
   end,
   match after_stats db pid days_after e with
   | [] => afs
   | _ :: _ => afs ++ [mean (map PlayerStats.fantasy_points
                                (after_stats db pid days_after e))]
   end).
Proof. reflexivity. Qed.

(** The two score lists are the contributions of the events that have
    games in the window, in the order of the events. *)
Lemma collect_scores_acc db pid days_before days_after events start bs afs :
  fold_left (score_step db pid days_before days_after) events (bs, afs)
  = (bs ++ map snd (before_contributions db pid days_before start events),
     afs ++ map snd (after_contributions db pid days_after start events)).
Proof.
  revert start bs afs.
  induction events as [|e events IH]; intros start bs afs.
  - cbn. by rewrite !app_nil_r.
  - cbn [fold_left]. rewrite score_step_eq, (IH (S start)).
    unfold before_contributions, after_contributions.
    cbn [length seq combine List.filter snd fst].
    destruct (before_stats db pid days_before e) as [|b0 bl] eqn:B;
      destruct (after_stats db pid days_after e) as [|a0 al] eqn:A;
      cbn [length Nat.eqb negb map snd fst];
      rewrite ?B, ?A, <- ?app_assoc; reflexivity.
Qed.

Lemma collect_scores_provenance db pid days_before days_after events :
  collect_scores db pid days_before days_after events
  = (map snd (before_contributions db pid days_before 0 events),
     map snd (after_contributions db pid days_after 0 events)).
Proof. unfold collect_scores. by rewrite (collect_scores_acc _ _ _ _ _ 0%nat). Qed.

Section Analyzer_facts.
Context {Coef : Type}.
Variable ttest_ind : list Q -> list Q -> Q * Q.
Variable corrcoef : list Q -> list Q -> Coef.
Variable zero : Coef.

Lemma calculate_correlation_some db pid etype days_before days_after res :
  calculate_correlation ttest_ind corrcoef zero db pid etype days_before days_after
  = Some res ->
  let scores := collect_scores db pid days_before days_after
                  (query_events db pid etype) in
  (3 <= length (fst scores))%nat
  /\ (3 <= length (snd scores))%nat
  /\ sample_size res = (length (fst scores) + length (snd scores))%nat
  /\ correlation_coefficient res =
       (if (length (fst scores) =? length (snd scores))%nat
        then corrcoef (fst scores) (snd scores) else zero).
Proof.
  unfold calculate_correlation. cbv zeta.
  destruct (query_events db pid etype) as [|e0 events] eqn:E; [discriminate|].
  destruct (collect_scores db pid days_before days_after (e0 :: events))
    as [bs afs].
  destruct ((length bs <? 3)%nat) eqn:Hb; [discriminate|].
  destruct ((length afs <? 3)%nat) eqn:Ha; [discriminate|].
  cbn [orb fst snd].
  destruct (ttest_ind bs afs) as [t p].
  intros [= <-]. cbn.
  apply Nat.ltb_ge in Hb, Ha. done.
Qed.

Lemma calculate_correlation_none db pid etype days_before days_after :
  let scores := collect_scores db pid days_before days_after
                  (query_events db pid etype) in
  (length (fst scores) < 3 \/ length (snd scores) < 3)%nat ->
  calculate_correlation ttest_ind corrcoef zero db pid etype days_before days_after
  = None.
Proof.
  cbv zeta. unfold calculate_correlation.
  destruct (query_events db pid etype) as [|e0 events]; [done|].
  destruct (collect_scores db pid days_before days_after (e0 :: events))
    as [bs afs]. cbn [fst snd].
  intros [H|H]; apply Nat.ltb_lt in H; rewrite H; [done|].
  by rewrite orb_true_r.
Qed.

Lemma analyse_and_save_rows db rows pid etype :
  Forall (fun r => 6 <= sample_size r)%nat rows ->
  Forall (fun r => 6 <= sample_size r)%nat
         (analyse_and_save ttest_ind corrcoef zero db rows pid etype).
Proof.
  intros H. unfold analyse_and_save.
  destruct (calculate_correlation _ _ _ db pid etype 30 30) as [res|] eqn:E; [|done].
  apply Forall_app. split; [done|]. constructor; [|constructor].
  apply calculate_correlation_some in E. cbv zeta in E.
  destruct E as (Hb & Ha & Hs & _). lia.
Qed.

Lemma run_analysis_cycle_rows db :
  Forall (fun r => 6 <= sample_size r)%nat
         (run_analysis_cycle ttest_ind corrcoef zero db).
Proof.
  unfold run_analysis_cycle.
  generalize (players_with_events db).
  assert (H0 : Forall (fun r : correlation_result Coef => 6 <= sample_size r)%nat [])
    by constructor.
  revert H0. generalize (@nil (correlation_result Coef)).
  intros rows H pids. revert rows H.
  induction pids as [|pid pids IH]; intros rows H; [done|].
  cbn [fold_left]. apply IH.
  generalize event_types. intros tys. revert rows H.
  induction tys as [|ty tys IHt]; intros rows H; [done|].
  cbn [fold_left]. apply IHt. by apply analyse_and_save_rows.
Qed.

End Analyzer_facts.

(** C3: the analysis returns no result whenever fewer than 3 before
    values or fewer than 3 after values were collected; a result, when
    there is one, has a sample size (before values plus after values) of
    at least 6; a missing result adds no row to the analysis table, and
    every row a cycle adds has a sample size of at least 6. *)
Theorem no_result_on_insufficient_data {Coef} (ttest_ind : list Q -> list Q -> Q * Q)
    (corrcoef : list Q -> list Q -> Coef) (zero : Coef)
    db pid etype days_before days_after :
  let scores := collect_scores db pid days_before days_after
                  (query_events db pid etype) in
  let outcome := calculate_correlation ttest_ind corrcoef zero db pid etype
                   days_before days_after in
  ((length (fst scores) < 3 \/ length (snd scores) < 3)%nat -> outcome = None)
  /\ (forall res, outcome = Some res ->
        (3 <= length (fst scores))%nat /\ (3 <= length (snd scores))%nat
        /\ sample_size res = (length (fst scores) + length (snd scores))%nat
        /\ (6 <= sample_size res)%nat)
  /\ (forall rows,
        calculate_correlation ttest_ind corrcoef zero db pid etype 30 30 = None ->
        analyse_and_save ttest_ind corrcoef zero db rows pid etype = rows)
  /\ Forall (fun r => 6 <= sample_size r)%nat
            (run_analysis_cycle ttest_ind corrcoef zero db).
Proof.
  cbv zeta. split; [|split; [|split]].
  - apply calculate_correlation_none.
  - intros res E. apply calculate_correlation_some in E. cbv zeta in E.
    destruct E as (Hb & Ha & Hs & _). repeat split; try done. lia.
  - intros rows E. unfold analyse_and_save. by rewrite E.
  - apply run_analysis_cycle_rows.
Qed.

(** The Cauchy-Schwarz inequality on the deviations. *)
Local Open Scope R_scope.

Lemma sumR_cons (a : R) (l : list R) : sumR (a :: l) = a + sumR l.
Proof. reflexivity. Qed.

Lemma cross_term_bound (A B C u v : R) :
  0 <= A -> 0 <= B -> C * C <= A * B -> 2 * u * v * C <= A * (v * v) + B * (u * u).
Proof.
  intros HA HB HC.
  destruct (Rle_lt_or_eq_dec 0 A HA) as [Hpos|Hzero].
  - assert (H : 0 <= A * (A * (v * v) + B * (u * u) - 2 * u * v * C)).
    { replace (A * (A * (v * v) + B * (u * u) - 2 * u * v * C))
        with ((A * v - C * u) * (A * v - C * u) + (A * B - C * C) * (u * u)) by ring.
      pose proof (Rle_0_sqr (A * v - C * u)) as H1. unfold Rsqr in H1.
      pose proof (Rle_0_sqr u) as H2. unfold Rsqr in H2.
      assert (0 <= (A * B - C * C) * (u * u)) by (apply Rmult_le_pos; lra).
      lra. }
    assert (0 <= A * (v * v) + B * (u * u) - 2 * u * v * C); [|lra].
    apply Rmult_le_reg_l with (r := A); [exact Hpos|]. lra.
  - subst A. assert (HC0 : C = 0).
    { pose proof (Rle_0_sqr C) as H1. unfold Rsqr in H1.
      apply Rsqr_0_uniq. unfold Rsqr. lra. }
    subst C. pose proof (Rle_0_sqr u) as H2. unfold Rsqr in H2.
    assert (0 <= B * (u * u)) by (apply Rmult_le_pos; lra). lra.
Qed.

Lemma cauchy_schwarz (c d : R) (l : list (R * R)) :
  0 <= sumR (map (fun ab => (fst ab - c) * (fst ab - c)) l)
  /\ 0 <= sumR (map (fun ab => (snd ab - d) * (snd ab - d)) l)
  /\ sumR (map (fun ab => (fst ab - c) * (snd ab - d)) l)
     * sumR (map (fun ab => (fst ab - c) * (snd ab - d)) l)
     <= sumR (map (fun ab => (fst ab - c) * (fst ab - c)) l)
        * sumR (map (fun ab => (snd ab - d) * (snd ab - d)) l).
Proof.
  induction l as [|[a b] l (HA & HB & IH)].
  - cbn. repeat split; lra.
  - cbn [map]. rewrite !sumR_cons. cbn [fst snd].
    set (A := sumR (map (fun ab => (fst ab - c) * (fst ab - c)) l)) in *.
    set (B := sumR (map (fun ab => (snd ab - d) * (snd ab - d)) l)) in *.
    set (C := sumR (map (fun ab => (fst ab - c) * (snd ab - d)) l)) in *.
    pose proof (Rle_0_sqr (a - c)) as Hu. unfold Rsqr in Hu.
    pose proof (Rle_0_sqr (b - d)) as Hv. unfold Rsqr in Hv.
    pose proof (cross_term_bound A B C (a - c) (b - d) HA HB IH) as Hx.
    clearbody A B C.
    split; [lra | split; [lra | nra]].
Qed.

Lemma sum_diag (f : R -> R) (x : list R) :
  sumR (map (fun ab : R * R => f (fst ab) * f (snd ab)) (combine x x))
  = sumR (map (fun a => f a * f a) x).
Proof.
  induction x as [|a x IH]; [reflexivity|].
  cbn [combine map]. rewrite !sumR_cons, IH. reflexivity.
Qed.

Lemma sum_combine_l (f : R -> R) (x y : list R) :
  length x = length y ->
  sumR (map (fun ab : R * R => f (fst ab)) (combine x y)) = sumR (map f x).
Proof.
  revert y. induction x as [|a x IH]; intros [|b y] Hl; try done.
  cbn [combine map]. rewrite !sumR_cons, IH; [reflexivity | by injection Hl].
Qed.

Lemma sum_combine_r (f : R -> R) (x y : list R) :
  length x = length y ->
  sumR (map (fun ab : R * R => f (snd ab)) (combine x y)) = sumR (map f y).
Proof.
  revert y. induction x as [|a x IH]; intros [|b y] Hl; try done.
  cbn [combine map]. rewrite !sumR_cons, IH; [reflexivity | by injection Hl].
Qed.

Lemma codev_bound (x y : list R) :
  length x = length y ->
  0 <= codev x x * codev y y
  /\ codev x y * codev x y <= codev x x * codev y y.
Proof.
  intros Hl. unfold codev.
  rewrite (sum_diag (fun a => a - meanR x) x), (sum_diag (fun a => a - meanR y) y).
  destruct (cauchy_schwarz (meanR x) (meanR y) (combine x y)) as (HA & HB & HC).
  rewrite (sum_combine_l (fun a => (a - meanR x) * (a - meanR x)) x y Hl) in HA, HC.
  rewrite (sum_combine_r (fun b => (b - meanR y) * (b - meanR y)) x y Hl) in HB, HC.
  split; [by apply Rmult_le_pos | exact HC].
Qed.

(** The Pearson coefficient, when it is a number, lies in [-1, 1]. *)
Lemma pearson_range (x y : list Q) (r : R) :
  length x = length y -> pearson x y = Fin r -> -1 <= r <= 1.
Proof.
  intros Hl. unfold pearson.
  destruct (Req_dec_T _ 0) as [|Hd]; [discriminate|].
  intros [= <-].
  destruct (codev_bound (map Q2R x) (map Q2R y)) as [Hpos Hcs].
  { by rewrite !length_map. }
  set (c := codev (map Q2R x) (map Q2R y)) in *.
  set (d := codev (map Q2R x) (map Q2R x) * codev (map Q2R y) (map Q2R y)) in *.
  assert (Hd0 : 0 < d) by lra.
  pose proof (sqrt_lt_R0 d Hd0) as Hs.
  pose proof (sqrt_sqrt d Hpos) as Hss.
  set (s := sqrt d) in *. clearbody c d s.
  assert (Hc : - s <= c <= s) by nra.
  split.
  - apply Rmult_le_reg_r with (r := s); [exact Hs|].
    unfold Rdiv. rewrite Rmult_assoc, Rinv_l by lra. lra.
  - apply Rmult_le_reg_r with (r := s); [exact Hs|].
    unfold Rdiv. rewrite Rmult_assoc, Rinv_l by lra. lra.
Qed.

Local Close Scope R_scope.

(** With three values on each side the analysis returns a result. *)
Lemma calculate_correlation_returns {Coef} (ttest_ind : list Q -> list Q -> Q * Q)
    (corrcoef : list Q -> list Q -> Coef) (zero : Coef)
    db pid etype days_before days_after :
  let scores := collect_scores db pid days_before days_after
                  (query_events db pid etype) in
  (3 <= length (fst scores))%nat -> (3 <= length (snd scores))%nat ->
  exists res,
    calculate_correlation ttest_ind corrcoef zero db pid etype days_before days_after
    = Some res.
Proof.
  cbv zeta. unfold calculate_correlation.
  destruct (query_events db pid etype) as [|e0 events].
  - cbn. lia.
  - destruct (collect_scores db pid days_before days_after (e0 :: events))
      as [bs afs]. cbn [fst snd]. intros Hb Ha.
    apply Nat.ltb_ge in Hb, Ha. rewrite Hb, Ha. cbn [orb].
    destruct (ttest_ind bs afs) as [t p]. eauto.
Qed.

(** When every event has games in both windows, every event
    contributes to both lists. *)
Lemma contributors_all db pid days_before days_after events start :
  (forall e, In e events ->
     before_stats db pid days_before e <> []
     /\ after_stats db pid days_after e <> []) ->
  map fst (before_contributions db pid days_before start events)
  = seq start (length events)
  /\ map fst (after_contributions db pid days_after start events)
     = seq start (length events).
Proof.
  revert start. induction events as [|e events IH]; intros start Hall; [done|].
  destruct (Hall e (or_introl eq_refl)) as [Hb Ha].
  destruct (IH (S start)) as [IHb IHa].
  { intros e' He'. apply Hall. by right. }
  unfold before_contributions, after_contributions in *.
  cbn [length seq combine List.filter snd fst].
  destruct (before_stats db pid days_before e) as [|b0 bl]; [done|].
  destruct (after_stats db pid days_after e) as [|a0 al]; [done|].
  cbn [length Nat.eqb negb map fst]. by rewrite IHb, IHa.
Qed.

(** C4 (amended): when the analysis returns a result, its coefficient
    is exactly 0 if the two score lists differ in length; if they have the
    same length it is the Pearson coefficient of the two lists paired by
    position, and lies in [-1, 1] whenever it is a number (a zero variance
    makes it nan).  The values at one position come from the events whose
    positions [before_contributions] and [after_contributions] record;
    these agree when every event has games in both windows. *)
Theorem correlation_coefficient_range (ttest_ind : list Q -> list Q -> Q * Q)
    db pid etype days_before days_after res :
  calculate_correlation ttest_ind pearson (Fin 0) db pid etype days_before days_after
  = Some res ->
  let events := query_events db pid etype in
  let scores := collect_scores db pid days_before days_after events in
  (length (fst scores) <> length (snd scores) ->
   correlation_coefficient res = Fin 0)
  /\ (length (fst scores) = length (snd scores) ->
      correlation_coefficient res = pearson (fst scores) (snd scores)
      /\ forall r, correlation_coefficient res = Fin r -> (-1 <= r <= 1)%R)
  /\ (fst scores = map snd (before_contributions db pid days_before 0 events)
      /\ snd scores = map snd (after_contributions db pid days_after 0 events))
  /\ ((forall e, In e events ->
         before_stats db pid days_before e <> []
         /\ after_stats db pid days_after e <> []) ->
      before_contributors db pid days_before events
      = after_contributors db pid days_after events).
Proof.
  intros E. cbv zeta. apply calculate_correlation_some in E. cbv zeta in E.
  destruct E as (_ & _ & _ & Hc).
  split; [|split; [|split]].
  - intros Hne. apply Nat.eqb_neq in Hne. by rewrite Hne in Hc.
  - intros Heq. rewrite Heq, Nat.eqb_refl in Hc.
    split; [exact Hc|]. intros r Hr. rewrite Hr in Hc.
    by apply (pearson_range _ _ r Heq).
  - by rewrite collect_scores_provenance.
  - intros Hall. unfold before_contributors, after_contributors.
    destruct (contributors_all db pid days_before days_after _ 0 Hall) as [-> ->].
    reflexivity.
Qed.

(** C4 as stated fails: with four events, the first with games only
    before it and the last with games only after it, a result is returned
    on two lists of length 3, and the values paired at each position come
    from two different events. *)
Lemma paired_values_of_different_events :
  let events := query_events db_misaligned 1 "injury" in
  let scores := collect_scores db_misaligned 1 30 30 events in
  (exists res,
     calculate_correlation no_signal_ttest pearson (Fin 0) db_misaligned 1
       "injury" 30 30 = Some res)
  /\ fst scores = [10; 12; 11]%Q
  /\ snd scores = [20; 22; 21]%Q
  /\ before_contributors db_misaligned 1 30 events = [0; 1; 2]%nat
  /\ after_contributors db_misaligned 1 30 events = [1; 2; 3]%nat.
Proof.
  cbv zeta. split.
  - apply (calculate_correlation_returns no_signal_ttest pearson (Fin 0)
             db_misaligned 1 "injury" 30 30); vm_compute; lia.
  - repeat split; vm_compute; reflexivity.
Qed.

Lemma pearson_example :
  exists r, pearson [10; 12; 11]%Q [20; 23; 21]%Q = Fin r.
Proof.
  unfold pearson. destruct (Req_dec_T _ 0) as [Hd|_]; [|eauto].
  exfalso. revert Hd.
  unfold codev, meanR, sumR, Q2R. cbn. lra.
Qed.

Lemma correlation_coefficient_range_witness :
  exists res r,
    calculate_correlation no_signal_ttest pearson (Fin 0) db_aligned 1
      "injury" 30 30 = Some res
    /\ correlation_coefficient res = Fin r
    /\ (-1 <= r <= 1)%R.
Proof.
  destruct (calculate_correlation_returns no_signal_ttest pearson (Fin 0)
              db_aligned 1 "injury" 30 30) as [res Hres];
    [vm_compute; lia | vm_compute; lia |].
  destruct (correlation_coefficient_range no_signal_ttest db_aligned 1 "injury"
              30 30 res Hres) as (_ & Heq & _).
  destruct (Heq eq_refl) as [Hc Hr].
  destruct pearson_example as [r Hp].
  exists res, r. split; [exact Hres|].
  assert (Hcr : correlation_coefficient res = Fin r) by (rewrite Hc; exact Hp).
  split; [exact Hcr | exact (Hr r Hcr)].
Defined.

(** A list without variance makes the coefficient nan. *)
Lemma pearson_zero_variance :
  pearson [10; 10; 10]%Q [20; 22; 21]%Q = NaN.
Proof.
  unfold pearson. destruct (Req_dec_T _ 0) as [_|Hd]; [reflexivity|].
  exfalso. apply Hd.
  unfold codev, meanR, sumR, Q2R. cbn. field.
Qed.

(** X4: the two windows of an event share no record, and a record
    dated on the event's day is in neither. *)
Lemma windows_disjoint db pid days_before days_after event s :
  ~ (In s (before_stats db pid days_before event)
     /\ In s (after_stats db pid days_after event))
  /\ (PyDate.toordinal (PlayerStats.game_date s)
      = PyDate.toordinal (LifeEvent.event_date event) ->
      ~ In s (before_stats db pid days_before event)
      /\ ~ In s (after_stats db pid days_after event)).
Proof.
  unfold before_stats, after_stats, PyDate.ltb.
  split; [intros [Hb Ha] | intros Heq; split; intros H];
    repeat match goal with
           | H : In _ (List.filter _ _) |- _ => apply filter_In in H as [_ H]
           end;
    repeat match goal with
           | H : _ && _ = true |- _ => apply andb_true_iff in H as [? ?]
           end;
    lia.
Qed.

End AnalyticsFacts.

(** ** Event-proximity profile *)

Module ProfileFacts.

Import Profile Examples.

(** Inversion of a bind that returns. *)
Lemma bind_ok {A B} (m : result A) (k : A -> result B) (b : B) :
  m ≫= k = Ok b -> exists a, m = Ok a /\ k a = Ok b.
Proof. destruct m as [a|e]; [eauto | discriminate]. Qed.

(** Every entry is in exactly one of: positive, negative, neither. *)
Lemma buckets_partition (l : list event_entry) :
  (length (List.filter (is_type "positive") l)
   + length (List.filter (is_type "negative") l)
   + length (List.filter neither l) = length l)%nat.
Proof.
  induction l as [|e l IH]; [reflexivity|].
  cbn [List.filter]. unfold neither, is_type in *.
  destruct (String.eqb (LifeEvent.event_type (event e)) "positive") eqn:Hp;
    destruct (String.eqb (LifeEvent.event_type (event e)) "negative") eqn:Hn;
    cbn [negb andb length]; try lia.
  apply String.eqb_eq in Hp, Hn. congruence.
Qed.

Lemma calc_betting_insights_counts ea ins :
  calc_betting_insights ea = Ok (Some ins) ->
  total_events ins = length ea
  /\ positive_events_count ins = length (List.filter (is_type "positive") ea)
  /\ negative_events_count ins = length (List.filter (is_type "negative") ea).
Proof.
  unfold calc_betting_insights. destruct ea as [|e0 ea']; [discriminate|].
  set (ea := e0 :: ea') in *. clearbody ea. intros H.
  repeat (apply bind_ok in H; destruct H as (? & _ & H)).
  injection H as <-. done.
Qed.

Lemma div_ok (a b : Q) : Qeq_bool b 0 = false -> div a b = Ok (a / b)%Q.
Proof. intros H. unfold div. by rewrite H. Qed.

Lemma positive_not_zero (b : Q) : Matchup.Qltb 0 b = true -> Qeq_bool b 0 = false.
Proof.
  unfold Matchup.Qltb. intros H. apply negb_true_iff in H.
  destruct (Qeq_bool b 0) eqn:E; [|reflexivity].
  apply Qeq_bool_eq in E.
  assert (Hle : Qle_bool b 0 = true) by (apply Qle_bool_iff; rewrite E; apply Qle_refl).
  congruence.
Qed.

Lemma averages_ok (recent : list PlayerStats.t) :
  length recent = 3%nat ->
  exists fp yd rc td,
    averages recent
    = Ok [("fantasy_points", fp); ("receiving_yards", yd);
          ("receptions", rc); ("receiving_tds", td)]%string.
Proof.
  intros Hl. unfold averages. rewrite Hl.
  rewrite !div_ok by reflexivity. cbn. eauto.
Qed.

Lemma change_step_ok after_avg key b changes :
  (exists a, dict_get after_avg key = Ok a) ->
  exists changes', change_step after_avg (Ok changes) (key, b) = Ok changes'.
Proof.
  intros [a Ha]. unfold change_step. cbn.
  destruct (Matchup.Qltb 0 b) eqn:Hb; [|eauto].
  rewrite Ha. cbn. rewrite div_ok by (by apply positive_not_zero). cbn. eauto.
Qed.

Lemma last3_length {A} (l : list A) : (3 <= length l)%nat -> length (last3 l) = 3%nat.
Proof. intros H. unfold last3. rewrite length_skipn. lia. Qed.

Lemma first3_length {A} (l : list A) : (3 <= length l)%nat -> length (firstn 3 l) = 3%nat.
Proof. intros H. rewrite length_firstn. lia. Qed.

(** The per-event comparison raises nothing: the guard on a positive
    before-average keeps the division defined. *)
Lemma analyze_event_total stats ev :
  exists r, analyze_event stats ev = Ok r.
Proof.
  unfold analyze_event.
  set (bs := List.filter _ stats). set (afs := List.filter _ stats).
  destruct (3 <=? length bs)%nat eqn:Hb.
  - apply Nat.leb_le in Hb.
    destruct (averages_ok (last3 bs) (last3_length bs Hb))
      as (fp & yd & rc & td & ->). cbn [mbind result_bind].
    destruct (3 <=? length afs)%nat eqn:Ha.
    + apply Nat.leb_le in Ha.
      destruct (averages_ok (firstn 3 afs) (first3_length afs Ha))
        as (fp' & yd' & rc' & td' & ->). cbn [mbind result_bind fold_left].
      set (after_avg := [("fantasy_points"%string, fp'); _; _; _]).
      destruct (change_step_ok after_avg "fantasy_points" fp ∅) as [c1 ->];
        [by eexists|].
      destruct (change_step_ok after_avg "receiving_yards" yd c1) as [c2 ->];
        [by eexists|].
      destruct (change_step_ok after_avg "receptions" rc c2) as [c3 ->];
        [by eexists|].
      destruct (change_step_ok after_avg "receiving_tds" td c3) as [c4 ->];
        [by eexists|].
      cbn. eauto.
    + cbn. eauto.
  - cbn [mbind result_bind].
    destruct (3 <=? length afs)%nat eqn:Ha.
    + apply Nat.leb_le in Ha.
      destruct (averages_ok (firstn 3 afs) (first3_length afs Ha))
        as (fp' & yd' & rc' & td' & ->). cbn. eauto.
    + cbn. eauto.
Qed.

Lemma analyze_events_total stats life_events :
  exists ea, analyze_events stats life_events = Ok ea.
Proof.
  induction life_events as [|ev rest [tl IH]]; [by eexists|].
  cbn [analyze_events].
  destruct (analyze_event_total stats ev) as [r ->]. rewrite IH. cbn. eauto.
Qed.

(** C5 fails on the code: with three scoreless games before a
    "positive" event and three games after it, the per-event comparison
    omits the 'fantasy_points' change (zero baseline), and the
    positive-events average then looks that key up and raises KeyError.
    The same games with an event of another type raise nothing. *)
Theorem zero_baseline_raises_key_error :
  (exists ea, analyze_events scoreless_then_scoring [event_of_type "positive"] = Ok ea
              /\ Forall (fun e => has_change "fantasy_points" e = false) ea
              /\ length ea = 1%nat)
  /\ player_analytics scoreless_then_scoring [event_of_type "positive"]
     = Raise (KeyError "fantasy_points")
  /\ (exists out, player_analytics scoreless_then_scoring [event_of_type "neutral"]
                  = Ok out).
Proof.
  split; [|split].
  - eexists. split; [vm_compute; reflexivity|].
    split; [repeat constructor | reflexivity].
  - vm_compute. reflexivity.
  - eexists. vm_compute. reflexivity.
Qed.

Lemma player_analytics_insights stats life_events ea ins :
  player_analytics stats life_events = Ok (ea, Some ins) ->
  calc_betting_insights ea = Ok (Some ins).
Proof.
  unfold player_analytics. destruct stats as [|s stats']; [discriminate|].
  intros H. apply bind_ok in H. destruct H as (ea' & _ & H).
  apply bind_ok in H. destruct H as (ins' & Hi & H).
  injection H as -> ->. exact Hi.
Qed.

(** C10: the betting insights count in the positive bucket only the
    entries whose event type is the literal "positive", in the negative
    bucket only those whose type is the literal "negative"; the entries of
    any other type are in neither, so the two counts and the number of such
    entries add up to total_events.  On one event of type "neutral" the two
    counts sum to 0 < 1 = total_events, while that event alone makes the
    overall average changes (6.0 points, 40.0 yards). *)
Theorem buckets_skip_other_event_types :
  (forall stats life_events ea ins,
     player_analytics stats life_events = Ok (ea, Some ins) ->
     total_events ins = length ea
     /\ positive_events_count ins = length (List.filter (is_type "positive") ea)
     /\ negative_events_count ins = length (List.filter (is_type "negative") ea)
     /\ (positive_events_count ins + negative_events_count ins
         + length (List.filter neither ea) = total_events ins)%nat)
  /\ (exists ea ins,
        player_analytics six_games [event_of_type "neutral"] = Ok (ea, Some ins)
        /\ total_events ins = 1%nat
        /\ (positive_events_count ins + negative_events_count ins
            < total_events ins)%nat
        /\ (avg_fp_change ins == 6)%Q
        /\ (avg_yd_change ins == 40)%Q).
Proof.
  split.
  - intros stats life_events ea ins H.
    apply player_analytics_insights, calc_betting_insights_counts in H.
    destruct H as (Ht & Hp & Hn). rewrite Ht, Hp, Hn.
    repeat split; try reflexivity. apply buckets_partition.
  - eexists. eexists. split; [vm_compute; reflexivity|].
    repeat split; vm_compute; (reflexivity || lia).
Qed.

End ProfileFacts.

(** ** Defense profiles *)

Module DefenseFacts.

Import Defense Examples.

Section Stable_sort.
Context {A : Type} (before : A -> A -> bool).




Hypothesis before_asym : forall x y, before x y = true -> before y x = false.
Hypothesis before_trans :
  forall x y z, before x y = true -> before y z = true -> before x z = true.



End Stable_sort.

Section Assign.
Variable set : Z -> cumulative -> cumulative.










End Assign.




Section Ranked.
Variable set : Z -> cumulative -> cumulative.
Variable get : cumulative -> option Z.
Variable yards : cumulative -> Q.
Hypothesis get_set : forall r c, get (set r c) = Some r.
Hypothesis yards_set : forall r c, yards (set r c) = yards c.








End Ranked.























(** The view on profiles of two seasons. *)
Lemma view_two_seasons :
  exists kc buf mia,
    view_team_defense two_seasons
    = Ok [((2024, 2), [kc; buf]); ((2023, 1), [mia])]
    /\ (so_pass_defense_rank kc, so_rush_defense_rank kc) = (2, 1)
    /\ (so_pass_defense_rank buf, so_rush_defense_rank buf) = (1, 2)
    /\ (so_pass_defense_rank mia, so_rush_defense_rank mia) = (1, 1).
Proof. do 3 eexists. split; [vm_compute; reflexivity|]. repeat split. Qed.

End DefenseFacts.

(** ** Imported defense profiles *)

Module CollectorFacts.

Import Collector Examples.

(** The collector ranks the 32 teams 1..32, for pass and for rush. *)
Lemma collector_ranks season :
  map (fun kv => pass_defense_rank (snd kv)) (get_team_defense_stats season)
  = map (fun k => Some (Z.of_nat k)) (seq 1 32)
  /\ map (fun kv => rush_defense_rank (snd kv)) (get_team_defense_stats season)
     = map (fun k => Some (Z.of_nat k)) (seq 1 32).
Proof. split; vm_compute; reflexivity. Qed.

(** One import stores ranks 1..32 for its (season, week); a second
    week of the same season stores them again, and the ranks of the
    season are then no permutation of 1..64. *)
Lemma imported_ranks_repeat_per_week :
  exists db1 db2,
    import_team_defense empty_db 2024 1 = Ok db1
    /\ Defense.ranks_1_to_N
         (map TeamDefenseStats.pass_defense_rank (Defense.season_profiles db1 2024))
    /\ import_team_defense db1 2024 2 = Ok db2
    /\ length (Defense.season_profiles db2 2024) = 64%nat
    /\ ~ Defense.ranks_1_to_N
           (map TeamDefenseStats.pass_defense_rank (Defense.season_profiles db2 2024)).
Proof.
  do 2 eexists. split; [vm_compute; reflexivity|].
  split.
  { unfold Defense.ranks_1_to_N.
    match goal with
    | |- ?l ≡ₚ _ =>
      assert (E : l = map Z.of_nat (seq 1 32)) by (vm_compute; reflexivity)
    end.
    rewrite E, length_map, length_seq. reflexivity. }
  split; [vm_compute; reflexivity|].
  split; [vm_compute; reflexivity|].
  unfold Defense.ranks_1_to_N. intros H.
  apply Permutation_sym, Permutation_in with (x := 64) in H.
  - match type of H with
    | In _ ?l => assert (Hb : existsb (Z.eqb 64) l = true)
    end.
    { apply existsb_exists. exists 64. split; [exact H | reflexivity]. }
    vm_compute in Hb. discriminate.
  - apply in_map_iff. exists 64%nat. split; [reflexivity|].
    apply in_seq. vm_compute. lia.
Qed.

End CollectorFacts.

(** ** Matchup projection: further properties *)

Module MatchupMoreFacts.

Import Matchup MatchupFacts.






(** X3: without a stored defense profile, or against a defense of rank
    16, the opponent adjustment is 0; for a non-negative base it is at
    most 0 against a rank of 16 or better and at least 0 against a rank
    of 16 or worse. *)
Theorem opponent_adjustment_sign db player game events stats :
  let p := calculate_matchup_prediction db player game events stats in
  match query_defense db game with
  | None => (opponent_adjustment p == 0)%Q
  | Some d =>
    let rank := if in_WR_TE (Player.position player)
                then TeamDefenseStats.pass_defense_rank d
                else TeamDefenseStats.rush_defense_rank d in
    (rank = 16 -> (opponent_adjustment p == 0)%Q)
    /\ ((0 <= base_projection p)%Q -> rank <= 16 -> (opponent_adjustment p <= 0)%Q)
    /\ ((0 <= base_projection p)%Q -> 16 <= rank -> (0 <= opponent_adjustment p)%Q)
  end.
Proof.
  cbv zeta.
  destruct stats as [|s stats'].
  { cbn. destruct (query_defense db game); [|reflexivity].
    repeat split; intros; try reflexivity; apply Qle_refl. }
  rewrite calc_nonempty by done.
  destruct (cross_season_fields db player game
              (steps_1_to_7 db player game events (s :: stats'))) as (Hb & _ & Ho & _ & _).
  rewrite Hb, Ho.
  destruct (steps_fields db player game events (s :: stats')) as (_ & _ & So & _).
  rewrite So.
  destruct (query_defense db game) as [d|]; [|reflexivity].
  set (rank := if in_WR_TE _ then _ else _).
  set (base := base_projection _).
  unfold rank_adjustment, rank_multiplier.
  assert (E : (base * (1 + inject_Z (rank - 16) * 0.02 - 1) == base * inject_Z (rank - 16) * 0.02)%Q)
    by ring.
  rewrite E.
  split; [|split].
  - intros Hr. rewrite Hr. change (inject_Z (16 - 16)) with 0%Q. ring.
  - intros Hb0 Hr.
    assert (inject_Z (rank - 16) <= 0)%Q by (change 0%Q with (inject_Z 0); rewrite <- Zle_Qle; lia).
    nra.
  - intros Hb0 Hr.
    assert (0 <= inject_Z (rank - 16))%Q by (change 0%Q with (inject_Z 0); rewrite <- Zle_Qle; lia).
    nra.
Qed.



End MatchupMoreFacts.


(** ** Correlation analyzer: further properties *)

Module AnalyticsMoreFacts.

Import Analytics AnalysisRows Examples AnalyticsFacts.

(** An event appends at most one value to each score list. *)
Lemma collect_scores_length db pid days_before days_after events :
  (length (fst (collect_scores db pid days_before days_after events)) <= length events)%nat
  /\ (length (snd (collect_scores db pid days_before days_after events)) <= length events)%nat.
Proof.
  rewrite collect_scores_provenance. cbn [fst snd].
  unfold before_contributions, after_contributions.
  rewrite !length_map.
  assert (L : length (combine (seq 0 (length events)) events) = length events).
  { rewrite length_combine, length_seq. lia. }
  split.
  - rewrite <- L at 2. apply filter_length_le.
  - rewrite <- L at 2. apply filter_length_le.
Qed.

Section Analyzer_more.
Context {Coef : Type}.
Variable ttest_ind : list Q -> list Q -> Q * Q.
Variable corrcoef : list Q -> list Q -> Coef.
Variable zero : Coef.

Lemma calculate_correlation_ids db pid etype days_before days_after res :
  calculate_correlation ttest_ind corrcoef zero db pid etype days_before days_after
  = Some res ->
  player_id res = pid /\ event_type res = etype.
Proof.
  unfold calculate_correlation. cbv zeta.
  destruct (query_events db pid etype) as [|e0 events]; [discriminate|].
  destruct (collect_scores db pid days_before days_after (e0 :: events)) as [bs afs].
  destruct (_ || _); [discriminate|].
  destruct (ttest_ind bs afs) as [t p].
  intros [= <-]. done.
Qed.

(** X5: a result needs at least three life events of the requested
    type for the player; it carries the requested player and event
    type, and its sample size is at least 6 and at most twice the
    number of those events. *)
Theorem result_needs_three_events db pid etype days_before days_after res :
  calculate_correlation ttest_ind corrcoef zero db pid etype days_before days_after
  = Some res ->
  let events := query_events db pid etype in
  (3 <= length events)%nat
  /\ (6 <= sample_size res <= 2 * length events)%nat
  /\ Forall (fun e => LifeEvent.player_id e = pid
                      /\ LifeEvent.event_type e = etype) events
  /\ player_id res = pid /\ event_type res = etype.
Proof.
  intros E. cbv zeta.
  pose proof (calculate_correlation_ids _ _ _ _ _ _ E) as [Hp Ht].
  apply calculate_correlation_some in E. cbv zeta in E.
  destruct E as (Hb & Ha & Hs & _).
  destruct (collect_scores_length db pid days_before days_after
              (query_events db pid etype)) as [Lb La].
  split; [lia|]. split; [lia|]. split; [|done].
  apply Forall_forall. intros e He.
  apply list_elem_of_In in He.
  unfold query_events in He. apply filter_In in He as [_ He].
  apply andb_true_iff in He as [H1 H2].
  apply Z.eqb_eq in H1. apply String.eqb_eq in H2. done.
Qed.

Lemma analyse_and_save_ok db rows pid etype :
  In pid (players_with_events db) -> In etype event_types ->
  Forall (analysed_row ttest_ind corrcoef zero db) rows ->
  Forall (analysed_row ttest_ind corrcoef zero db) (analyse_and_save ttest_ind corrcoef zero db rows pid etype)
  /\ (length (analyse_and_save ttest_ind corrcoef zero db rows pid etype)
      <= S (length rows))%nat.
Proof.
  intros Hp Ht H. unfold analyse_and_save.
  destruct (calculate_correlation _ _ _ db pid etype 30 30) as [res|] eqn:E;
    [|split; [done | lia]].
  split; [|rewrite length_app; cbn; lia].
  apply Forall_app. split; [done|]. constructor; [|constructor].
  destruct (calculate_correlation_ids _ _ _ _ _ _ E) as [Hi Hy].
  unfold analysed_row. rewrite Hi, Hy. done.
Qed.

Lemma inner_loop_ok db pid tys rows :
  In pid (players_with_events db) ->
  (forall ty, In ty tys -> In ty event_types) ->
  Forall (analysed_row ttest_ind corrcoef zero db) rows ->
  let rows' := fold_left (fun rows etype =>
                            analyse_and_save ttest_ind corrcoef zero db rows pid etype)
                         tys rows in
  Forall (analysed_row ttest_ind corrcoef zero db) rows' /\ (length rows' <= length rows + length tys)%nat.
Proof.
  intros Hp. revert rows.
  induction tys as [|ty tys IH]; intros rows Ht H; cbv zeta.
  - cbn. split; [done | lia].
  - cbn [fold_left].
    destruct (analyse_and_save_ok db rows pid ty Hp (Ht ty (or_introl eq_refl)) H)
      as [H1 H2].
    destruct (IH (analyse_and_save ttest_ind corrcoef zero db rows pid ty)
                 (fun t Hin => Ht t (or_intror Hin)) H1) as [H3 H4].
    split; [exact H3|]. cbn [length]. lia.
Qed.

(** The rows of a cycle, as an invariant of its two loops. *)
Lemma run_analysis_cycle_analysed db :
  let rows := run_analysis_cycle ttest_ind corrcoef zero db in
  Forall (analysed_row ttest_ind corrcoef zero db) rows
  /\ (length rows <= 5 * length (players_with_events db))%nat.
Proof.
  cbv zeta. unfold run_analysis_cycle.
  assert (G : forall pids rows,
             (forall p, In p pids -> In p (players_with_events db)) ->
             Forall (analysed_row ttest_ind corrcoef zero db) rows ->
             let rows' :=
               fold_left
                 (fun rows pid =>
                    fold_left (fun rows etype =>
                                 analyse_and_save ttest_ind corrcoef zero db rows pid etype)
                              event_types rows) pids rows in
             Forall (analysed_row ttest_ind corrcoef zero db) rows'
             /\ (length rows' <= length rows + 5 * length pids)%nat).
  { induction pids as [|pid pids IH]; intros rows Hp H; cbv zeta.
    - cbn. split; [done | lia].
    - cbn [fold_left].
      destruct (inner_loop_ok db pid event_types rows (Hp pid (or_introl eq_refl))
                  (fun t Hin => Hin) H) as [H1 H2].
      destruct (IH _ (fun p Hin => Hp p (or_intror Hin)) H1) as [H3 H4].
      split; [exact H3|]. cbn [length] in *.
      change (length event_types) with 5%nat in H2. lia. }
  destruct (G (players_with_events db) [] (fun p Hin => Hin) (List.Forall_nil _)) as [G1 G2].
  split; [exact G1 | exact G2].
Qed.


(** A result has a game of the player behind it, and at least three
    events of the player. *)
Lemma result_has_data db pid etype days_before days_after res :
  calculate_correlation ttest_ind corrcoef zero db pid etype days_before days_after
  = Some res ->
  (exists s, In s (tbl_player_stats db) /\ PlayerStats.player_id s = pid)
  /\ (3 <= length (query_events db pid etype))%nat.
Proof.
  intros E. apply calculate_correlation_some in E. cbv zeta in E.
  destruct E as (Hb & _ & _ & _).
  destruct (collect_scores_length db pid days_before days_after
              (query_events db pid etype)) as [Lb _].
  split; [|lia].
  rewrite collect_scores_provenance in Hb. cbn [fst] in Hb.
  unfold before_contributions in Hb. rewrite !length_map in Hb.
  destruct (List.filter _ (combine _ _)) as [|ie rest] eqn:F; [cbn in Hb; lia|].
  assert (Hin : In ie (ie :: rest)) by (by left).
  rewrite <- F in Hin. apply filter_In in Hin as [_ Hne].
  destruct (before_stats db pid days_before (snd ie)) as [|s l] eqn:B; [discriminate|].
  assert (Hs : In s (before_stats db pid days_before (snd ie))) by (rewrite B; by left).
  unfold before_stats in Hs. apply filter_In in Hs as [Hs Hp].
  apply andb_true_iff in Hp as [Hp _]. apply andb_true_iff in Hp as [Hp _].
  apply Z.eqb_eq in Hp. by exists s.
Qed.

End Analyzer_more.

(** Three injuries with a game before and a game after each. *)
Lemma result_needs_three_events_witness :
  exists res,
    calculate_correlation no_signal_ttest (fun _ _ => 0%Q) 0%Q db_aligned 1 "injury" 30 30
    = Some res
    /\ (3 <= length (query_events db_aligned 1 "injury"))%nat
    /\ (6 <= sample_size res <= 2 * length (query_events db_aligned 1 "injury"))%nat.
Proof.
  eexists. split; [vm_compute; reflexivity|].
  destruct (result_needs_three_events no_signal_ttest (fun _ _ => 0%Q) 0%Q
              db_aligned 1 "injury" 30 30 _ eq_refl) as (H1 & H2 & _).
  split; [exact H1 | exact H2].
Defined.

End AnalyticsMoreFacts.


(** ** The dashboard *)

Module DashboardFacts.

Import Analytics AnalysisRows Dashboard AnalyticsMoreFacts.

(** The loop keeps the players that have a game and a life event, in
    table order. *)
Lemma players_with_data_filter db :
  players_with_data (analytics db)
  = map (fun p => mkdata (Player.id p) (Player.name p) (Player.team p)
                         (Player.position p)
                         (stats_count db (Player.id p)) (events_count db (Player.id p)))
        (List.filter (fun p => (0 <? stats_count db (Player.id p))%nat
                               && (0 <? events_count db (Player.id p))%nat)
                     (tbl_player db)).
Proof.
  unfold analytics. cbn [players_with_data].
  assert (G : forall players acc,
             fold_left (add_player_data db) players acc
             = acc ++ map (fun p => mkdata (Player.id p) (Player.name p) (Player.team p)
                                     (Player.position p)
                                     (stats_count db (Player.id p))
                                     (events_count db (Player.id p)))
                          (List.filter (fun p => (0 <? stats_count db (Player.id p))%nat
                                                 && (0 <? events_count db (Player.id p))%nat)
                                       players)).
  { induction players as [|p players IH]; intros acc; cbn [fold_left List.filter].
    - cbn. by rewrite app_nil_r.
    - rewrite IH. unfold add_player_data. cbv zeta.
      destruct ((0 <? stats_count db (Player.id p))%nat
                && (0 <? events_count db (Player.id p))%nat); [|done].
      cbn [map]. by rewrite <- app_assoc. }
  apply (G (tbl_player db) []).
Qed.

Lemma filter_length_mono {A} (p q : A -> bool) (l : list A) :
  (forall x, p x = true -> q x = true) ->
  (length (List.filter p l) <= length (List.filter q l))%nat.
Proof.
  intros H. induction l as [|x l IH]; [done|]. cbn.
  destruct (p x) eqn:P.
  - rewrite (H x P). cbn. lia.
  - destruct (q x); cbn; lia.
Qed.

Section Analyzer_dashboard.
Context {Coef : Type}.
Variable ttest_ind : list Q -> list Q -> Q * Q.
Variable corrcoef : list Q -> list Q -> Coef.
Variable zero : Coef.

(** X27: the dashboard lists a player exactly when the player has at
    least one game and at least one life event, with the two counts;
    and every player for whom an analysis cycle stores a row is
    listed, with at least three life events. *)
Theorem analysed_players_are_listed db :
  (forall d, In d (players_with_data (analytics db)) <->
     exists p, In p (tbl_player db)
               /\ d = mkdata (Player.id p) (Player.name p) (Player.team p)
                             (Player.position p)
                             (stats_count db (Player.id p))
                             (events_count db (Player.id p))
               /\ (0 < stats_count db (Player.id p))%nat
               /\ (0 < events_count db (Player.id p))%nat)
  /\ Forall (fun r =>
               exists d, In d (players_with_data (analytics db))
                         /\ pd_id d = player_id r
                         /\ (0 < pd_stats_count d)%nat
                         /\ (3 <= pd_events_count d)%nat)
            (run_analysis_cycle ttest_ind corrcoef zero db).
Proof.
  assert (L : forall d, In d (players_with_data (analytics db)) <->
     exists p, In p (tbl_player db)
               /\ d = mkdata (Player.id p) (Player.name p) (Player.team p)
                             (Player.position p)
                             (stats_count db (Player.id p))
                             (events_count db (Player.id p))
               /\ (0 < stats_count db (Player.id p))%nat
               /\ (0 < events_count db (Player.id p))%nat).
  { intros d. rewrite players_with_data_filter, in_map_iff. split.
    - intros (p & <- & Hp). apply filter_In in Hp as [Hp Hc].
      apply andb_true_iff in Hc as [H1 H2]. apply Nat.ltb_lt in H1, H2.
      exists p. done.
    - intros (p & Hp & -> & H1 & H2). exists p. split; [done|].
      apply filter_In. split; [done|].
      apply andb_true_iff. split; by apply Nat.ltb_lt. }
  split; [exact L|].
  destruct (run_analysis_cycle_analysed ttest_ind corrcoef zero db) as [HF _].
  eapply List.Forall_impl; [|exact HF]. cbn.
  intros r (Hpid & _ & Hres).
  destruct (result_has_data _ _ _ db _ _ _ _ _ Hres) as [(s & Hs & Hsp) Hev].
  unfold players_with_events in Hpid.
  apply nodup_In, in_map_iff in Hpid as (p & Hid & Hp).
  apply filter_In in Hp as [Hp _].
  assert (Hsc : (0 < stats_count db (Player.id p))%nat).
  { unfold stats_count.
    assert (Hin : In s (List.filter (fun s => PlayerStats.player_id s =? Player.id p)
                                    (tbl_player_stats db))).
    { apply filter_In. split; [done|]. apply Z.eqb_eq. congruence. }
    destruct (List.filter _ (tbl_player_stats db)); [destruct Hin | cbn; lia]. }
  assert (Hec : (3 <= events_count db (Player.id p))%nat).
  { unfold events_count. rewrite Hid.
    etransitivity; [exact Hev|]. unfold query_events.
    apply filter_length_mono. intros e He.
    by apply andb_true_iff in He as [He _]. }
  eexists. split.
  - apply L. exists p. split; [done|]. split; [reflexivity|]. split; [done | lia].
  - cbn. done.
Qed.

End Analyzer_dashboard.

End DashboardFacts.


(** ** Event analysis and betting insights: further properties *)

Module ProfileMoreFacts.

Import Profile ProfileFacts Examples MoreExamples.



(** Rounding to the nearest integer stays between integer bounds. *)
Lemma round_half_even_bounds (q : Q) (a b : Z) :
  (inject_Z a <= q)%Q -> (q <= inject_Z b)%Q ->
  a <= PyNum.round_half_even q <= b.
Proof.
  intros Ha Hb. unfold PyNum.round_half_even.
  assert (Fa : a <= Qfloor q).
  { rewrite <- (Qfloor_Z a). by apply Qfloor_resp_le. }
  assert (Fb : Qfloor q <= b).
  { rewrite <- (Qfloor_Z b). by apply Qfloor_resp_le. }
  destruct (Z.eq_dec (Qfloor q) b) as [E|N].
  - assert (L : (q - inject_Z (Qfloor q) ?= 1 # 2)%Q = Lt).
    { rewrite E. change (q - inject_Z b < 1 # 2)%Q. lra. }
    rewrite L. lia.
  - destruct (_ ?= _)%Q; [destruct (Z.even _)| |]; lia.
Qed.

(** X8: the share of improved events is a whole percentage between 0
    and 100. *)
Theorem improved_pct_is_a_percentage event_analysis insights :
  calc_betting_insights event_analysis = Ok (Some insights) ->
  (0 <= improved_pct insights <= 100)%Q
  /\ exists k : Z, (improved_pct insights == inject_Z k)%Q.
Proof.
  unfold calc_betting_insights. destruct event_analysis as [|e0 ea']; [discriminate|].
  set (ea := e0 :: ea') in *.
  assert (Hn : (0 < length ea)%nat) by (cbn; lia). clearbody ea. intros H.
  apply bind_ok in H as (fps & _ & H).
  apply bind_ok in H as (yds & _ & H).
  apply bind_ok in H as (avg_fp & _ & H).
  apply bind_ok in H as (avg_yd & _ & H).
  apply bind_ok in H as (imp & Himp & H).
  apply bind_ok in H as (pa & _ & H).
  apply bind_ok in H as (na & _ & H).
  injection H as <-. cbn [improved_pct].
  unfold div in Himp. destruct (Qeq_bool _ 0); [discriminate|].
  injection Himp as <-.
  set (c := length (List.filter improved ea)).
  assert (Hc : (c <= length ea)%nat) by apply filter_length_le.
  set (q := (inject_Z (Z.of_nat c) / inject_Z (Z.of_nat (length ea)) * 100)%Q).
  assert (Hpos : (0 < inject_Z (Z.of_nat (length ea)))%Q).
  { change 0%Q with (inject_Z 0). rewrite <- Zlt_Qlt. lia. }
  assert (Hr0 : (0 <= inject_Z (Z.of_nat c) / inject_Z (Z.of_nat (length ea)))%Q).
  { apply Qle_shift_div_l; [exact Hpos|]. rewrite Qmult_0_l.
    change 0%Q with (inject_Z 0). rewrite <- Zle_Qle. lia. }
  assert (Hr1 : (inject_Z (Z.of_nat c) / inject_Z (Z.of_nat (length ea)) <= 1)%Q).
  { apply Qle_shift_div_r; [exact Hpos|]. rewrite Qmult_1_l.
    rewrite <- Zle_Qle. lia. }
  assert (Hq0 : (inject_Z 0 <= q * inject_Z (10 ^ Z.of_nat 0))%Q).
  { unfold q. change (inject_Z (10 ^ Z.of_nat 0)) with 1%Q. change (inject_Z 0) with 0%Q.
    lra. }
  assert (Hq1 : (q * inject_Z (10 ^ Z.of_nat 0) <= inject_Z 100)%Q).
  { unfold q. change (inject_Z (10 ^ Z.of_nat 0)) with 1%Q. change (inject_Z 100) with 100%Q.
    lra. }
  pose proof (round_half_even_bounds _ 0 100 Hq0 Hq1) as [B0 B1].
  unfold PyNum.round. fold q.
  set (z := PyNum.round_half_even _) in *.
  change (inject_Z (10 ^ Z.of_nat 0)) with 1%Q.
  assert (E : (inject_Z z / 1 == inject_Z z)%Q) by (field).
  split; [|by exists z].
  rewrite E. split.
  - change 0%Q with (inject_Z 0). rewrite <- Zle_Qle. lia.
  - change 100%Q with (inject_Z 100). rewrite <- Zle_Qle. lia.
Qed.

(** Six games around one neutral event: the only analysed event
    improved, so the share is 100. *)
Lemma improved_pct_is_a_percentage_witness :
  exists insights,
    calc_betting_insights neutral_analysis = Ok (Some insights)
    /\ ((0 <= improved_pct insights <= 100)%Q
        /\ exists k : Z, (improved_pct insights == inject_Z k)%Q).
Proof.
  eexists. split; [vm_compute; reflexivity|].
  apply (improved_pct_is_a_percentage neutral_analysis). vm_compute. reflexivity.
Defined.

End ProfileMoreFacts.


(** ** The rest of the profile view *)

Module ProfileViewFacts.

Import Profile ProfileView Examples MoreExamples.

Lemma append_if_filter {A} (p : A -> bool) (l acc : list A) :
  fold_left (fun games x => if p x then games ++ [x] else games) l acc
  = acc ++ List.filter p l.
Proof.
  revert acc. induction l as [|x l IH]; intros acc; cbn.
  - by rewrite app_nil_r.
  - rewrite IH. destruct (p x); [by rewrite <- app_assoc | done].
Qed.

(** The nested loops keep the games that have an event inside the
    window, once each and in the order of [stats]. *)
Lemma games_near_events_filter window stats life_events :
  games_near_events window stats life_events
  = List.filter (fun stat => near_some_event window stat life_events) stats.
Proof. unfold games_near_events. by rewrite append_if_filter. Qed.

Lemma near_some_event_iff window stat life_events :
  near_some_event window stat life_events = true
  <-> exists event, In event life_events /\ days_diff stat event <= window.
Proof.
  induction life_events as [|e rest IH]; cbn.
  - split; [discriminate | intros (? & [] & _)].
  - destruct (days_diff stat e <=? window) eqn:E.
    + apply Z.leb_le in E. split; [|done]. intros _. exists e. auto.
    + apply Z.leb_gt in E. rewrite IH. split.
      * intros (ev & Hin & Hd). exists ev. auto.
      * intros (ev & [<-|Hin] & Hd); [lia|]. exists ev. auto.
Qed.

Lemma near_some_event_mono w1 w2 stat life_events :
  w1 <= w2 ->
  near_some_event w1 stat life_events = true ->
  near_some_event w2 stat life_events = true.
Proof.
  intros Hw H. apply near_some_event_iff in H as (e & Hin & Hd).
  apply near_some_event_iff. exists e. split; [done | lia].
Qed.

Lemma filter_sublist_mono {A} (p q : A -> bool) (l : list A) :
  (forall x, p x = true -> q x = true) ->
  List.filter p l `sublist_of` List.filter q l.
Proof.
  intros Hpq. induction l as [|x l IH]; cbn; [constructor|].
  destruct (p x) eqn:Hp.
  - rewrite (Hpq x Hp). by constructor.
  - destruct (q x); [by constructor | done].
Qed.

Lemma filter_sublist_all {A} (p : A -> bool) (l : list A) :
  List.filter p l `sublist_of` l.
Proof.
  induction l as [|x l IH]; cbn; [constructor|].
  destruct (p x); by constructor.
Qed.

Lemma games_near_events_mono w1 w2 stats life_events :
  w1 <= w2 ->
  games_near_events w1 stats life_events
  `sublist_of` games_near_events w2 stats life_events.
Proof.
  intros Hw. rewrite !games_near_events_filter.
  apply filter_sublist_mono. intros s. by apply near_some_event_mono.
Qed.

Lemma games_near_events_in window stats life_events stat :
  In stat (games_near_events window stats life_events)
  <-> In stat stats
      /\ exists event, In event life_events /\ days_diff stat event <= window.
Proof.
  rewrite games_near_events_filter, filter_In.
  by rewrite near_some_event_iff.
Qed.

(** X9: the three proximity windows nest.  The games within 7 days of
    an event are among those within 14 days, these among those within
    30 days, all in the order of [stats] and each game once; a game is
    in a window exactly when some life event lies within that many
    days of it, before or after. *)
Theorem proximity_windows_nest stats life_events :
  let games w := games_near_events w stats life_events in
  games 7 `sublist_of` games 14
  /\ games 14 `sublist_of` games 30
  /\ games 30 `sublist_of` stats
  /\ (length (games 7%Z) <= length (games 14%Z) <= length (games 30%Z))%nat
  /\ (length (games 30%Z) <= length stats)%nat
  /\ (forall w stat,
        In stat (games w)
        <-> In stat stats
            /\ exists event, In event life_events /\ days_diff stat event <= w).
Proof.
  cbv zeta.
  assert (H1 := games_near_events_mono 7 14 stats life_events ltac:(lia)).
  assert (H2 := games_near_events_mono 14 30 stats life_events ltac:(lia)).
  assert (H3 : games_near_events 30 stats life_events `sublist_of` stats).
  { rewrite games_near_events_filter. apply filter_sublist_all. }
  split; [exact H1|]. split; [exact H2|]. split; [exact H3|].
  split; [split; by apply sublist_length|].
  split; [by apply sublist_length|].
  intros w stat. apply games_near_events_in.
Qed.

Lemma nonzero_length {A} (x : A) (l : list A) :
  Qeq_bool (inject_Z (Z.of_nat (length (x :: l)))) 0 = false.
Proof.
  destruct (Qeq_bool _ 0) eqn:E; [|reflexivity].
  apply Qeq_bool_eq in E. unfold Qeq in E. cbn in E. lia.
Qed.

Lemma season_avg_ok (s : PlayerStats.t) (stats : list PlayerStats.t) :
  exists avg, season_avg (s :: stats) = Ok avg.
Proof.
  unfold season_avg. unfold div. rewrite nonzero_length. cbn. eauto.
Qed.

(** What one turn of the window loop does to the dict. *)
Lemma proximity_step_ok stats life_events d window :
  exists d',
    proximity_step stats life_events (Ok d) window = Ok d'
    /\ match games_near_events window stats life_events with
       | [] => d' = d
       | g :: games =>
         exists p, d' = <[ window := p ]> d
                   /\ px_count p = length (g :: games)
                   /\ (px_avg_fantasy p * inject_Z (Z.of_nat (length (g :: games)))
                       == PyNum.sumQ (map PlayerStats.fantasy_points (g :: games)))%Q
       end.
Proof.
  unfold proximity_step. cbn [mbind result_bind].
  destruct (games_near_events window stats life_events) as [|g games]; [eauto|].
  unfold div. rewrite nonzero_length. cbn [mbind result_bind].
  eexists. split; [reflexivity|]. eexists. split; [reflexivity|].
  split; [reflexivity|]. cbn [px_avg_fantasy].
  field. intros E.
  pose proof (nonzero_length g games) as N.
  apply Qeq_eq_bool in E. congruence.
Qed.

Lemma proximity_analysis_spec stats life_events :
  exists proximity,
    proximity_analysis stats life_events = Ok proximity
    /\ forall window,
         match proximity !! window with
         | Some p =>
           let games := games_near_events window stats life_events in
           In window [7; 14; 30]
           /\ px_count p = length games
           /\ (0 < px_count p <= length stats)%nat
           /\ (px_avg_fantasy p * inject_Z (Z.of_nat (px_count p))
               == PyNum.sumQ (map PlayerStats.fantasy_points games))%Q
         | None =>
           In window [7; 14; 30] -> games_near_events window stats life_events = []
         end.
Proof.
  unfold proximity_analysis. cbn [fold_left].
  destruct (proximity_step_ok stats life_events ∅ 7) as (d1 & -> & H1).
  destruct (proximity_step_ok stats life_events d1 14) as (d2 & -> & H2).
  destruct (proximity_step_ok stats life_events d2 30) as (d3 & -> & H3).
  exists d3. split; [reflexivity|]. intros window.
  assert (Hlen : forall w, (length (games_near_events w stats life_events)
                            <= length stats)%nat).
  { intros w. rewrite games_near_events_filter. apply filter_length_le. }
  pose proof (Hlen 7) as L7. pose proof (Hlen 14) as L14. pose proof (Hlen 30) as L30.
  destruct (games_near_events 7 stats life_events) as [|g7 l7] eqn:G7;
    [subst d1 | destruct H1 as (p1 & -> & C1 & A1)];
    (destruct (games_near_events 14 stats life_events) as [|g14 l14] eqn:G14;
      [subst d2 | destruct H2 as (p2 & -> & C2 & A2)]);
    (destruct (games_near_events 30 stats life_events) as [|g30 l30] eqn:G30;
      [subst d3 | destruct H3 as (p3 & -> & C3 & A3)]).
  all: destruct (decide (window = 7)) as [->|N7];
    [ rewrite ?lookup_insert_eq, ?lookup_insert_ne, ?lookup_empty by lia;
      rewrite ?lookup_insert_eq, ?lookup_insert_ne, ?lookup_empty by lia;
      rewrite ?G7; cbv zeta;
      try (rewrite ?C1; repeat split; [cbn; tauto | cbn; lia | cbn in *; lia | exact A1]);
      try done | ].
  all: destruct (decide (window = 14)) as [->|N14];
    [ rewrite ?lookup_insert_eq, ?lookup_insert_ne, ?lookup_empty by lia;
      rewrite ?lookup_insert_eq, ?lookup_insert_ne, ?lookup_empty by lia;
      rewrite ?G14; cbv zeta;
      try (rewrite ?C2; repeat split; [cbn; tauto | cbn; lia | cbn in *; lia | exact A2]);
      try done | ].
  all: destruct (decide (window = 30)) as [->|N30];
    [ rewrite ?lookup_insert_eq, ?lookup_insert_ne, ?lookup_empty by lia;
      rewrite ?G30; cbv zeta;
      try (rewrite ?C3; repeat split; [cbn; tauto | cbn; lia | cbn in *; lia | exact A3]);
      try done | ].
  all: rewrite ?lookup_insert_ne, ?lookup_empty by lia;
    cbn; intros [?|[?|[?|[]]]]; lia.
Qed.


(** The break of the inner loop: the first event within 7 days is the
    one reported. *)
Lemma find_near_event_first stat life_events :
  match find_near_event stat life_events with
  | Some near =>
    exists before event after,
      life_events = before ++ event :: after
      /\ Forall (fun e => 7 < days_diff stat e) before
      /\ days_diff stat event <= 7
      /\ near = mknear (LifeEvent.event_type event) (LifeEvent.event_category event)
                       (days_diff stat event)
  | None => Forall (fun e => 7 < days_diff stat e) life_events
  end.
Proof.
  induction life_events as [|e rest IH]; cbn; [constructor|].
  destruct (days_diff stat e <=? 7) eqn:E.
  - apply Z.leb_le in E. exists [], e, rest. repeat split; [constructor | done].
  - apply Z.leb_gt in E.
    destruct (find_near_event stat rest) as [near|].
    + destruct IH as (before & event & after & -> & Hb & Hd & Hn).
      exists (e :: before), event, after. repeat split; try done.
      by constructor.
    + by constructor.
Qed.

Lemma recent_stats_last5 stats :
  recent_stats stats = skipn (length stats - 5) stats.
Proof.
  unfold recent_stats. destruct (5 <=? length stats)%nat eqn:E; [done|].
  apply Nat.leb_gt in E. by replace (length stats - 5)%nat with 0%nat by lia.
Qed.

(** X11: the recent form lists the last five games (all of them when
    there are fewer), oldest first; a game is flagged with the first
    life event, in the order of the events, that lies within 7 days of
    it, and is left unflagged exactly when no event does. *)
Theorem recent_form_entries stats life_events avg :
  let form := recent_form stats life_events avg in
  length form = Nat.min 5 (length stats)
  /\ Forall2
       (fun stat entry =>
          rf_date entry = PlayerStats.game_date stat
          /\ rf_tds entry = PlayerStats.receiving_tds stat + PlayerStats.rushing_tds stat
          /\ match rf_near_event entry with
             | Some near =>
               0 <= ne_days_away near <= 7
               /\ exists before event after,
                    life_events = before ++ event :: after
                    /\ Forall (fun e => 7 < days_diff stat e) before
                    /\ ne_days_away near = days_diff stat event
                    /\ ne_type near = LifeEvent.event_type event
                    /\ ne_category near = LifeEvent.event_category event
             | None => Forall (fun e => 7 < days_diff stat e) life_events
             end)
       (skipn (length stats - 5) stats) form.
Proof.
  cbv zeta. unfold recent_form. rewrite recent_stats_last5.
  split; [rewrite length_map, length_skipn; lia|].
  induction (skipn (length stats - 5) stats) as [|stat l IH]; cbn [map]; constructor;
    [|exact IH].
  cbn [rf_date rf_tds rf_near_event]. split; [done|]. split; [done|].
  pose proof (find_near_event_first stat life_events) as H.
  destruct (find_near_event stat life_events) as [near|]; [|exact H].
  destruct H as (before & event & after & -> & Hb & Hd & ->).
  cbn [ne_days_away ne_type ne_category].
  split; [unfold days_diff in *; lia|].
  exists before, event, after. done.
Qed.

Lemma compare_ok season_value near_value :
  exists c, compare season_value near_value = Ok c
            /\ (Matchup.Qltb 0 season_value = false -> cmp_diff_pct c = 0%Q).
Proof.
  unfold compare.
  destruct (Matchup.Qltb 0 season_value) eqn:E.
  - rewrite ProfileFacts.div_ok by (by apply ProfileFacts.positive_not_zero).
    cbn. eexists. split; [reflexivity | discriminate].
  - cbn. eexists. split; [reflexivity | done].
Qed.

Lemma season_comparison_ok avg proximity :
  exists cmp,
    season_comparison avg proximity = Ok cmp
    /\ (is_Some cmp <-> is_Some (proximity !! 7))
    /\ forall c, cmp = Some c ->
         (Matchup.Qltb 0 (sa_fantasy_points avg) = false ->
          cmp_diff_pct (sc_fantasy_points c) = 0%Q)
         /\ (Matchup.Qltb 0 (sa_receiving_yards avg) = false ->
             cmp_diff_pct (sc_receiving_yards c) = 0%Q)
         /\ (Matchup.Qltb 0 (sa_receptions avg) = false ->
             cmp_diff_pct (sc_receptions c) = 0%Q).
Proof.
  unfold season_comparison.
  destruct (proximity !! 7) as [prox|].
  - destruct (compare_ok (sa_fantasy_points avg) (px_avg_fantasy prox)) as (c1 & -> & H1).
    destruct (compare_ok (sa_receiving_yards avg) (px_avg_rec_yards prox)) as (c2 & -> & H2).
    destruct (compare_ok (sa_receptions avg) (px_avg_receptions prox)) as (c3 & -> & H3).
    cbn. eexists. split; [reflexivity|]. split; [done|].
    intros c [= <-]. done.
  - eexists. split; [reflexivity|]. split; [|discriminate].
    split; intros [? ?]; discriminate.
Qed.


(** X13: the season comparison is there exactly when some game lies
    within 7 days of a life event. *)
Theorem season_comparison_presence stats life_events view :
  player_analytics stats life_events = Ok view ->
  is_Some (an_season_comparison view)
  <-> exists stat event,
        In stat stats /\ In event life_events /\ days_diff stat event <= 7.
Proof.
  unfold player_analytics.
  destruct stats as [|s stats'].
  { intros [= <-]. cbn. split; [intros [? ?]; discriminate | intros (? & ? & [] & _)]. }
  destruct (season_avg_ok s stats') as [avg ->]. cbn [mbind result_bind].
  destruct (proximity_analysis_spec (s :: stats') life_events) as (prox & -> & Hp).
  cbn [mbind result_bind].
  destruct (analyze_events (s :: stats') life_events) as [ea|e]; [|done].
  cbn [mbind result_bind].
  destruct (calc_betting_insights ea) as [ins|e]; [|done].
  cbn [mbind result_bind].
  destruct (season_comparison_ok avg prox) as (cmp & -> & Hc & _).
  cbn [mbind result_bind]. intros [= <-]. cbn [an_season_comparison].
  rewrite Hc. specialize (Hp 7).
  pose proof (fun w stat => games_near_events_in w (s :: stats') life_events stat) as Hin.
  destruct (prox !! 7) as [p|].
  - cbv zeta in Hp. destruct Hp as (_ & Hcount & Hpos & _).
    split; [intros _ | by eexists].
    destruct (games_near_events 7 (s :: stats') life_events) as [|g l] eqn:G;
      [cbn in Hcount; lia|].
    assert (Hg : In g (games_near_events 7 (s :: stats') life_events))
      by (rewrite G; by left).
    apply Hin in Hg as (Hs & e & He & Hd). by exists g, e.
  - split; [intros [? ?]; discriminate|].
    intros (stat & event & Hs & He & Hd).
    assert (Hg : In stat (games_near_events 7 (s :: stats') life_events))
      by (apply Hin; eauto).
    rewrite Hp in Hg by (cbn; tauto). destruct Hg.
Qed.

(** The game of 2024-09-15 lies three days before the event. *)
Lemma season_comparison_presence_witness :
  exists view,
    player_analytics six_games [event_of_type "neutral"] = Ok view
    /\ is_Some (an_season_comparison view).
Proof.
  destruct (player_analytics six_games [event_of_type "neutral"]) as [view|e] eqn:E;
    [|vm_compute in E; discriminate].
  exists view. split; [reflexivity|].
  apply (season_comparison_presence _ _ _ E).
  exists (game_row (ymd 2024 9 15) 30 6), (event_of_type "neutral").
  split; [cbn; tauto|]. split; [by left|]. vm_compute. discriminate.
Defined.

End ProfileViewFacts.


(** ** The aggregation of [view_team_defense] *)

Module DefenseRowsFacts.

Import Defense DefenseRows DefenseFacts.





















Section Partition.
Context {A : Type} (key : A -> Z) (f : A -> Z).




End Partition.






End DefenseRowsFacts.


(** ** Stored and imported defense profiles *)

Module DefenseStoreFacts.

Import Defense Collector DefenseStore Examples MoreExamples.

Lemma same_key_iff a b : same_key a b = true <-> key_of a = key_of b.
Proof.
  unfold same_key, key_of.
  rewrite !andb_true_iff, String.eqb_eq, !Z.eqb_eq. split.
  - intros [[-> ->] ->]. done.
  - intros [= -> -> ->]. done.
Qed.

Lemma matches_iff key d :
  String.eqb (TeamDefenseStats.team_abbr d) (fst (fst key))
  && (TeamDefenseStats.season d =? snd (fst key))
  && (TeamDefenseStats.week d =? snd key) = true
  <-> key_of d = key.
Proof.
  destruct key as [[t s] w]. unfold key_of. cbn.
  rewrite !andb_true_iff, String.eqb_eq, !Z.eqb_eq. split.
  - intros [[-> ->] ->]. done.
  - intros [= -> -> ->]. done.
Qed.

Lemma matches_false key d :
  key_of d <> key ->
  String.eqb (TeamDefenseStats.team_abbr d) (fst (fst key))
  && (TeamDefenseStats.season d =? snd (fst key))
  && (TeamDefenseStats.week d =? snd key) = false.
Proof.
  intros N. destruct (_ && _) eqn:E; [|done]. apply matches_iff in E. done.
Qed.

Lemma query_defense_find_row db game :
  Matchup.query_defense db game = find_row (game_key game) (tbl_team_defense_stats db).
Proof. reflexivity. Qed.

Lemma find_row_cons key d tbl :
  find_row key (d :: tbl)
  = if decide (key_of d = key) then Some d else find_row key tbl.
Proof.
  unfold find_row. cbn [List.filter].
  destruct (decide (key_of d = key)) as [E|N].
  - rewrite (proj2 (matches_iff key d) E). done.
  - by rewrite matches_false.
Qed.

Lemma find_row_none key tbl :
  find_row key tbl = None <-> forall d, In d tbl -> key_of d <> key.
Proof.
  induction tbl as [|d tbl IH]; [done|].
  rewrite find_row_cons. destruct (decide (key_of d = key)) as [E|N].
  - split; [discriminate|]. intros H. exfalso. by apply (H d); [left|].
  - rewrite IH. split.
    + intros H d' [<-|Hd]; [done | by apply H].
    + intros H d' Hd. apply H. by right.
Qed.

Lemma find_row_app_new key tbl row :
  find_row key (tbl ++ [row])
  = match find_row key tbl with
    | Some d => Some d
    | None => if decide (key_of row = key) then Some row else None
    end.
Proof.
  induction tbl as [|d tbl IH]; cbn [app].
  - by rewrite find_row_cons.
  - rewrite !find_row_cons. destruct (decide (key_of d = key)); done.
Qed.

Lemma existsb_same_key row tbl :
  existsb (same_key row) tbl = false <-> find_row (key_of row) tbl = None.
Proof.
  rewrite find_row_none. split.
  - intros H d Hd E.
    assert (existsb (same_key row) tbl = true); [|congruence].
    apply existsb_exists. exists d. split; [done|]. by apply same_key_iff.
  - intros H. destruct (existsb _ tbl) eqn:E; [|done].
    apply existsb_exists in E as (d & Hd & Hk). apply same_key_iff in Hk.
    exfalso. by apply (H d).
Qed.

Lemma find_row_update_first key row tbl :
  find_row key (update_first row tbl)
  = match find_row (key_of row) tbl with
    | Some _ => if decide (key_of row = key) then Some row else find_row key tbl
    | None => find_row key tbl
    end.
Proof.
  induction tbl as [|d tbl IH]; [done|].
  cbn [update_first]. rewrite (find_row_cons (key_of row)).
  destruct (same_key row d) eqn:E.
  - apply same_key_iff in E. rewrite decide_True by done.
    rewrite !find_row_cons.
    destruct (decide (key_of row = key)) as [K|K].
    + done.
    + rewrite decide_False by congruence. done.
  - assert (N : key_of d <> key_of row).
    { intros K. assert (same_key row d = true) by (by apply same_key_iff). congruence. }
    rewrite decide_False by done. rewrite !find_row_cons, IH.
    destruct (find_row (key_of row) tbl) as [d'|]; [|done].
    destruct (decide (key_of row = key)) as [K|K]; [|done].
    rewrite decide_False by congruence. done.
Qed.

(** Lookup after an upsert. *)
Lemma find_row_upsert key row tbl :
  find_row key (upsert tbl row)
  = if decide (key_of row = key) then Some row else find_row key tbl.
Proof.
  unfold upsert. destruct (existsb (same_key row) tbl) eqn:E.
  - rewrite find_row_update_first.
    destruct (find_row (key_of row) tbl) as [d|] eqn:F; [done|].
    apply existsb_same_key in F. congruence.
  - apply existsb_same_key in E. rewrite find_row_app_new.
    destruct (decide (key_of row = key)) as [K|K].
    + rewrite <- K, E. done.
    + by destruct (find_row key tbl).
Qed.

Lemma update_first_same row tbl :
  find_row (key_of row) tbl = Some row -> update_first row tbl = tbl.
Proof.
  induction tbl as [|d tbl IH]; [done|].
  rewrite find_row_cons. cbn [update_first].
  destruct (decide (key_of d = key_of row)) as [K|K].
  - intros [= ->]. assert (E : same_key row row = true) by (by apply same_key_iff).
    by rewrite E.
  - intros H. assert (E : same_key row d = false).
    { destruct (same_key row d) eqn:E; [|done]. apply same_key_iff in E. congruence. }
    rewrite E, IH by done. done.
Qed.

Lemma upsert_same row tbl :
  find_row (key_of row) tbl = Some row -> upsert tbl row = tbl.
Proof.
  intros H. unfold upsert.
  destruct (existsb (same_key row) tbl) eqn:E.
  - by apply update_first_same.
  - apply existsb_same_key in E. congruence.
Qed.

Lemma upsert_length row tbl :
  (length tbl <= length (upsert tbl row) <= S (length tbl))%nat.
Proof.
  unfold upsert. destruct (existsb _ tbl).
  - assert (E : length (update_first row tbl) = length tbl).
    { induction tbl as [|d tbl IH]; [done|]. cbn.
      destruct (same_key row d); cbn; [done | by rewrite IH]. }
    lia.
  - rewrite length_app. cbn. lia.
Qed.

(** Upserting rows with pairwise different keys. *)
Lemma find_row_upserts key rows tbl :
  List.NoDup (map key_of rows) ->
  find_row key (fold_left upsert rows tbl)
  = match List.find (fun r => bool_decide (key_of r = key)) rows with
    | Some r => Some r
    | None => find_row key tbl
    end.
Proof.
  revert tbl. induction rows as [|r rows IH]; intros tbl Hnd; [done|].
  cbn [map] in Hnd. apply List.NoDup_cons_iff in Hnd as [Hr Hnd].
  cbn [fold_left List.find]. rewrite IH by done.
  destruct (bool_decide (key_of r = key)) eqn:B.
  - apply bool_decide_eq_true in B.
    destruct (List.find _ rows) as [r'|] eqn:F.
    + apply find_some in F as [Hin Hk]. apply bool_decide_eq_true in Hk.
      exfalso. apply Hr. apply in_map_iff. exists r'. split; [congruence | done].
    + rewrite find_row_upsert. by rewrite decide_True.
  - apply bool_decide_eq_false in B.
    destruct (List.find _ rows); [done|].
    rewrite find_row_upsert. by rewrite decide_False.
Qed.

Lemma upserts_same rows tbl :
  (forall r, In r rows -> find_row (key_of r) tbl = Some r) ->
  fold_left upsert rows tbl = tbl.
Proof.
  induction rows as [|r rows IH]; intros H; [done|].
  cbn [fold_left]. rewrite upsert_same by (apply H; by left).
  apply IH. intros r' Hr'. apply H. by right.
Qed.

Lemma upserts_length rows tbl :
  (length tbl <= length (fold_left upsert rows tbl) <= length tbl + length rows)%nat.
Proof.
  revert tbl. induction rows as [|r rows IH]; intros tbl; cbn [fold_left length]; [lia|].
  pose proof (IH (upsert tbl r)). pose proof (upsert_length r tbl). lia.
Qed.

Lemma form_row_key db form db' :
  add_team_defense db form = Ok db' ->
  exists row,
    tbl_team_defense_stats db' = tbl_team_defense_stats db ++ [row]
    /\ key_of row = (form_team_abbr form, form_season form, form_week form)
    /\ find_row (key_of row) (tbl_team_defense_stats db) = None
    /\ TeamDefenseStats.pass_yards_allowed_per_game row
       = default 0%Q (form_pass_yards_allowed form)
    /\ TeamDefenseStats.rush_yards_allowed_per_game row
       = default 0%Q (form_rush_yards_allowed form)
    /\ TeamDefenseStats.pass_defense_rank row = default 16 (form_pass_defense_rank form)
    /\ TeamDefenseStats.rush_defense_rank row = default 16 (form_rush_defense_rank form).
Proof.
  unfold add_team_defense.
  destruct (existsb _ _) eqn:E; [discriminate|].
  intros [= <-]. eexists. split; [reflexivity|].
  apply existsb_same_key in E. done.
Qed.

(** X16: a profile stored through the form is the one a later projection
    against that opponent, season and week reads; the other lookups
    are as before, and a second profile with the key is refused. *)
Theorem stored_profile_is_found db form db' :
  add_team_defense db form = Ok db' ->
  let key := (form_team_abbr form, form_season form, form_week form) in
  (forall game, game_key game = key ->
     Matchup.query_defense db game = None
     /\ exists row,
          Matchup.query_defense db' game = Some row
          /\ key_of row = key
          /\ TeamDefenseStats.pass_yards_allowed_per_game row
             = default 0%Q (form_pass_yards_allowed form)
          /\ TeamDefenseStats.rush_yards_allowed_per_game row
             = default 0%Q (form_rush_yards_allowed form)
          /\ TeamDefenseStats.pass_defense_rank row
             = default 16 (form_pass_defense_rank form)
          /\ TeamDefenseStats.rush_defense_rank row
             = default 16 (form_rush_defense_rank form))
  /\ (forall game, game_key game <> key ->
        Matchup.query_defense db' game = Matchup.query_defense db game)
  /\ (forall form',
        (form_team_abbr form', form_season form', form_week form') = key ->
        add_team_defense db' form' = Raise IntegrityError)
  /\ (List.NoDup (map key_of (tbl_team_defense_stats db)) ->
      List.NoDup (map key_of (tbl_team_defense_stats db'))).
Proof.
  intros H. cbv zeta.
  destruct (form_row_key db form db' H) as (row & Ht & Hk & Hnone & Hy & Hr & Hp & Hu).
  split; [|split; [|split]].
  - intros game Hg. rewrite !query_defense_find_row, Ht, find_row_app_new, Hg.
    rewrite <- Hk, Hnone. split; [reflexivity|].
    rewrite decide_True by done. exists row. done.
  - intros game Hg. rewrite !query_defense_find_row, Ht, find_row_app_new.
    destruct (find_row (game_key game) (tbl_team_defense_stats db)); [done|].
    rewrite decide_False by congruence. done.
  - intros form' Hk'. unfold add_team_defense.
    set (row' := TeamDefenseStats.mk _ _ _ _ _ _ _ _ _ _).
    assert (E : existsb (same_key row') (tbl_team_defense_stats db') = true).
    { apply existsb_exists. exists row. split.
      - rewrite Ht. apply in_app_iff. right. by left.
      - apply same_key_iff. rewrite Hk. exact Hk'. }
    by rewrite E.
  - intros Hnd. rewrite Ht, map_app. cbn [map].
    apply (Permutation_NoDup (l := key_of row :: map key_of (tbl_team_defense_stats db)));
      [apply Permutation_cons_append|].
    constructor; [|exact Hnd].
    intros Hin. apply in_map_iff in Hin as (d & Hd & Hin).
    by apply (proj1 (find_row_none _ _) Hnone d).
Qed.

(** The collector's dict once both ranking loops have run: the team at
    position [i] holds rank [i + 1] twice. *)
Lemma collector_entries season :
  get_team_defense_stats season = imap (fun i team => (team, ranked_entry i)) nfl_teams.
Proof. vm_compute. reflexivity. Qed.

Lemma import_team_upsert season week tbl i team :
  import_team season week (Ok tbl) (team, ranked_entry i)
  = Ok (upsert tbl (imported_row season week i team)).
Proof.
  unfold import_team, upsert. cbn [mbind result_bind].
  change (pass_defense_rank (ranked_entry i)) with (Some (Z.of_nat i + 1)).
  change (rush_defense_rank (ranked_entry i)) with (Some (Z.of_nat i + 1)).
  cbv iota beta.
  change (TeamDefenseStats.mk team season week
            (pass_yards_allowed_per_game (ranked_entry i))
            (rush_yards_allowed_per_game (ranked_entry i))
            (passing_tds_allowed (ranked_entry i))
            (rushing_tds_allowed (ranked_entry i))
            (sacks (ranked_entry i)) (Z.of_nat i + 1) (Z.of_nat i + 1))
    with (imported_row season week i team).
  by destruct (existsb _ tbl).
Qed.

Lemma import_fold season week (teams : list string) (g : nat -> nat) tbl :
  fold_left (import_team season week)
            (imap (fun i team => (team, ranked_entry (g i))) teams) (Ok tbl)
  = Ok (fold_left upsert (imap (fun i team => imported_row season week (g i) team) teams)
                  tbl).
Proof.
  revert g tbl. induction teams as [|team teams IH]; intros g tbl; [done|].
  cbn [imap fold_left]. rewrite import_team_upsert.
  apply (IH (g ∘ S)).
Qed.

Lemma nfl_teams_NoDup : List.NoDup nfl_teams.
Proof.
  assert (E : nodup String.string_dec nfl_teams = nfl_teams) by (vm_compute; reflexivity).
  rewrite <- E. apply NoDup_nodup.
Qed.

Lemma imported_keys season week :
  map key_of (imap (imported_row season week) nfl_teams)
  = map (fun team => (team, season, week)) nfl_teams.
Proof.
  generalize nfl_teams. intros teams.
  assert (G : forall g : nat -> nat,
             map key_of (imap (fun i team => imported_row season week (g i) team) teams)
             = map (fun team => (team, season, week)) teams).
  { induction teams as [|t teams IH]; intros g; [done|].
    cbn [imap map]. f_equal. exact (IH (g ∘ S)). }
  apply (G (fun i => i)).
Qed.

Lemma imported_keys_NoDup season week :
  List.NoDup (map key_of (imap (imported_row season week) nfl_teams)).
Proof.
  rewrite imported_keys. apply Finite.Injective_map_NoDup; [|apply nfl_teams_NoDup].
  intros a b [= ->]. done.
Qed.

Lemma NoDup_map_inj_in {A B} (f : A -> B) (l : list A) a b :
  List.NoDup (map f l) -> In a l -> In b l -> f a = f b -> a = b.
Proof.
  induction l as [|x l IH]; [done|]. cbn [map].
  intros Hnd. apply List.NoDup_cons_iff in Hnd as [Hx Hnd].
  intros [<-|Ha] [<-|Hb] E; try done.
  - exfalso. apply Hx. rewrite E. by apply in_map.
  - exfalso. apply Hx. rewrite <- E. by apply in_map.
  - by apply IH.
Qed.

Lemma find_row_upserts_in rows tbl r :
  List.NoDup (map key_of rows) -> In r rows ->
  find_row (key_of r) (fold_left upsert rows tbl) = Some r.
Proof.
  intros Hnd Hr. rewrite find_row_upserts by done.
  destruct (List.find _ rows) as [r'|] eqn:F.
  - apply find_some in F as [Hin Hk]. apply bool_decide_eq_true in Hk.
    f_equal. by apply (NoDup_map_inj_in key_of rows).
  - apply find_none with (x := r) in F; [|done].
    apply bool_decide_eq_false in F. done.
Qed.

Lemma find_row_upserts_other rows tbl key :
  List.NoDup (map key_of rows) -> (forall r, In r rows -> key_of r <> key) ->
  find_row key (fold_left upsert rows tbl) = find_row key tbl.
Proof.
  intros Hnd Hk. rewrite find_row_upserts by done.
  destruct (List.find _ rows) as [r'|] eqn:F; [|done].
  apply find_some in F as [Hin Hk']. apply bool_decide_eq_true in Hk'.
  exfalso. by apply (Hk r').
Qed.

(** An import of parsed fields returns.  It leaves, for each of the 32
    teams, a profile for the (season, week) that a projection finds, with
    pass and rush rank equal to the team's position in the alphabetical
    list; lookups for any other (season, week) are as before; importing
    the same (season, week) again changes nothing. *)
Lemma import_team_defense_spec db season week :
  exists db',
    import_team_defense db season week = Ok db'
    /\ (forall i team game,
          nfl_teams !! i = Some team ->
          DefenseStore.game_key game = (team, season, week) ->
          exists row,
            Matchup.query_defense db' game = Some row
            /\ row = imported_row season week i team
            /\ TeamDefenseStats.pass_defense_rank row = Z.of_nat i + 1
            /\ TeamDefenseStats.rush_defense_rank row = Z.of_nat i + 1)
    /\ (forall game,
          (UpcomingGame.season game, UpcomingGame.week game) <> (season, week) ->
          Matchup.query_defense db' game = Matchup.query_defense db game)
    /\ import_team_defense db' season week = Ok db'
    /\ (length (tbl_team_defense_stats db)
        <= length (tbl_team_defense_stats db')
        <= length (tbl_team_defense_stats db) + 32)%nat.
Proof.
  unfold import_team_defense. rewrite collector_entries.
  rewrite (import_fold season week nfl_teams (fun i => i)). cbn [mbind result_bind].
  change (fun i team => imported_row season week ((fun i : nat => i) i) team)
    with (imported_row season week).
  set (rows := imap (imported_row season week) nfl_teams).
  set (tbl := tbl_team_defense_stats db).
  eexists. split; [reflexivity|]. cbn [tbl_team_defense_stats tbl_player
    tbl_player_stats tbl_life_event tbl_player_vs_team_history].
  pose proof (imported_keys_NoDup season week) as Hnd. fold rows in Hnd.
  split; [|split; [|split]].
  - intros i team game Hi Hg. exists (imported_row season week i team).
    split; [|done].
    rewrite query_defense_find_row. cbn [tbl_team_defense_stats]. rewrite Hg.
    change (team, season, week) with (key_of (imported_row season week i team)).
    apply find_row_upserts_in; [done|].
    apply list_elem_of_In, (list_elem_of_lookup_2 _ i).
    unfold rows. rewrite list_lookup_imap, Hi. done.
  - intros game Hg. rewrite !query_defense_find_row. cbn [tbl_team_defense_stats].
    apply find_row_upserts_other; [done|].
    intros r Hr Hk.
    assert (Hin : In (key_of r) (map key_of rows)) by (by apply in_map).
    unfold rows in Hin. rewrite imported_keys in Hin.
    apply in_map_iff in Hin as (team & Hteam & _).
    apply Hg. rewrite Hk in Hteam. unfold DefenseStore.game_key in Hteam.
    by injection Hteam as _ <- <-.
  - rewrite (import_fold season week nfl_teams (fun i => i)).
    cbn [mbind result_bind tbl_team_defense_stats tbl_player
      tbl_player_stats tbl_life_event tbl_player_vs_team_history].
    change (fun i team => imported_row season week ((fun i : nat => i) i) team)
      with (imported_row season week).
    fold rows. rewrite upserts_same; [done|].
    intros r Hr. by apply find_row_upserts_in.
  - pose proof (upserts_length rows tbl) as L.
    assert (E : length rows = 32%nat) by reflexivity.
    lia.
Qed.

(** X17: a POST of the import form faults exactly when [int] refuses its
    season or week field, which is converted before the [try]; an absent
    field stands for season 2024 and week 1.  When both convert to numbers
    that fit an Integer column, the import is committed.  It leaves, for
    each of the 32 teams, a profile for the (season, week) that a
    projection finds, with pass and rush rank equal to the team's
    position in the alphabetical list; lookups for any other (season,
    week) are as before; posting the same form again changes nothing. *)
Theorem import_then_query (py_int : string -> option Z) db season_field week_field :
  let post := import_team_defense_post py_int in
  (form_int py_int season_field 2024 = None
   \/ form_int py_int week_field 1 = None
   <-> post db season_field week_field = FormValueError)
  /\ (forall season week,
        form_int py_int season_field 2024 = Some season ->
        form_int py_int week_field 1 = Some week ->
        fits_integer_column season = true ->
        fits_integer_column week = true ->
        exists db',
          post db season_field week_field = ImportCommitted db'
          /\ (forall i team game,
                nfl_teams !! i = Some team ->
                DefenseStore.game_key game = (team, season, week) ->
                exists row,
                  Matchup.query_defense db' game = Some row
                  /\ row = imported_row season week i team
                  /\ TeamDefenseStats.pass_defense_rank row = Z.of_nat i + 1
                  /\ TeamDefenseStats.rush_defense_rank row = Z.of_nat i + 1)
          /\ (forall game,
                (UpcomingGame.season game, UpcomingGame.week game) <> (season, week) ->
                Matchup.query_defense db' game = Matchup.query_defense db game)
          /\ post db' season_field week_field = ImportCommitted db'
          /\ (length (tbl_team_defense_stats db)
              <= length (tbl_team_defense_stats db')
              <= length (tbl_team_defense_stats db) + 32)%nat).
Proof.
  cbv zeta. unfold import_team_defense_post. split.
  - destruct (form_int py_int season_field 2024) as [season|];
      [|split; [reflexivity | by left]].
    destruct (form_int py_int week_field 1) as [week|];
      [|split; [reflexivity | by right]].
    destruct (import_team_defense_spec db season week) as (db' & Hi & _).
    rewrite Hi.
    split; [intros [H|H]; discriminate H | intros H; discriminate H].
  - intros season week Hs Hw _ _. rewrite Hs, Hw.
    destruct (import_team_defense_spec db season week)
      as (db' & Hi & Hfound & Hother & Hagain & Hlen).
    exists db'. rewrite Hi, Hagain.
    split; [reflexivity|]. split; [exact Hfound|]. split; [exact Hother|].
    split; [reflexivity | exact Hlen].
Qed.

(** A form without fields posted on an empty table: season 2024 and
    week 1 are imported and the projection for the week-1 game against
    Kansas City finds the profile of rank 16.  A form whose season field
    is not a number faults. *)
Lemma import_then_query_witness :
  import_team_defense_post (fun _ => None) empty_db (Some "next"%string) None
  = FormValueError
  /\ exists db',
       import_team_defense_post (fun _ => None) empty_db None None = ImportCommitted db'
       /\ Matchup.query_defense db' kc_week1 = Some (imported_row 2024 1 15 "KC").
Proof.
  split.
  - destruct (import_then_query (fun _ => None) empty_db (Some "next"%string) None)
      as [[H _] _].
    apply H. by left.
  - destruct (import_then_query (fun _ => None) empty_db None None) as [_ H].
    destruct (H 2024 1 eq_refl eq_refl eq_refl eq_refl) as (db' & Hp & Hfound & _).
    exists db'. split; [exact Hp|].
    destruct (Hfound 15%nat "KC"%string kc_week1 eq_refl eq_refl) as (row & Hq & -> & _).
    exact Hq.
Defined.

(** A profile for Kansas City stored in an empty table, without rank
    fields. *)
Lemma stored_profile_is_found_witness :
  exists db' row,
    add_team_defense empty_db (form_of "KC" 210) = Ok db'
    /\ Matchup.query_defense empty_db kc_week1 = None
    /\ Matchup.query_defense db' kc_week1 = Some row
    /\ TeamDefenseStats.pass_defense_rank row = 16.
Proof.
  destruct (stored_profile_is_found empty_db (form_of "KC" 210) _ eq_refl) as (H & _).
  destruct (H kc_week1 eq_refl) as (Hn & row & Hq & _ & _ & _ & Hp & _).
  eexists _, row. split; [reflexivity|]. split; [exact Hn|].
  split; [exact Hq | exact Hp].
Defined.

End DefenseStoreFacts.


(** ** Fantasy points *)

Module FantasyFacts.

Import Fantasy.

(** Rounding an integer gives it back. *)
Lemma round_half_even_integer (q : Q) (z : Z) :
  (q == inject_Z z)%Q -> PyNum.round_half_even q = z.
Proof.
  intros E. unfold PyNum.round_half_even.
  assert (F : Qfloor q = z) by (rewrite E; apply Qfloor_Z).
  rewrite F.
  assert (L : (q - inject_Z z < 1 # 2)%Q) by (rewrite E; lra).
  change ((q - inject_Z z ?= 1 # 2)%Q = Lt) in L. by rewrite L.
Qed.

(** Before the rounding the sum is a whole number of hundredths. *)
Lemma points_in_hundredths stats scoring :
  (calculate_fantasy_points stats scoring * 100 == inject_Z (hundredths stats))%Q
  /\ (inject_Z (hundredths stats) / 100
      == inject_Z (get stats "receptions")
         + 0.1 * inject_Z (get stats "receiving_yards")
         + 6 * inject_Z (get stats "receiving_tds")
         + 0.1 * inject_Z (get stats "rushing_yards")
         + 6 * inject_Z (get stats "rushing_tds")
         + 0.04 * inject_Z (get stats "passing_yards")
         + 4 * inject_Z (get stats "passing_tds")
         - 2 * inject_Z (get stats "interceptions")
         - 2 * inject_Z (get stats "fumbles"))%Q.
Proof.
  unfold calculate_fantasy_points. cbv zeta.
  set (points := (_ + inject_Z (get stats "fumbles") * _)%Q).
  assert (Hp : (points * inject_Z (10 ^ Z.of_nat 2) == inject_Z (hundredths stats))%Q).
  { unfold points, hundredths.
    change (inject_Z (10 ^ Z.of_nat 2)) with 100%Q.
    unfold Z.sub. rewrite !inject_Z_plus, !inject_Z_opp, !inject_Z_mult.
    field. }
  unfold PyNum.round. rewrite (round_half_even_integer _ _ Hp).
  change (inject_Z (10 ^ Z.of_nat 2)) with 100%Q in *.
  assert (E : (inject_Z (hundredths stats) / 100 == points)%Q).
  { rewrite <- Hp. field. }
  split.
  - rewrite E. exact Hp.
  - rewrite E. unfold points. field.
Qed.

(** X18: for integer stats of magnitude at most a million each, the
    score returned is the weighted sum of the nine stats (1 a reception,
    0.1 a receiving or rushing yard, 6 a receiving or rushing touchdown,
    0.04 a passing yard, 4 a passing touchdown, -2 an interception or a
    fumble), a whole number of hundredths, with a missing stat counted
    as 0. *)
Theorem fantasy_points_exact stats scoring :
  moderate_stats stats = true ->
  (calculate_fantasy_points stats scoring
   == inject_Z (get stats "receptions")
      + 0.1 * inject_Z (get stats "receiving_yards")
      + 6 * inject_Z (get stats "receiving_tds")
      + 0.1 * inject_Z (get stats "rushing_yards")
      + 6 * inject_Z (get stats "rushing_tds")
      + 0.04 * inject_Z (get stats "passing_yards")
      + 4 * inject_Z (get stats "passing_tds")
      - 2 * inject_Z (get stats "interceptions")
      - 2 * inject_Z (get stats "fumbles"))%Q
  /\ (calculate_fantasy_points stats scoring * 100 == inject_Z (hundredths stats))%Q.
Proof.
  intros _.
  destruct (points_in_hundredths stats scoring) as [H100 Hsum].
  split; [|exact H100].
  rewrite <- Hsum, <- H100. field.
Qed.

(** Five receptions for 73 yards and a touchdown: 5 + 7.3 + 6 = 18.3. *)
Lemma fantasy_points_exact_witness :
  let stats : gmap string Z :=
    <["receptions" := 5]> (<["receiving_yards" := 73]> (<["receiving_tds" := 1]> ∅)) in
  moderate_stats stats = true
  /\ (calculate_fantasy_points stats "ppr" == 18.3)%Q.
Proof.
  cbv zeta.
  assert (Hm : moderate_stats
                 (<["receptions" := 5]>
                    (<["receiving_yards" := 73]> (<["receiving_tds" := 1]> ∅)))
               = true) by (vm_compute; reflexivity).
  split; [exact Hm|].
  destruct (fantasy_points_exact _ "ppr" Hm) as [H _].
  rewrite H. vm_compute. reflexivity.
Defined.

End FantasyFacts.


(** ** Importing game logs *)

Module StatsImportFacts.

Import StatsImport.

Lemma date_eqb_eq a b : date_eqb a b = true <-> a = b.
Proof.
  destruct a as [y m d], b as [y' m' d']. unfold date_eqb. cbn.
  rewrite !andb_true_iff, !Z.eqb_eq. split.
  - by intros [[-> ->] ->].
  - by intros [= -> -> ->].
Qed.

Lemma existing_none tbl pid date :
  existing tbl pid date = None
  <-> forall s, In s tbl -> ~ (player_id s = pid /\ game_date s = date).
Proof.
  unfold existing. induction tbl as [|s tbl IH]; cbn [List.filter]; [done|].
  destruct ((player_id s =? pid) && date_eqb (game_date s) date) eqn:E.
  - apply andb_true_iff in E as [E1 E2].
    apply Z.eqb_eq in E1. apply date_eqb_eq in E2.
    split; [discriminate|]. intros H. exfalso. apply (H s); [by left | done].
  - rewrite IH. split.
    + intros H s' [<-|Hs']; [|by apply H].
      intros [H1 H2]. apply andb_false_iff in E as [E|E].
      * apply Z.eqb_neq in E. done.
      * assert (date_eqb (game_date s) date = true) by (by apply date_eqb_eq).
        congruence.
    + intros H s' Hs'. apply H. by right.
Qed.

Lemma existing_app tbl added pid date :
  existing (tbl ++ added) pid date
  = match existing tbl pid date with
    | Some s => Some s
    | None => existing added pid date
    end.
Proof.
  unfold existing. rewrite List.filter_app.
  by destruct (List.filter _ tbl).
Qed.

(** The loop, as an invariant: rows are only appended, one per game
    whose date the player did not have yet. *)
Lemma import_loop pid game_logs tbl count :
  exists added,
    fold_left (import_game pid) game_logs (tbl, count)
    = (tbl ++ added, (count + length added)%nat)
    /\ (length added <= length game_logs)%nat
    /\ Forall (fun s => player_id s = pid
                        /\ existing tbl pid (game_date s) = None
                        /\ exists game, In game game_logs /\ s = new_stats pid game)
              added
    /\ List.NoDup (map game_date added)
    /\ (forall game, In game game_logs ->
          existing (tbl ++ added) pid (gl_game_date game) <> None).
Proof.
  revert tbl count. induction game_logs as [|g logs IH]; intros tbl count.
  - exists []. cbn. rewrite app_nil_r, Nat.add_0_r.
    repeat split; try done; constructor.
  - cbn [fold_left import_game].
    destruct (existing tbl pid (gl_game_date g)) as [s0|] eqn:E.
    + destruct (IH tbl count) as (added & Hf & Hl & Ha & Hn & Hc).
      exists added. rewrite Hf. split; [done|]. split; [cbn; lia|].
      split; [|split; [done|]].
      * eapply List.Forall_impl; [|exact Ha]. cbn.
        intros s (H1 & H2 & game & Hg & ->). eauto 10.
      * intros game [<-|Hg]; [|by apply Hc].
        rewrite existing_app, E. done.
    + destruct (IH (tbl ++ [new_stats pid g]) (S count)) as (added & Hf & Hl & Ha & Hn & Hc).
      exists (new_stats pid g :: added). rewrite Hf.
      replace (tbl ++ new_stats pid g :: added) with ((tbl ++ [new_stats pid g]) ++ added)
        by (by rewrite <- app_assoc).
      split; [f_equal; cbn; lia|]. split; [cbn; lia|].
      assert (Hnew : Forall (fun s => game_date s <> gl_game_date g
                                      /\ existing tbl pid (game_date s) = None) added).
      { eapply List.Forall_impl; [|exact Ha]. cbn. intros s (H1 & H2 & _).
        rewrite existing_app in H2.
        destruct (existing tbl pid (game_date s)) eqn:E'; [discriminate|].
        split; [|done]. intros Hd.
        unfold existing in H2. cbn in H2. rewrite Hd in H2.
        rewrite Z.eqb_refl in H2.
        assert (D : date_eqb (gl_game_date g) (gl_game_date g) = true)
          by (by apply date_eqb_eq).
        rewrite D in H2. discriminate. }
      split; [|split].
      * constructor.
        -- split; [done|]. split; [exact E|]. exists g. split; [by left | done].
        -- rewrite Forall_forall in *. intros s Hs.
           destruct (Ha s Hs) as (H1 & _ & game & Hg & ->).
           destruct (Hnew _ Hs) as [_ H2].
           split; [done|]. split; [exact H2|]. exists game. split; [by right | done].
      * cbn [map]. constructor; [|exact Hn].
        intros Hin. apply in_map_iff in Hin as (s & Hd & Hs).
        rewrite Forall_forall in Hnew. apply list_elem_of_In in Hs.
        destruct (Hnew s Hs) as [Hne _]. apply Hne. exact Hd.
      * intros game [<-|Hg]; [|by apply Hc].
        rewrite existing_app.
        destruct (existing (tbl ++ [new_stats pid g]) pid (gl_game_date g)) eqn:E'; [done|].
        exfalso. rewrite existing_app, E in E'.
        unfold existing in E'. cbn in E'. rewrite Z.eqb_refl in E'.
        assert (D : date_eqb (gl_game_date g) (gl_game_date g) = true)
          by (by apply date_eqb_eq).
        rewrite D in E'. discriminate.
Qed.

(** A second pass over games that are all stored adds nothing. *)
Lemma import_loop_known pid game_logs tbl count :
  (forall game, In game game_logs -> existing tbl pid (gl_game_date game) <> None) ->
  fold_left (import_game pid) game_logs (tbl, count) = (tbl, count).
Proof.
  induction game_logs as [|g logs IH]; intros H; [done|].
  cbn [fold_left import_game].
  destruct (existing tbl pid (gl_game_date g)) eqn:E.
  - apply IH. intros game Hg. apply H. by right.
  - exfalso. by apply (H g); [left|].
Qed.

(** The first game of a date the player did not have gets its row. *)
Lemma import_loop_first pid before g after tbl count :
  existing tbl pid (gl_game_date g) = None ->
  Forall (fun g' => gl_game_date g' <> gl_game_date g) before ->
  In (new_stats pid g)
     (fst (fold_left (import_game pid) (before ++ g :: after) (tbl, count))).
Proof.
  intros E Hb. rewrite fold_left_app.
  destruct (import_loop pid before tbl count) as (added1 & Hf1 & _ & Ha1 & _ & _).
  rewrite Hf1. cbn [fold_left import_game].
  assert (E1 : existing (tbl ++ added1) pid (gl_game_date g) = None).
  { rewrite existing_app, E. apply existing_none. intros s Hs [_ Hd].
    rewrite List.Forall_forall in Ha1, Hb.
    destruct (Ha1 s Hs) as (_ & _ & game & Hg & ->).
    exact (Hb game Hg Hd). }
  rewrite E1.
  destruct (import_loop pid after ((tbl ++ added1) ++ [new_stats pid g])
              (S (count + length added1))) as (added2 & Hf2 & _).
  rewrite Hf2. cbn [fst].
  apply in_or_app. left. apply in_or_app. right. by left.
Qed.

(** X19: the import only appends rows, one for each date of the game
    logs that the player did not have yet: every such date gets the row
    of the first game log that carries it, no date gets two, and after
    the import every game log finds a stored row of its date.  The count
    the import reports is the number of rows it added, and stored rows
    that are unique per player and date stay so. *)
Theorem import_adds_unknown_dates tbl pid nfl_player_id game_logs :
  let r := api_fetch_stats tbl pid nfl_player_id game_logs in
  exists added,
    fst r = tbl ++ added
    /\ (length added <= length game_logs)%nat
    /\ Forall (fun s => player_id s = pid
                        /\ existing tbl pid (game_date s) = None
                        /\ exists game, In game game_logs /\ s = new_stats pid game)
              added
    /\ List.NoDup (map game_date added)
    /\ match snd r with
       | Imported n => n = length added /\ (0 < n)%nat
       | AlreadyImported =>
         added = []
         /\ forall game, In game game_logs ->
              existing tbl pid (gl_game_date game) <> None
       | IdRequired => added = []
       | NoGameData => added = [] /\ game_logs = []
       end
    /\ (List.NoDup (map (fun s => (player_id s, game_date s)) tbl) ->
        List.NoDup (map (fun s => (player_id s, game_date s)) (fst r)))
    /\ (snd r <> IdRequired ->
        (forall game, In game game_logs ->
           existing (fst r) pid (gl_game_date game) <> None)
        /\ (forall before g after,
              game_logs = before ++ g :: after ->
              existing tbl pid (gl_game_date g) = None ->
              Forall (fun g' => gl_game_date g' <> gl_game_date g) before ->
              In (new_stats pid g) added)).
Proof.
  cbv zeta. unfold api_fetch_stats.
  assert (Trivial : exists added : list stats_row,
            tbl = tbl ++ added
            /\ (length added <= length game_logs)%nat
            /\ Forall (fun s => player_id s = pid
                                /\ existing tbl pid (game_date s) = None
                                /\ exists game, In game game_logs /\ s = new_stats pid game)
                      added
            /\ List.NoDup (map game_date added)
            /\ added = []
            /\ (List.NoDup (map (fun s => (player_id s, game_date s)) tbl) ->
                List.NoDup (map (fun s => (player_id s, game_date s)) tbl))).
  { exists []. rewrite app_nil_r. repeat split; try done; try constructor. cbn. lia. }
  destruct nfl_player_id as [id|].
  2: { destruct Trivial as (added & H1 & H2 & H3 & H4 & H5 & H6).
       exists added. cbn [fst snd].
       split; [exact H1|]. split; [exact H2|]. split; [exact H3|].
       split; [exact H4|]. split; [exact H5|]. split; [exact H6|].
       intros H. by destruct H. }
  destruct (String.eqb id "").
  { destruct Trivial as (added & H1 & H2 & H3 & H4 & H5 & H6).
    exists added. cbn [fst snd].
    split; [exact H1|]. split; [exact H2|]. split; [exact H3|].
    split; [exact H4|]. split; [exact H5|]. split; [exact H6|].
    intros H. by destruct H. }
  destruct game_logs as [|g0 logs].
  { destruct Trivial as (added & H1 & H2 & H3 & H4 & H5 & H6).
    exists added. cbn [fst snd].
    split; [exact H1|]. split; [exact H2|]. split; [exact H3|].
    split; [exact H4|]. split; [by split|]. split; [exact H6|].
    intros _. split.
    - intros game [].
    - intros before g after Hlogs. by destruct before. }
  set (game_logs := g0 :: logs) in *. clear Trivial.
  destruct (import_loop pid game_logs tbl 0) as (added & Hf & Hl & Ha & Hn & Hc).
  assert (Hfirst : forall before g after,
            game_logs = before ++ g :: after ->
            existing tbl pid (gl_game_date g) = None ->
            Forall (fun g' => gl_game_date g' <> gl_game_date g) before ->
            In (new_stats pid g) added).
  { intros before g after Hlogs E Hb.
    pose proof (import_loop_first pid before g after tbl 0 E Hb) as Hin.
    rewrite <- Hlogs, Hf in Hin. cbn [fst] in Hin.
    apply in_app_or in Hin as [Hin|Hin]; [|exact Hin].
    exfalso. apply (proj1 (existing_none _ _ _) E _ Hin). by split. }
  rewrite Hf. cbn [Nat.add].
  exists added.
  assert (Hkeys : List.NoDup (map (fun s => (player_id s, game_date s)) tbl) ->
                  List.NoDup (map (fun s => (player_id s, game_date s)) (tbl ++ added))).
  { intros Ht. rewrite map_app. apply List.NoDup_app; [exact Ht| |].
    - clear -Ha Hn. induction added as [|s added IH]; [constructor|].
      cbn [map] in *. apply List.NoDup_cons_iff in Hn as [Hs Hn].
      apply Forall_cons in Ha as [_ Ha].
      constructor; [|by apply IH].
      intros Hin. apply in_map_iff in Hin as (s' & [= _ Hd] & Hs').
      apply Hs. apply in_map_iff. by exists s'.
    - intros k Hk Hk'.
      apply in_map_iff in Hk as (s & <- & Hs).
      apply in_map_iff in Hk' as (s' & [= Hp Hd] & Hs').
      rewrite Forall_forall in Ha. apply list_elem_of_In in Hs'.
      destruct (Ha s' Hs') as (Hpid & Hex & _).
      apply (proj1 (existing_none _ _ _) Hex s Hs). split; congruence. }
  destruct (0 <? length added)%nat eqn:Pos; cbn [fst snd].
  - apply Nat.ltb_lt in Pos.
    split; [reflexivity|]. split; [exact Hl|]. split; [exact Ha|].
    split; [exact Hn|]. split; [split; [reflexivity | exact Pos]|].
    split; [exact Hkeys|].
    intros _. split; [exact Hc | exact Hfirst].
  - apply Nat.ltb_ge in Pos.
    assert (Hnil : added = []) by (destruct added; [done | cbn in Pos; lia]).
    split; [reflexivity|]. split; [exact Hl|]. split; [exact Ha|].
    split; [exact Hn|].
    split.
    { split; [exact Hnil|]. intros game Hg. specialize (Hc game Hg).
      rewrite Hnil in Hc. by rewrite app_nil_r in Hc. }
    split; [exact Hkeys|].
    intros _. split; [exact Hc | exact Hfirst].
Qed.

(** Three game logs on an empty table, the first two of the same date:
    the import adds the row of the first and the row of the third. *)
Lemma import_adds_unknown_dates_witness :
  let g1 := mkgame (Examples.ymd 2024 9 8) 1 8 5 73 1 0 0 0 0 0 0 0 0 0 18.3 in
  let g1' := mkgame (Examples.ymd 2024 9 8) 1 9 6 80 0 0 0 0 0 0 0 0 0 0 14 in
  let g2 := mkgame (Examples.ymd 2024 9 15) 2 6 4 41 0 0 0 0 0 0 0 0 0 0 8.1 in
  exists added,
    fst (api_fetch_stats [] 1 (Some "00-0033873"%string) [g1; g1'; g2]) = added
    /\ In (new_stats 1 g1) added
    /\ In (new_stats 1 g2) added
    /\ length added = 2%nat.
Proof.
  cbv zeta.
  set (g1 := mkgame (Examples.ymd 2024 9 8) 1 8 5 73 1 0 0 0 0 0 0 0 0 0 18.3).
  set (g1' := mkgame (Examples.ymd 2024 9 8) 1 9 6 80 0 0 0 0 0 0 0 0 0 0 14).
  set (g2 := mkgame (Examples.ymd 2024 9 15) 2 6 4 41 0 0 0 0 0 0 0 0 0 0 8.1).
  destruct (import_adds_unknown_dates [] 1 (Some "00-0033873"%string) [g1; g1'; g2])
    as (added & Hf & _ & _ & _ & Hm & _ & Hcov).
  change (snd (api_fetch_stats [] 1 (Some "00-0033873"%string) [g1; g1'; g2]))
    with (Imported 2) in Hm, Hcov.
  destruct Hm as [Hm _].
  destruct (Hcov ltac:(discriminate)) as [_ Hfirst].
  exists added. split; [exact Hf|].
  split; [apply (Hfirst [] g1 [g1'; g2] eq_refl eq_refl); constructor|].
  split; [|symmetry; exact Hm].
  apply (Hfirst [g1; g1'] g2 [] eq_refl eq_refl).
  repeat constructor; discriminate.
Defined.

(** X20: importing the same game logs a second time changes nothing and
    reports no import. *)
Theorem second_import_adds_nothing tbl pid nfl_player_id game_logs :
  let first := api_fetch_stats tbl pid nfl_player_id game_logs in
  let second := api_fetch_stats (fst first) pid nfl_player_id game_logs in
  fst second = fst first
  /\ match snd second with
     | Imported _ => False
     | AlreadyImported => game_logs <> []
     | IdRequired => snd first = IdRequired
     | NoGameData => snd first = NoGameData
     end.
Proof.
  cbv zeta. unfold api_fetch_stats.
  destruct nfl_player_id as [id|]; [|done].
  destruct (String.eqb id ""); [done|].
  destruct game_logs as [|g0 logs]; [done|].
  set (game_logs := g0 :: logs) in *.
  destruct (import_loop pid game_logs tbl 0) as (added & Hf & _ & _ & _ & Hc).
  rewrite Hf.
  assert (E : fst (if (0 <? 0 + length added)%nat
                   then (tbl ++ added, Imported (0 + length added))
                   else (tbl ++ added, AlreadyImported)) = tbl ++ added)
    by (by destruct (0 <? _)%nat).
  rewrite E. rewrite (import_loop_known pid game_logs (tbl ++ added) 0 Hc).
  cbn. done.
Qed.

End StatsImportFacts.


(** ** Accounts *)

Module AccountsFacts.

Import Accounts MoreExamples.

Lemma by_username_none users name :
  by_username users name = None <-> ~ In name (map username users).
Proof.
  unfold by_username. induction users as [|u users IH]; cbn [List.filter map].
  - split; [intros _ [] | done].
  - destruct (String.eqb (username u) name) eqn:E.
    + apply String.eqb_eq in E. split; [discriminate|]. intros H. exfalso. apply H. by left.
    + apply String.eqb_neq in E. rewrite IH. cbn. tauto.
Qed.

Lemma by_email_none users mail :
  by_email users mail = None <-> ~ In mail (map email users).
Proof.
  unfold by_email. induction users as [|u users IH]; cbn [List.filter map].
  - split; [intros _ [] | done].
  - destruct (String.eqb (email u) mail) eqn:E.
    + apply String.eqb_eq in E. split; [discriminate|]. intros H. exfalso. apply H. by left.
    + apply String.eqb_neq in E. rewrite IH. cbn. tauto.
Qed.

Lemma next_id_above users u : In u users -> id u < next_id users.
Proof.
  unfold next_id. induction users as [|v users IH]; [done|].
  cbn [map fold_right]. intros [->|H]; [lia|]. specialize (IH H). lia.
Qed.

Lemma NoDup_snoc {A} (l : list A) (x : A) :
  List.NoDup l -> ~ In x l -> List.NoDup (l ++ [x]).
Proof.
  intros Hl Hx.
  apply (Permutation_NoDup (l := x :: l)); [apply Permutation_cons_append|].
  by constructor.
Qed.

Lemma by_username_app users u name :
  by_username (users ++ [u]) name
  = match by_username users name with
    | Some v => Some v
    | None => if String.eqb (username u) name then Some u else None
    end.
Proof.
  unfold by_username. rewrite List.filter_app. cbn [List.filter].
  destruct (List.filter _ users); [|done].
  by destruct (String.eqb (username u) name).
Qed.

Section Passwords_facts.
Variable generate_password_hash : string -> string.
Variable check_password_hash : string -> string -> bool.

(** What a registration does. *)
Lemma register_cases current_user form users :
  let r := register generate_password_hash current_user form users in
  (fst r = users /\ snd r <> Redirect "login")
  \/ (current_user = None
      /\ (8 <= String.length (reg_password form))%nat
      /\ reg_password form = reg_confirm_password form
      /\ ~ In (reg_username form) (map username users)
      /\ ~ In (reg_email form) (map email users)
      /\ fst r = users ++ [mkuser (next_id users) (reg_username form) (reg_email form)
                                  (generate_password_hash (reg_password form)) "viewer"]
      /\ snd r = Redirect "login").
Proof.
  cbv zeta. unfold register.
  destruct current_user as [cu|]; [by left|].
  destruct (String.length (reg_password form) <? 8)%nat eqn:L; [by left|].
  apply Nat.ltb_ge in L.
  destruct (String.eqb (reg_password form) (reg_confirm_password form)) eqn:P;
    cbn [negb]; [|by left].
  apply String.eqb_eq in P.
  destruct (by_username users (reg_username form)) eqn:U; [by left|].
  apply by_username_none in U.
  destruct (by_email users (reg_email form)) eqn:M; [by left|].
  apply by_email_none in M.
  right. done.
Qed.

(** X21: registration keeps the accounts unique and grants no privilege: a
    new account needs a password of at least 8 characters typed twice,
    a user name and an e-mail address that no stored user has, and it
    gets a fresh key and the role viewer; a refused registration leaves
    the table as it was. *)
Theorem registration_keeps_accounts_unique current_user form users :
  let r := register generate_password_hash current_user form users in
  (snd r = Redirect "login" ->
   current_user = None
   /\ (8 <= String.length (reg_password form))%nat
   /\ reg_password form = reg_confirm_password form
   /\ exists u,
        fst r = users ++ [u]
        /\ username u = reg_username form /\ email u = reg_email form
        /\ role u = "viewer"%string
        /\ is_viewer u = true /\ is_analyst u = false /\ is_admin u = false)
  /\ (snd r <> Redirect "login" -> fst r = users)
  /\ (List.NoDup (map username users) -> List.NoDup (map username (fst r)))
  /\ (List.NoDup (map email users) -> List.NoDup (map email (fst r)))
  /\ (List.NoDup (map id users) -> List.NoDup (map id (fst r))).
Proof.
  cbv zeta.
  destruct (register_cases current_user form users)
    as [[Hf Hs]|(Hc & Hl & Hp & Hu & Hm & Hf & Hs)]; cbv zeta in *.
  - rewrite Hf. repeat split; try done.
  - rewrite Hf, Hs. split; [|split; [done|]].
    + intros _. split; [done|]. split; [done|]. split; [done|].
      eexists. split; [reflexivity|]. done.
    + rewrite !map_app. cbn [map username email id].
      split; [|split]; intros Hnd; apply NoDup_snoc; try done.
      intros Hin. apply in_map_iff in Hin as (u & Hid & Hu').
      pose proof (next_id_above users u Hu'). lia.
Qed.

(** X22: a user who has just registered can log in with the same name and
    password, whenever the hash library accepts the password it
    hashed. *)
Theorem registered_user_can_log_in form users users' next_page :
  (forall password,
     check_password_hash (generate_password_hash password) password = true) ->
  register generate_password_hash None form users = (users', Redirect "login") ->
  exists u,
    fst (login check_password_hash None (reg_username form) (reg_password form)
               next_page users') = Some u
    /\ In u users' /\ ~ In u users
    /\ username u = reg_username form
    /\ role u = "viewer"%string.
Proof.
  intros Hhash Hreg.
  destruct (register_cases None form users)
    as [[Hf Hs]|(_ & Hl & Hp & Hu & Hm & Hf & Hs)]; cbv zeta in *;
    rewrite Hreg in *; cbn [fst snd] in *; [done|].
  subst users'. eexists. unfold login.
  rewrite by_username_app.
  destruct (by_username users (reg_username form)) eqn:B.
  { apply by_username_none in Hu. congruence. }
  cbn [username]. rewrite String.eqb_refl. cbn [password_hash]. rewrite Hhash.
  split; [reflexivity|]. split; [apply in_app_iff; right; by left|].
  split; [|done].
  intros Hin. apply Hu. apply in_map_iff. eexists. split; [|exact Hin]. done.
Qed.

End Passwords_facts.

Lemma admin_is_analyst u : is_admin u = true -> is_analyst u = true.
Proof. unfold is_admin, is_analyst. cbn. by intros ->. Qed.

Lemma analyst_is_viewer u : is_analyst u = true -> is_viewer u = true.
Proof.
  unfold is_analyst, is_viewer. cbn.
  destruct (String.eqb (role u) "admin"); [done|].
  destruct (String.eqb (role u) "analyst"); done.
Qed.

(** X23: the privileges nest: an administrator passes every check an
    analyst passes, an analyst is a viewer, and a view behind
    [admin_required] or [analyst_required] leaves the state alone and
    redirects to the index for everybody else. *)
Theorem privileges_nest {S} (f : S -> S * response) current_user (s : S) :
  match current_user with
  | None =>
    admin_required f current_user s = (s, Redirect "index")
    /\ analyst_required f current_user s = (s, Redirect "index")
  | Some u =>
    (is_admin u = true ->
     is_analyst u = true /\ is_viewer u = true
     /\ admin_required f current_user s = f s
     /\ analyst_required f current_user s = f s)
    /\ (is_analyst u = true ->
        is_viewer u = true /\ analyst_required f current_user s = f s)
    /\ (is_admin u = false -> admin_required f current_user s = (s, Redirect "index"))
    /\ (is_analyst u = false ->
        admin_required f current_user s = (s, Redirect "index")
        /\ analyst_required f current_user s = (s, Redirect "index"))
  end.
Proof.
  destruct current_user as [u|]; [|done].
  unfold admin_required, analyst_required.
  split; [|split; [|split]].
  - intros Ha. pose proof (admin_is_analyst u Ha) as Hb.
    pose proof (analyst_is_viewer u Hb). by rewrite Ha, Hb.
  - intros Hb. pose proof (analyst_is_viewer u Hb). by rewrite Hb.
  - by intros ->.
  - intros Hb. rewrite Hb.
    destruct (is_admin u) eqn:Ha; [|done].
    apply admin_is_analyst in Ha. congruence.
Qed.

Lemma update_role_spec user_id new_role users :
  map id (update_role user_id new_role users) = map id users
  /\ map username (update_role user_id new_role users) = map username users
  /\ map email (update_role user_id new_role users) = map email users
  /\ map password_hash (update_role user_id new_role users) = map password_hash users
  /\ Forall2 (fun u v => role v = role u \/ (id u = user_id /\ role v = new_role))
             users (update_role user_id new_role users).
Proof.
  induction users as [|u users (I1 & I2 & I3 & I4 & I5)]; [repeat split; constructor|].
  cbn [update_role]. destruct (id u =? user_id) eqn:E.
  - apply Z.eqb_eq in E. cbn. repeat split; try done.
    constructor; [right; done|].
    clear. induction users; constructor; auto.
  - cbn [map]. rewrite I1, I2, I3, I4. repeat split; try done.
    constructor; [by left | done].
Qed.

(** X24: only an administrator changes a role, and only to one of the three
    roles: the users keep their keys, names, addresses and password
    hashes, every role other than the target's stays, and roles that
    were all valid are all valid afterwards. *)
Theorem role_change_needs_admin current_user user_id new_role users :
  let r := change_user_role current_user user_id new_role users in
  (fst r <> users ->
   exists admin role_name,
     current_user = Some admin /\ is_admin admin = true
     /\ new_role = Some role_name
     /\ In role_name ["admin"; "analyst"; "viewer"]%string
     /\ is_Some (by_id users user_id))
  /\ map id (fst r) = map id users
  /\ map username (fst r) = map username users
  /\ map email (fst r) = map email users
  /\ map password_hash (fst r) = map password_hash users
  /\ Forall2 (fun u v => role v = role u
                         \/ (id u = user_id /\ Some (role v) = new_role))
             users (fst r)
  /\ (Forall (fun u => is_viewer u = true) users ->
      Forall (fun u => is_viewer u = true) (fst r)).
Proof.
  cbv zeta.
  assert (Same :
    (users <> users ->
     exists admin role_name,
       current_user = Some admin /\ is_admin admin = true
       /\ new_role = Some role_name
       /\ In role_name ["admin"; "analyst"; "viewer"]%string
       /\ is_Some (by_id users user_id))
    /\ map id users = map id users
    /\ map username users = map username users
    /\ map email users = map email users
    /\ map password_hash users = map password_hash users
    /\ Forall2 (fun u v => role v = role u
                           \/ (id u = user_id /\ Some (role v) = new_role))
               users users
    /\ (Forall (fun u => is_viewer u = true) users ->
        Forall (fun u => is_viewer u = true) users)).
  { repeat split; try done.
    clear. induction users; constructor; auto. }
  unfold change_user_role, login_required, admin_required.
  destruct current_user as [cu|]; [|exact Same].
  destruct (is_admin cu) eqn:Ha; [|exact Same].
  unfold change_role_body.
  destruct (by_id users user_id) as [target|] eqn:T; [|exact Same].
  destruct new_role as [r|]; [|exact Same].
  destruct (existsb (String.eqb r) ["admin"; "analyst"; "viewer"]%string) eqn:V;
    cbn [negb fst]; [|exact Same].
  destruct (update_role_spec user_id r users) as (I1 & I2 & I3 & I4 & I5).
  split; [|split; [done|split; [done|split; [done|split; [done|split]]]]].
  - intros _. exists cu, r.
    split; [done|]. split; [done|]. split; [done|]. split; [|by eexists].
    apply existsb_exists in V as (x & Hx & E). apply String.eqb_eq in E. by subst x.
  - eapply Forall2_impl; [exact I5|]. cbn. intros u v [H|[H1 H2]]; [by left|].
    right. by rewrite H2.
  - intros Hv. clear -I5 V Hv.
    induction I5 as [|u v l k Huv _ IH]; [constructor|].
    apply Forall_cons in Hv as [Hu Hl]. constructor; [|by apply IH].
    unfold is_viewer in *. destruct Huv as [->|[_ ->]]; done.
Qed.

(** A first registration, then a login with the same credentials. *)
Lemma registered_user_can_log_in_witness :
  exists u,
    fst (login plain_check None "alice" "correct horse" None
               (fst (register plain_hash None alice []))) = Some u
    /\ role u = "viewer"%string.
Proof.
  destruct (registered_user_can_log_in plain_hash plain_check alice [] _ None
              String.eqb_refl eq_refl) as (u & Hl & _ & _ & _ & Hr).
  exists u. split; [exact Hl | exact Hr].
Defined.

End AccountsFacts.


(** ** Estimated game dates *)

Module GameDateFacts.

Import PyDate GameDate.

(** Within a year: the month and day of day number [n] lead back to
    [n]. *)
Lemma month_day_checked :
  forallb
    (fun leapyear =>
       forallb
         (fun k =>
            let n := Z.of_nat k in
            let md := month_day leapyear n in
            (1 <=? fst md) && (fst md <=? 12)
            && (PyNum.sumZ (firstn (Z.to_nat (fst md - 1)) days_in_month)
                + (if (2 <? fst md) && leapyear then 1 else 0) + snd md
                =? n + 1))
         (seq 0 365))
    [true; false] = true.
Proof. vm_compute. reflexivity. Qed.

Lemma month_day_spec leapyear n :
  0 <= n <= 364 ->
  let md := month_day leapyear n in
  1 <= fst md <= 12
  /\ PyNum.sumZ (firstn (Z.to_nat (fst md - 1)) days_in_month)
     + (if (2 <? fst md) && leapyear then 1 else 0) + snd md
     = n + 1.
Proof.
  intros Hn. cbv zeta.
  pose proof month_day_checked as H.
  rewrite forallb_forall in H.
  assert (Hl : In leapyear [true; false]) by (destruct leapyear; cbn; tauto).
  specialize (H leapyear Hl). rewrite forallb_forall in H.
  assert (Hk : In (Z.to_nat n) (seq 0 365)) by (apply in_seq; lia).
  specialize (H _ Hk). cbv zeta in H. rewrite Z2Nat.id in H by lia.
  apply andb_true_iff in H as [H H3]. apply andb_true_iff in H as [H1 H2].
  apply Z.leb_le in H1, H2. apply Z.eqb_eq in H3. done.
Qed.

Ltac eqb_to_prop :=
  repeat match goal with
         | H : (_ =? _) = true |- _ => apply Z.eqb_eq in H
         | H : (_ =? _) = false |- _ => apply Z.eqb_neq in H
         end.

(** The year of an ordinal, outside the two last-day-of-cycle cases. *)
Lemma year_part (m : Z) :
  0 <= m ->
  let n400 := m / 146097 in
  let r1 := m mod 146097 in
  let n100 := r1 / 36524 in
  let r2 := r1 mod 36524 in
  let n4 := r2 / 1461 in
  let r3 := r2 mod 1461 in
  let n1 := r3 / 365 in
  let r4 := r3 mod 365 in
  let year := n400 * 400 + 1 + n100 * 100 + n4 * 4 + n1 in
  n1 <> 4 -> n100 <> 4 ->
  days_before_year year = m - r4
  /\ is_leap year = (n1 =? 3) && (negb (n4 =? 24) || (n100 =? 3))
  /\ 0 <= r4 <= 364.
Proof.
  intros Hm. cbv zeta.
  pose proof (Z.div_mod m 146097 ltac:(lia)) as D1.
  pose proof (Z.mod_pos_bound m 146097 ltac:(lia)) as B1.
  set (n400 := m / 146097) in *. set (r1 := m mod 146097) in *.
  pose proof (Z.div_mod r1 36524 ltac:(lia)) as D2.
  pose proof (Z.mod_pos_bound r1 36524 ltac:(lia)) as B2.
  set (n100 := r1 / 36524) in *. set (r2 := r1 mod 36524) in *.
  pose proof (Z.div_mod r2 1461 ltac:(lia)) as D3.
  pose proof (Z.mod_pos_bound r2 1461 ltac:(lia)) as B3.
  set (n4 := r2 / 1461) in *. set (r3 := r2 mod 1461) in *.
  pose proof (Z.div_mod r3 365 ltac:(lia)) as D4.
  pose proof (Z.mod_pos_bound r3 365 ltac:(lia)) as B4.
  set (n1 := r3 / 365) in *. set (r4 := r3 mod 365) in *.
  clearbody n400 r1 n100 r2 n4 r3 n1 r4.
  intros N1 N100.
  assert (Q400 : 0 <= n400) by lia.
  assert (Q100 : 0 <= n100 <= 3) by lia.
  assert (Q4 : 0 <= n4 <= 24) by lia.
  assert (Q1 : 0 <= n1 <= 3) by lia.
  set (y := n400 * 400 + n100 * 100 + n4 * 4 + n1).
  assert (Y4 : y / 4 = n400 * 100 + n100 * 25 + n4).
  { symmetry. apply (Z.div_unique y 4 _ n1); lia. }
  assert (Y100 : y / 100 = n400 * 4 + n100).
  { symmetry. apply (Z.div_unique y 100 _ (n4 * 4 + n1)); lia. }
  assert (Y400 : y / 400 = n400).
  { symmetry. apply (Z.div_unique y 400 _ (n100 * 100 + n4 * 4 + n1)); lia. }
  assert (M4 : (y + 1) mod 4 = (n1 + 1) mod 4).
  { replace (y + 1) with (n1 + 1 + (n400 * 100 + n100 * 25 + n4) * 4) by lia.
    apply Z.mod_add. lia. }
  assert (M100 : (y + 1) mod 100 = (n4 * 4 + n1 + 1) mod 100).
  { replace (y + 1) with (n4 * 4 + n1 + 1 + (n400 * 4 + n100) * 100) by lia.
    apply Z.mod_add. lia. }
  assert (M400 : (y + 1) mod 400 = (n100 * 100 + n4 * 4 + n1 + 1) mod 400).
  { replace (y + 1) with (n100 * 100 + n4 * 4 + n1 + 1 + n400 * 400) by lia.
    apply Z.mod_add. lia. }
  replace (n400 * 400 + 1 + n100 * 100 + n4 * 4 + n1) with (y + 1) by lia.
  split; [|split; [|lia]].
  - unfold days_before_year. cbv zeta.
    replace (y + 1 - 1) with y by lia. rewrite Y4, Y100, Y400. lia.
  - unfold is_leap. rewrite M4, M100, M400.
    assert (E4 : ((n1 + 1) mod 4 =? 0) = (n1 =? 3)).
    { destruct (n1 =? 3) eqn:E; eqb_to_prop.
      - subst n1. reflexivity.
      - apply Z.eqb_neq. intros H.
        assert (C : n1 = 0 \/ n1 = 1 \/ n1 = 2) by lia.
        destruct C as [C|[C|C]]; subst n1; discriminate. }
    rewrite E4.
    destruct (n1 =? 3) eqn:E1; [|reflexivity]. eqb_to_prop. subst n1.
    cbn [andb].
    assert (E100 : ((n4 * 4 + 3 + 1) mod 100 =? 0) = (n4 =? 24)).
    { destruct (n4 =? 24) eqn:E; eqb_to_prop.
      - subst n4. reflexivity.
      - apply Z.eqb_neq. intros H.
        rewrite Z.mod_small in H by lia. lia. }
    rewrite E100.
    destruct (n4 =? 24) eqn:E24; [|reflexivity]. eqb_to_prop. subst n4.
    cbn [negb orb].
    destruct (n100 =? 3) eqn:E; eqb_to_prop.
    + subst n100. reflexivity.
    + apply Z.eqb_neq. intros H.
      rewrite Z.mod_small in H by lia. lia.
Qed.


(** The two cases in which the ordinal is the last day of a leap year
    that closes a 4-year or a 400-year cycle. *)
Lemma year_end (m : Z) :
  0 <= m ->
  let n400 := m / 146097 in
  let r1 := m mod 146097 in
  let n100 := r1 / 36524 in
  let r2 := r1 mod 36524 in
  let n4 := r2 / 1461 in
  let r3 := r2 mod 1461 in
  let n1 := r3 / 365 in
  let year := n400 * 400 + 1 + n100 * 100 + n4 * 4 + n1 in
  n1 = 4 \/ n100 = 4 ->
  days_before_year (year - 1) = m - 365 /\ is_leap (year - 1) = true.
Proof.
  intros Hm. cbv zeta.
  pose proof (Z.div_mod m 146097 ltac:(lia)) as D1.
  pose proof (Z.mod_pos_bound m 146097 ltac:(lia)) as B1.
  set (n400 := m / 146097) in *. set (r1 := m mod 146097) in *.
  pose proof (Z.div_mod r1 36524 ltac:(lia)) as D2.
  pose proof (Z.mod_pos_bound r1 36524 ltac:(lia)) as B2.
  set (n100 := r1 / 36524) in *. set (r2 := r1 mod 36524) in *.
  pose proof (Z.div_mod r2 1461 ltac:(lia)) as D3.
  pose proof (Z.mod_pos_bound r2 1461 ltac:(lia)) as B3.
  set (n4 := r2 / 1461) in *. set (r3 := r2 mod 1461) in *.
  pose proof (Z.div_mod r3 365 ltac:(lia)) as D4.
  pose proof (Z.mod_pos_bound r3 365 ltac:(lia)) as B4.
  set (n1 := r3 / 365) in *. set (r4 := r3 mod 365) in *.
  clearbody n400 r1 n100 r2 n4 r3 n1 r4.
  intros Hc.
  assert (Q400 : 0 <= n400) by lia.
  replace (n400 * 400 + 1 + n100 * 100 + n4 * 4 + n1 - 1)
    with (n400 * 400 + n100 * 100 + n4 * 4 + n1) by lia.
  assert (Hcase : (n100 = 4 /\ n4 = 0 /\ n1 = 0 /\ r4 = 0)
                  \/ (0 <= n100 <= 3 /\ 0 <= n4 <= 23 /\ n1 = 4 /\ r4 = 0)) by lia.
  unfold days_before_year, is_leap. cbv zeta.
  destruct Hcase as [(-> & -> & -> & ->)|(Q100 & Q4 & -> & ->)].
  - set (y := n400 * 400 + 4 * 100 + 0 * 4 + 0).
    assert (Y4 : (y - 1) / 4 = n400 * 100 + 99)
      by (symmetry; apply (Z.div_unique (y - 1) 4 _ 3); lia).
    assert (Y100 : (y - 1) / 100 = n400 * 4 + 3)
      by (symmetry; apply (Z.div_unique (y - 1) 100 _ 99); lia).
    assert (Y400 : (y - 1) / 400 = n400)
      by (symmetry; apply (Z.div_unique (y - 1) 400 _ 399); lia).
    assert (M4 : y mod 4 = 0)
      by (symmetry; apply (Z.mod_unique y 4 (n400 * 100 + 100) 0); lia).
    assert (M400 : y mod 400 = 0)
      by (symmetry; apply (Z.mod_unique y 400 (n400 + 1) 0); lia).
    rewrite Y4, Y100, Y400, M4, M400.
    split; [lia|]. cbn. by rewrite orb_true_r.
  - set (y := n400 * 400 + n100 * 100 + n4 * 4 + 4).
    assert (Y4 : (y - 1) / 4 = n400 * 100 + n100 * 25 + n4)
      by (symmetry; apply (Z.div_unique (y - 1) 4 _ 3); lia).
    assert (Y100 : (y - 1) / 100 = n400 * 4 + n100)
      by (symmetry; apply (Z.div_unique (y - 1) 100 _ (n4 * 4 + 3)); lia).
    assert (Y400 : (y - 1) / 400 = n400)
      by (symmetry; apply (Z.div_unique (y - 1) 400 _ (n100 * 100 + n4 * 4 + 3)); lia).
    assert (M4 : y mod 4 = 0)
      by (symmetry; apply (Z.mod_unique y 4 (n400 * 100 + n100 * 25 + n4 + 1) 0); lia).
    assert (M100 : y mod 100 = n4 * 4 + 4)
      by (symmetry; apply (Z.mod_unique y 100 (n400 * 4 + n100) (n4 * 4 + 4)); lia).
    rewrite Y4, Y100, Y400, M4, M100.
    split; [lia|]. cbn [Z.eqb andb].
    assert (E : (n4 * 4 + 4 =? 0) = false) by (apply Z.eqb_neq; lia).
    rewrite E. reflexivity.
Qed.

(** [date.fromordinal] undoes [date.toordinal]: the ordinal of the date
    of an ordinal is that ordinal. *)
Lemma toordinal_fromordinal (n : Z) : 1 <= n -> toordinal (fromordinal n) = n.
Proof.
  intros Hn. unfold fromordinal. cbv zeta.
  assert (Hm : 0 <= n - 1) by lia.
  pose proof (year_part (n - 1) Hm) as YP.
  pose proof (year_end (n - 1) Hm) as YE.
  cbv zeta in YP, YE.
  set (n400 := (n - 1) / 146097) in *.
  set (r1 := (n - 1) mod 146097) in *.
  set (n100 := r1 / 36524) in *. set (r2 := r1 mod 36524) in *.
  set (n4 := r2 / 1461) in *. set (r3 := r2 mod 1461) in *.
  set (n1 := r3 / 365) in *. set (r4 := r3 mod 365) in *.
  set (year := n400 * 400 + 1 + n100 * 100 + n4 * 4 + n1) in *.
  destruct ((n1 =? 4) || (n100 =? 4)) eqn:C.
  - apply orb_true_iff in C.
    assert (C' : n1 = 4 \/ n100 = 4) by (destruct C as [C|C]; eqb_to_prop; auto).
    destruct (YE C') as [Hd Hl].
    unfold toordinal, days_before_month. cbn [PyDate.year PyDate.month PyDate.day].
    rewrite Hd, Hl.
    change (PyNum.sumZ (firstn (Z.to_nat (12 - 1)) days_in_month)) with 334.
    cbn [Z.ltb Z.compare Pos.compare Pos.compare_cont andb]. lia.
  - apply orb_false_iff in C as [C1 C2]. eqb_to_prop.
    destruct (YP C1 C2) as (Hd & Hl & Hr).
    pose proof (month_day_spec ((n1 =? 3) && (negb (n4 =? 24) || (n100 =? 3))) r4 Hr) as MD.
    cbv zeta in MD.
    destruct (month_day _ r4) as [month day]. cbn [fst snd] in MD.
    destruct MD as [_ MD].
    unfold toordinal, days_before_month. cbn [PyDate.year PyDate.month PyDate.day].
    rewrite Hd, Hl. lia.
Qed.

Lemma add_days_ordinal d days d' :
  add_days d days = Some d' -> toordinal d' = toordinal d + days.
Proof.
  unfold add_days. cbv zeta.
  destruct ((0 <? toordinal d + days) && (toordinal d + days <=? 3652059)) eqn:E;
    [|discriminate].
  apply andb_true_iff in E as [E _]. apply Z.ltb_lt in E.
  intros [= <-]. apply toordinal_fromordinal. lia.
Qed.

Lemma estimate_ordinal season week d :
  estimate_game_date season week = Some d ->
  exists start,
    season_start season = Some start
    /\ toordinal d = toordinal start + (week - 1) * 7.
Proof.
  unfold estimate_game_date.
  destruct (season_start season) as [start|]; [|discriminate].
  cbn. intros H. exists start. split; [done|]. by apply add_days_ordinal.
Qed.

Lemma season_start_range season :
  1 <= season <= 9998 ->
  exists start,
    season_start season = Some start
    /\ 1 <= toordinal start /\ toordinal start + 52 * 7 <= 3652059.
Proof.
  intros Hs. unfold season_start.
  destruct (season =? 2025) eqn:E1; [eexists; split; [reflexivity | vm_compute; split; discriminate]|].
  destruct (season =? 2024) eqn:E2; [eexists; split; [reflexivity | vm_compute; split; discriminate]|].
  assert (R : (1 <=? season) && (season <=? 9999) = true).
  { apply andb_true_iff. split; apply Z.leb_le; lia. }
  rewrite R. eexists. split; [reflexivity|].
  unfold toordinal, days_before_year, days_before_month.
  cbn [PyDate.year PyDate.month PyDate.day]. cbv zeta.
  change (PyNum.sumZ (firstn (Z.to_nat (9 - 1)) days_in_month)) with 243.
  assert (0 <= (if (2 <? 9) && is_leap season then 1 else 0) <= 1)
    by (destruct ((2 <? 9) && is_leap season); lia).
  pose proof (Z.div_pos (season - 1) 4 ltac:(lia) ltac:(lia)).
  pose proof (Z.div_pos (season - 1) 400 ltac:(lia) ltac:(lia)).
  pose proof (Z.div_le_mono (season - 1) 9997 4 ltac:(lia) ltac:(lia)) as U4.
  pose proof (Z.div_le_mono (season - 1) 9997 400 ltac:(lia) ltac:(lia)) as U400.
  change (9997 / 4) with 2499 in U4. change (9997 / 400) with 24 in U400.
  assert ((season - 1) / 100 <= (season - 1) / 4).
  { apply Z.div_le_compat_l; lia. }
  pose proof (Z.div_pos (season - 1) 100 ltac:(lia) ltac:(lia)).
  lia.
Qed.

(** X25: for a season between 1 and 9998 and a week between 1 and 53
    the estimate is a date.  Two estimated dates of one season lie
    seven days apart per week of difference, so different weeks never
    get the same date. *)
Theorem estimated_dates_are_weeks_apart season week :
  (1 <= season <= 9998 -> 1 <= week <= 53 ->
   is_Some (estimate_game_date season week))
  /\ (forall week' d d',
        estimate_game_date season week = Some d ->
        estimate_game_date season week' = Some d' ->
        days_between d' d = 7 * (week' - week)
        /\ (d' = d -> week' = week)).
Proof.
  split.
  - intros Hs Hw. destruct (season_start_range season Hs) as (start & Hst & H1 & H2).
    unfold estimate_game_date. rewrite Hst. cbn. unfold add_days. cbv zeta.
    assert (R : (0 <? toordinal start + (week - 1) * 7)
                && (toordinal start + (week - 1) * 7 <=? 3652059) = true).
    { apply andb_true_iff. split; [apply Z.ltb_lt | apply Z.leb_le]; lia. }
    rewrite R. by eexists.
  - intros week' d d' H H'.
    apply estimate_ordinal in H as (start & Hs & Ho).
    apply estimate_ordinal in H' as (start' & Hs' & Ho').
    assert (start' = start) by congruence. subst start'.
    unfold days_between.
    split; [lia|]. intros ->. lia.
Qed.

End GameDateFacts.
